(** * mgsearch scrapers: extraction, pagination and deduplication

    A shallow embedding of the scraping scripts of the repository
    (snitch_scraper.py, tasva_scraper.py, add_image_urls.py) and the
    properties their specification states about them.

    Conventions of the embedding.
    - A Python [str] is the list of its Unicode code points.
    - A decoded JSON value is a [json]; a Python [dict] is an association
      list in insertion order, updated in place by [dict_set].  JSON
      numbers are the integers; floating-point values are not modelled.
    - Code that can raise returns a [result]. *)

From Stdlib Require Import String Ascii.
From Stdlib Require Import ZArith NArith Bool Lia List.
From Stdlib Require Decimal DecimalFacts DecimalPos DecimalZ.
Import ListNotations.

Set Implicit Arguments.
Set Warnings "-register-all".

(* ================================================================== *)
(** * Python values *)
(* ================================================================== *)

Module Py.

(** A str is a sequence of code points. *)
Definition str := list N.

(** The str written by an ASCII literal of the source. *)
Definition lit (s : string) : str :=
  List.map N_of_ascii (list_ascii_of_string s).

Fixpoint str_eqb (a b : str) : bool :=
  match a, b with
  | [], [] => true
  | x :: a', y :: b' => N.eqb x y && str_eqb a' b'
  | _, _ => false
  end.

(** [sep.join(parts)] *)
Fixpoint join (sep : str) (parts : list str) : str :=
  match parts with
  | [] => []
  | [p] => p
  | p :: rest => p ++ sep ++ join sep rest
  end.

(** ** Decoded JSON values *)

Inductive json : Type :=
| JNull
| JBool (b : bool)
| JInt (z : Z)
| JStr (s : str)
| JList (items : list json)
| JDict (entries : list (str * json)).

Definition dict := list (str * json).

(** Exceptions the modelled code can raise. *)
Inductive exn : Type :=
| TypeError
| AttributeError
| ZeroDivisionError.

Inductive result (A : Type) : Type :=
| Ok (a : A)
| Raise (e : exn).
Arguments Ok {A} a.
Arguments Raise {A} e.

Definition bind {A B} (m : result A) (k : A -> result B) : result B :=
  match m with
  | Ok a => k a
  | Raise e => Raise e
  end.

(** [len(l)] *)
Definition len {A} (l : list A) : Z := Z.of_nat (length l).

(** ** dict operations *)

(** [d.get(k)] with no default: [None] models a missing key. *)
Fixpoint dict_get (d : dict) (k : str) : option json :=
  match d with
  | [] => None
  | (k', v) :: d' => if str_eqb k' k then Some v else dict_get d' k
  end.

(** [k in d] *)
Definition dict_has (d : dict) (k : str) : bool :=
  match dict_get d k with Some _ => true | None => false end.

(** [d.get(k, default)] *)
Definition dict_get_default (d : dict) (k : str) (default : json) : json :=
  match dict_get d k with Some v => v | None => default end.

(** [d[k] = v]: an existing key keeps its position, a new one goes last. *)
Fixpoint dict_set (d : dict) (k : str) (v : json) : dict :=
  match d with
  | [] => [(k, v)]
  | (k', v') :: d' =>
      if str_eqb k' k then (k', v) :: d' else (k', v') :: dict_set d' k v
  end.

(** [d.pop(k, None)], the value dropped. *)
Fixpoint dict_pop (d : dict) (k : str) : dict :=
  match d with
  | [] => []
  | (k', v') :: d' =>
      if str_eqb k' k then d' else (k', v') :: dict_pop d' k
  end.

Definition keys (d : dict) : list str := List.map fst d.

(** [any(key in d for key in ks)] *)
Definition any_key_in (ks : list str) (d : dict) : bool :=
  existsb (dict_has d) ks.

(** [k in ks] for a list of str. *)
Definition str_in (k : str) (ks : list str) : bool :=
  existsb (str_eqb k) ks.

(** ** Truth value testing *)

Definition truthy (v : json) : bool :=
  match v with
  | JNull => false
  | JBool b => b
  | JInt z => negb (Z.eqb z 0)
  | JStr s => match s with [] => false | _ => true end
  | JList l => match l with [] => false | _ => true end
  | JDict d => match d with [] => false | _ => true end
  end.

Definition nonempty_str (s : str) : bool :=
  match s with [] => false | _ :: _ => true end.

Definition is_list (v : json) : bool :=
  match v with JList _ => true | _ => false end.

Definition is_dict (v : json) : bool :=
  match v with JDict _ => true | _ => false end.

(** [isinstance(v, (str, int, float, bool)) or v is None] *)
Definition is_scalar (v : json) : bool :=
  match v with
  | JNull | JBool _ | JInt _ | JStr _ => true
  | JList _ | JDict _ => false
  end.

(** The integer an [int] or [bool] stands for in arithmetic and
    comparisons; the other types raise there. *)
Definition as_int (v : json) : result Z :=
  match v with
  | JInt z => Ok z
  | JBool b => Ok (if b then 1%Z else 0%Z)
  | _ => Raise TypeError
  end.

(** ** Decimal rendering of integers: [str(n)] *)

Fixpoint uint_chars (d : Decimal.uint) : str :=
  match d with
  | Decimal.Nil => []
  | Decimal.D0 d => 48%N :: uint_chars d
  | Decimal.D1 d => 49%N :: uint_chars d
  | Decimal.D2 d => 50%N :: uint_chars d
  | Decimal.D3 d => 51%N :: uint_chars d
  | Decimal.D4 d => 52%N :: uint_chars d
  | Decimal.D5 d => 53%N :: uint_chars d
  | Decimal.D6 d => 54%N :: uint_chars d
  | Decimal.D7 d => 55%N :: uint_chars d
  | Decimal.D8 d => 56%N :: uint_chars d
  | Decimal.D9 d => 57%N :: uint_chars d
  end.

Definition str_of_Z (z : Z) : str :=
  match Z.to_int z with
  | Decimal.Pos d => uint_chars d
  | Decimal.Neg d => 45%N :: uint_chars d
  end.

(** ** Whitespace and [str.strip()] *)

(** [str.isspace] on one code point (CPython's _PyUnicode_IsWhitespace). *)
Definition isspace (c : N) : bool :=
  ((9 <=? c) && (c <=? 13) || (28 <=? c) && (c <=? 32)
   || (c =? 133) || (c =? 160) || (c =? 5760)
   || (8192 <=? c) && (c <=? 8202)
   || (c =? 8232) || (c =? 8233) || (c =? 8239) || (c =? 8287)
   || (c =? 12288))%N.

Fixpoint lstrip (s : str) : str :=
  match s with
  | c :: s' => if isspace c then lstrip s' else s
  | [] => []
  end.

Definition rstrip (s : str) : str := rev (lstrip (rev s)).

Definition strip (s : str) : str := rstrip (lstrip s).

(** ** [str.split(sep)] for a one-character separator *)

Fixpoint split_on (sep : N) (s : str) : list str :=
  match s with
  | [] => [[]]
  | c :: s' =>
      if N.eqb c sep then [] :: split_on sep s'
      else match split_on sep s' with
           | p :: ps => (c :: p) :: ps
           | [] => [[c]]
           end
  end.

(** ** [str.replace(old, new)] *)

Fixpoint strip_prefix (p s : str) : option str :=
  match p, s with
  | [], _ => Some s
  | x :: p', y :: s' => if N.eqb x y then strip_prefix p' s' else None
  | _ :: _, [] => None
  end.

(** Left to right, non-overlapping; [old] is not empty in the source.
    [fuel] bounds the number of steps by the length of the text. *)
Fixpoint replace_fuel (fuel : nat) (old new s : str) : str :=
  match fuel with
  | O => s
  | S f =>
      match strip_prefix old s with
      | Some rest =>
          match old with
          | [] => s
          | _ :: _ => new ++ replace_fuel f old new rest
          end
      | None =>
          match s with
          | [] => []
          | c :: s' => c :: replace_fuel f old new s'
          end
      end
  end.

Definition replace (old new s : str) : str :=
  replace_fuel (S (length s)) old new s.

(** ** [str(v)] and f-string formatting *)

Section Str.

(** [repr] of a list or a dict: Python's own notation for them, not
    JSON.  No property below depends on it. *)
Variable repr : json -> str.

Definition py_str (v : json) : str :=
  match v with
  | JNull => lit "None"
  | JBool true => lit "True"
  | JBool false => lit "False"
  | JInt z => str_of_Z z
  | JStr s => s
  | JList _ | JDict _ => repr v
  end.

End Str.

(** [sep.join(parts)] where the parts are values: only str is accepted. *)
Fixpoint as_strs (parts : list json) : result (list str) :=
  match parts with
  | [] => Ok []
  | JStr s :: rest =>
      match as_strs rest with
      | Ok l => Ok (s :: l)
      | Raise e => Raise e
      end
  | _ :: _ => Raise TypeError
  end.

Definition join_values (sep : str) (parts : list json) : result str :=
  match as_strs parts with
  | Ok l => Ok (join sep l)
  | Raise e => Raise e
  end.

(** ** The HTTP collaborator (a requests.Session)

    A request either fails in transport (a RequestException: time-out,
    connection failure) or is answered.  [body] is what [response.json()]
    returns, [None] when the body does not decode. *)

Record http_response : Type := Response {
  status_code : Z;
  body : option json
}.

Inductive http_result : Type :=
| TransportError
| Replied (r : http_response).

(** [response.raise_for_status()] raises on 4xx and 5xx. *)
Definition is_http_error (r : http_response) : bool :=
  ((400 <=? status_code r) && (status_code r <? 600))%Z.

(** ** The order of str, [sorted] and the list methods *)

(** [a < b] on str: lexicographic, by code point. *)
Fixpoint str_ltb (a b : str) : bool :=
  match a, b with
  | _, [] => false
  | [], _ :: _ => true
  | x :: a', y :: b' => (x <? y)%N || ((x =? y)%N && str_ltb a' b')
  end.

(** [sorted(l)] on str.  The order is total and equal str are the same
    value, so the result does not depend on the sorting algorithm. *)
Fixpoint insert_sorted (x : str) (l : list str) : list str :=
  match l with
  | [] => [x]
  | y :: l' => if str_ltb y x then y :: insert_sorted x l' else x :: l
  end.

Definition sorted (l : list str) : list str := fold_right insert_sorted [] l.

(** The elements of the set that the items of [l] are added to, one
    after the other: each of them once. *)
Definition set_of (l : list str) : list str :=
  fold_left (fun seen k => if str_in k seen then seen else seen ++ [k]) l [].

(** [l.remove(x)], called in the source only when [x in l]: the first
    occurrence goes. *)
Fixpoint list_remove (x : str) (l : list str) : list str :=
  match l with
  | [] => []
  | y :: l' => if str_eqb y x then l' else y :: list_remove x l'
  end.

(** [l.index(x)], [None] when [x] is not in [l]. *)
Fixpoint list_index (x : str) (l : list str) : option nat :=
  match l with
  | [] => None
  | y :: l' =>
      if str_eqb y x then Some O
      else match list_index x l' with
           | Some i => Some (S i)
           | None => None
           end
  end.

End Py.

(* ================================================================== *)
(** * The json module of the Python standard library *)
(* ================================================================== *)

Module PyJson.
Import Py.

(** ** json.dumps (default separators [", "] and [": "]) *)

Definition hex_digit (n : N) : N :=
  if (n <? 10)%N then (48 + n)%N else (87 + n)%N.

(** ['\\u{0:04x}'.format(n)] *)
Definition u_escape (n : N) : str :=
  [92; 117; hex_digit ((n / 4096) mod 16); hex_digit ((n / 256) mod 16);
   hex_digit ((n / 16) mod 16); hex_digit (n mod 16)]%N.

(** One character of a string under [ensure_ascii=False]: the quote, the
    backslash and the control characters below U+0020 are escaped. *)
Definition escape_char (c : N) : str :=
  (if c =? 34 then [92; 34]
   else if c =? 92 then [92; 92]
   else if c =? 10 then [92; 110]
   else if c =? 13 then [92; 114]
   else if c =? 9 then [92; 116]
   else if c =? 8 then [92; 98]
   else if c =? 12 then [92; 102]
   else if c <? 32 then u_escape c
   else [c])%N.

(** The same under [ensure_ascii=True]: everything outside U+0020..U+007E
    is escaped as well, above U+FFFF as a surrogate pair. *)
Definition escape_char_ascii (c : N) : str :=
  (if c <? 127 then escape_char c
   else if c <? 65536 then u_escape c
   else u_escape (55296 + ((c - 65536) / 1024) mod 1024)
        ++ u_escape (56320 + (c - 65536) mod 1024))%N.

Definition encode_str (ensure_ascii : bool) (s : str) : str :=
  34%N :: flat_map (if ensure_ascii then escape_char_ascii else escape_char) s
       ++ [34%N].

Fixpoint dumps_with (ensure_ascii : bool) (v : json) : str :=
  match v with
  | JNull => lit "null"
  | JBool true => lit "true"
  | JBool false => lit "false"
  | JInt z => str_of_Z z
  | JStr s => encode_str ensure_ascii s
  | JList l =>
      lit "[" ++ join (lit ", ") (List.map (dumps_with ensure_ascii) l)
              ++ lit "]"
  | JDict d =>
      lit "{"
      ++ join (lit ", ")
           (List.map (fun kv => encode_str ensure_ascii (fst kv) ++ lit ": "
                                ++ dumps_with ensure_ascii (snd kv)) d)
      ++ lit "}"
  end.

(** [json.dumps(v, ensure_ascii=False)] *)
Definition dumps (v : json) : str := dumps_with false v.

(** [json.dumps(v)] *)
Definition dumps_ascii (v : json) : str := dumps_with true v.

(** ** json.loads *)

Definition is_ws (c : N) : bool :=
  ((c =? 32) || (c =? 9) || (c =? 10) || (c =? 13))%N.

Fixpoint skip_ws (s : str) : str :=
  match s with
  | c :: s' => if is_ws c then skip_ws s' else s
  | [] => []
  end.

Definition hex_val (c : N) : option N :=
  (if (48 <=? c) && (c <=? 57) then Some (c - 48)
   else if (97 <=? c) && (c <=? 102) then Some (c - 87)
   else if (65 <=? c) && (c <=? 70) then Some (c - 55)
   else None)%N.

Definition hex4 (a b c d : N) : option N :=
  match hex_val a, hex_val b, hex_val c, hex_val d with
  | Some x, Some y, Some z, Some w => Some (((x * 16 + y) * 16 + z) * 16 + w)%N
  | _, _, _, _ => None
  end.

(** The character of a one-letter escape (the BACKSLASH table). *)
Definition unescape (e : N) : option N :=
  (if e =? 34 then Some 34
   else if e =? 92 then Some 92
   else if e =? 47 then Some 47
   else if e =? 98 then Some 8
   else if e =? 102 then Some 12
   else if e =? 110 then Some 10
   else if e =? 114 then Some 13
   else if e =? 116 then Some 9
   else None)%N.

(** scanstring, strict: the text after an opening quote, up to and
    including the closing one.  [acc] holds the decoded characters,
    last first. *)
Fixpoint scanstring (s : str) (acc : str) : option (str * str) :=
  match s with
  | [] => None
  | c :: rest =>
      if (c =? 34)%N then Some (rev acc, rest)
      else if (c =? 92)%N then
        match rest with
        | [] => None
        | e :: rest1 =>
            if (e =? 117)%N then
              match rest1 with
              | h1 :: h2 :: h3 :: h4 :: rest2 =>
                  match hex4 h1 h2 h3 h4 with
                  | None => None
                  | Some uni =>
                      if ((55296 <=? uni) && (uni <=? 56319))%N then
                        match rest2 with
                        | b :: u :: g1 :: g2 :: g3 :: g4 :: rest3 =>
                            if ((b =? 92) && (u =? 117))%N then
                              match hex4 g1 g2 g3 g4 with
                              | None => None
                              | Some uni2 =>
                                  if ((56320 <=? uni2) && (uni2 <=? 57343))%N
                                  then scanstring rest3
                                         ((65536 + ((uni - 55296) * 1024
                                                    + (uni2 - 56320)))%N :: acc)
                                  else scanstring rest2 (uni :: acc)
                              end
                            else scanstring rest2 (uni :: acc)
                        | _ => scanstring rest2 (uni :: acc)
                        end
                      else scanstring rest2 (uni :: acc)
                  end
              | _ => None
              end
            else
              match unescape e with
              | Some ch => scanstring rest1 (ch :: acc)
              | None => None
              end
        end
      else if (c <? 32)%N then None
      else scanstring rest (c :: acc)
  end.

Definition is_digit (c : N) : bool := ((48 <=? c) && (c <=? 57))%N.

Definition digit_of (c : N) : option (Decimal.uint -> Decimal.uint) :=
  (if c =? 48 then Some Decimal.D0 else if c =? 49 then Some Decimal.D1
   else if c =? 50 then Some Decimal.D2 else if c =? 51 then Some Decimal.D3
   else if c =? 52 then Some Decimal.D4 else if c =? 53 then Some Decimal.D5
   else if c =? 54 then Some Decimal.D6 else if c =? 55 then Some Decimal.D7
   else if c =? 56 then Some Decimal.D8 else if c =? 57 then Some Decimal.D9
   else None)%N.

(** The longest run of digits at the head of the text. *)
Fixpoint scan_digits (s : str) : Decimal.uint * str :=
  match s with
  | [] => (Decimal.Nil, [])
  | c :: s' =>
      match digit_of c with
      | Some d => let (u, r) := scan_digits s' in (d u, r)
      | None => (Decimal.Nil, s)
      end
  end.

(** The integer part of NUMBER_RE after the sign: [0|[1-9][0-9]*]. *)
Definition scan_int_part (s : str) : option (Decimal.uint * str) :=
  match s with
  | [] => None
  | c :: s' =>
      if (c =? 48)%N then Some (Decimal.D0 Decimal.Nil, s')
      else if is_digit c then Some (scan_digits s)
      else None
  end.

(** The fraction group [\.[0-9]+] matches here. *)
Definition has_frac (s : str) : bool :=
  match s with
  | p :: c :: _ => (p =? 46)%N && is_digit c
  | _ => false
  end.

(** The exponent group [[eE][-+]?[0-9]+] matches here. *)
Definition has_exp (s : str) : bool :=
  match s with
  | e :: c :: s' =>
      ((e =? 101) || (e =? 69))%N
      && (is_digit c
          || ((c =? 43) || (c =? 45))%N
             && match s' with c' :: _ => is_digit c' | [] => false end)
  | _ => false
  end.

(** What NUMBER_RE finds at the head of the text. *)
Inductive number_match : Type :=
| NoNumber
| IntNumber (z : Z) (rest : str)
| FloatNumber.

Definition match_number (s : str) : number_match :=
  let finish (neg : bool) (r : option (Decimal.uint * str)) :=
    match r with
    | None => NoNumber
    | Some (u, rest) =>
        if has_frac rest || has_exp rest then FloatNumber
        else IntNumber (Z.of_int (if neg then Decimal.Neg u else Decimal.Pos u))
                       rest
    end in
  match s with
  | c :: s' => if (c =? 45)%N then finish true (scan_int_part s')
               else finish false (scan_int_part s)
  | [] => NoNumber
  end.

(** [dict(pairs)]: a repeated key keeps its first position and its last
    value. *)
Definition dict_of_pairs (pairs : list (str * json)) : dict :=
  fold_left (fun d kv => dict_set d (fst kv) (snd kv)) pairs [].

(** scan_once, JSONArray and JSONObject.  [None] is a ValueError, or a
    float literal (NaN and the infinities included), which the model
    leaves out.  [fuel] bounds the number of values and of array and
    object entries read. *)
Fixpoint scan_once (fuel : nat) (s : str) {struct fuel} : option (json * str) :=
  match fuel with
  | O => None
  | S f =>
      match s with
      | [] => None
      | c :: rest =>
          if (c =? 34)%N then
            match scanstring rest [] with
            | Some (x, r) => Some (JStr x, r)
            | None => None
            end
          else if (c =? 123)%N then
            match skip_ws rest with
            | c1 :: r1 =>
                if (c1 =? 125)%N then Some (JDict [], r1)
                else object_items f (skip_ws rest) []
            | [] => None
            end
          else if (c =? 91)%N then
            match skip_ws rest with
            | c1 :: r1 =>
                if (c1 =? 93)%N then Some (JList [], r1)
                else array_items f (skip_ws rest) []
            | [] => None
            end
          else if (c =? 110)%N then
            match strip_prefix (lit "ull") rest with
            | Some r => Some (JNull, r)
            | None => None
            end
          else if (c =? 116)%N then
            match strip_prefix (lit "rue") rest with
            | Some r => Some (JBool true, r)
            | None => None
            end
          else if (c =? 102)%N then
            match strip_prefix (lit "alse") rest with
            | Some r => Some (JBool false, r)
            | None => None
            end
          else
            match match_number s with
            | IntNumber z r => Some (JInt z, r)
            | FloatNumber => None
            | NoNumber => None
            end
      end
  end

with array_items (fuel : nat) (s : str) (acc : list json) {struct fuel}
  : option (json * str) :=
  match fuel with
  | O => None
  | S f =>
      match scan_once f s with
      | None => None
      | Some (v, r) =>
          match skip_ws r with
          | c :: r' =>
              if (c =? 93)%N then Some (JList (rev (v :: acc)), r')
              else if (c =? 44)%N then array_items f (skip_ws r') (v :: acc)
              else None
          | [] => None
          end
      end
  end

with object_items (fuel : nat) (s : str) (acc : list (str * json))
  {struct fuel} : option (json * str) :=
  match fuel with
  | O => None
  | S f =>
      match s with
      | q :: r0 =>
          if (q =? 34)%N then
            match scanstring r0 [] with
            | None => None
            | Some (k, r1) =>
                match skip_ws r1 with
                | c1 :: r2 =>
                    if (c1 =? 58)%N then
                      match scan_once f (skip_ws r2) with
                      | None => None
                      | Some (v, r3) =>
                          match skip_ws r3 with
                          | c2 :: r4 =>
                              if (c2 =? 125)%N then
                                Some (JDict (dict_of_pairs (rev ((k, v) :: acc))),
                                      r4)
                              else if (c2 =? 44)%N then
                                object_items f (skip_ws r4) ((k, v) :: acc)
                              else None
                          | [] => None
                          end
                      end
                    else None
                | [] => None
                end
            end
          else None
      | [] => None
      end
  end.

(** [json.loads(s)]: one value, white space around it, nothing else. *)
Definition loads (s : str) : option json :=
  match scan_once (S (length s)) (skip_ws s) with
  | Some (v, r) => match skip_ws r with [] => Some v | _ :: _ => None end
  | None => None
  end.

(** A decoded value is well formed when no dict in it repeats a key. *)
Fixpoint distinct (ks : list str) : bool :=
  match ks with
  | [] => true
  | k :: ks' => negb (str_in k ks') && distinct ks'
  end.

Fixpoint wf_json (v : json) : bool :=
  match v with
  | JList l => forallb wf_json l
  | JDict d =>
      distinct (List.map fst d) && forallb (fun kv => wf_json (snd kv)) d
  | _ => true
  end.

End PyJson.

(* ================================================================== *)
(** * The shape of the two pagination loops *)
(* ================================================================== *)

Module Paginate.
Import Py.

(** Why a pagination loop ended: the message it prints. *)
Inductive reason : Type :=
| NoProducts
| NoMorePages
| SafetyLimit.

(** What one pass of a loop body decides, up to [if not has_more: break]. *)
Inductive verdict (state : Type) : Type :=
| Halt (r : reason) (st : state)
| More (st : state).
Arguments Halt {state} r st.
Arguments More {state} st.

Section Loop.

Variable state : Type.
Variable examine : state -> result (verdict state).
(** [page += 1] or [offset += limit] *)
Variable advance : state -> state.
(** [page > 1000] or [offset > 100000] *)
Variable over_limit : state -> bool.

(** [while True]: [fuel] bounds the number of passes, [None] when it
    runs out. *)
Fixpoint while_true (fuel : nat) (st : state)
  : option (result (reason * state)) :=
  match fuel with
  | O => None
  | S fuel' =>
      match examine st with
      | Raise e => Some (Raise e)
      | Ok (Halt r st') => Some (Ok (r, st'))
      | Ok (More st') =>
          let st'' := advance st' in
          if over_limit st'' then Some (Ok (SafetyLimit, st''))
          else while_true fuel' st''
      end
  end.

End Loop.

End Paginate.

(* ================================================================== *)
(** * Writing the records as a table: the body of save_to_csv *)
(* ================================================================== *)

Module Csv.
Import Py PyJson.

(** What the csv.DictWriter is given: the field names, then for each
    record the texts of its cells, in the order of the field names. *)
Record table : Type := Table {
  header : list str;
  rows : list (list str)
}.

(** The text of one cell: [''] for [None], [json.dumps(value)] for a dict
    or a list, [str(value)] otherwise. *)
Definition cell (value : json) : str :=
  match value with
  | JNull => []
  | JDict _ | JList _ => dumps_ascii value
  | JBool true => lit "True"
  | JBool false => lit "False"
  | JInt z => str_of_Z z
  | JStr s => s
  end.

Section Save.

Variable preferred_order : list str.

(** [sorted(all_keys)], [all_keys] the set of the keys of the records. *)
Definition sorted_keys (products : list dict) : list str :=
  sorted (set_of (flat_map keys products)).

(** [for field in preferred_order: if field in fieldnames: ...]: the
    new [ordered_fieldnames] and what is left of [fieldnames]. *)
Fixpoint prefer (preferred fieldnames ordered_fieldnames : list str)
  : list str * list str :=
  match preferred with
  | [] => (ordered_fieldnames, fieldnames)
  | field :: rest =>
      if str_in field fieldnames
      then prefer rest (list_remove field fieldnames)
                  (ordered_fieldnames ++ [field])
      else prefer rest fieldnames ordered_fieldnames
  end.

Definition ordered_fieldnames (products : list dict) : list str :=
  let (ordered, fieldnames) :=
    prefer preferred_order (sorted_keys products) [] in
  ordered ++ sorted fieldnames.

(** [row[key] = ...] for each key, then [writer.writerow(row)]. *)
Definition row (fieldnames : list str) (product : dict) : list str :=
  List.map (fun key => cell (dict_get_default product key (JStr [])))
           fieldnames.

(** The header and the rows written for the records. *)
Definition write (products : list dict) : table :=
  let fieldnames := ordered_fieldnames products in
  Table fieldnames (List.map (row fieldnames) products).

End Save.

End Csv.

(* ================================================================== *)
(** * snitch_scraper.py *)
(* ================================================================== *)

Module Snitch.
Import Py PyJson Paginate.

(** ** SnitchScraper.search *)

Section Search.

(** [self.session.get(url, params=params, timeout=30)] *)
Variable session_get : dict -> http_result.

Definition search (query : str) (page limit : Z) : json :=
  let params := [(lit "page", JInt page); (lit "limit", JInt limit);
                 (lit "keyword", JStr query)] in
  match session_get params with
  | TransportError => JDict []
  | Replied response =>
      if is_http_error response then JDict []
      else match body response with
           | Some data => data
           | None => JDict []
           end
  end.

End Search.

(** ** SnitchScraper._extract_product_info *)

(** [', '.join(str(v) if v is not None else '' for v in value)], reached
    only when every [v] is a scalar. *)
Definition scalar_text (v : json) : str :=
  match v with
  | JNull => []
  | JBool true => lit "True"
  | JBool false => lit "False"
  | JInt z => str_of_Z z
  | JStr s => s
  | JList _ | JDict _ => []
  end.

(** The value stored for one field. *)
Definition flatten_value (value : json) : json :=
  match value with
  | JNull => JNull
  | JBool b => JBool b
  | JInt z => JInt z
  | JStr s => JStr s
  | JDict _ => JStr (dumps value)
  | JList l =>
      match l with
      | [] => JStr (lit "[]")
      | _ :: _ =>
          if forallb is_scalar l
          then JStr (join (lit ", ") (List.map scalar_text l))
          else JStr (dumps value)
      end
  end.

(** [for key, value in item.items(): product[key] = ...] *)
Definition _extract_product_info (item : dict) : dict :=
  fold_left (fun product kv => dict_set product (fst kv) (flatten_value (snd kv)))
            item [].

(** The call [self._extract_product_info(item)] on a value of the
    response: [item.items()] raises on anything but a dict. *)
Definition extract_item (item : json) : result dict :=
  match item with
  | JDict d => Ok (_extract_product_info d)
  | _ => Raise AttributeError
  end.

(** ** SnitchScraper._find_products_recursive *)

Definition product_indicators : list str :=
  List.map lit ["title"; "name"; "price"; "id"; "product_id"; "image"; "url";
                "productUrl"; "selling_price"]%string.

Definition skip_keys : list str :=
  List.map lit ["children"; "className"; "routeParams"; "__PAGE__";
                "needHamBurger"; "needSearchBar"; "needDesktopIcons";
                "displayAppNudge"; "key"; "value"]%string.

(** A non-empty list whose first item is a dict with an indicator key. *)
Definition product_list (v : json) : option (list json) :=
  match v with
  | JList (JDict sample :: rest) =>
      if any_key_in product_indicators sample
      then Some (JDict sample :: rest) else None
  | _ => None
  end.

Fixpoint _find_products_recursive (data : json) (depth : nat) {struct data}
  : list json :=
  if (10 <? depth)%nat then []
  else
    match data with
    | JList _ =>
        match product_list data with
        | Some l => l
        | None => []
        end
    | JDict d =>
        (fix items (entries : list (str * json)) : list json :=
           match entries with
           | [] => []
           | (key, value) :: rest =>
               if str_in key skip_keys then items rest
               else
                 match product_list value with
                 | Some l => l
                 | None =>
                     match _find_products_recursive value (S depth) with
                     | [] => items rest
                     | item :: result => item :: result
                     end
                 end
           end) d
    | _ => []
    end.

(** ** SnitchScraper._deep_search_for_products *)

Definition deep_indicators : list str :=
  product_indicators ++ List.map lit ["product_name"; "productName"]%string.

Definition deep_skip : list str :=
  List.map lit ["children"; "className"; "routeParams"]%string.

(** [found] is the list the source appends to. *)
Fixpoint _deep_search_for_products (data : json) (depth : nat)
  (found : list dict) {struct data} : list dict :=
  if (15 <? depth)%nat then found
  else
    match data with
    | JDict d =>
        let found :=
          if any_key_in deep_indicators d
             && (negb (dict_has d (lit "children"))
                 || negb (dict_has d (lit "className")))
          then found ++ [d] else found in
        (fix items (entries : list (str * json)) (found : list dict)
           : list dict :=
           match entries with
           | [] => found
           | (key, value) :: rest =>
               if str_in key deep_skip then items rest found
               else items rest (_deep_search_for_products value (S depth) found)
           end) d found
    | JList l =>
        (fix each (l : list json) (found : list dict) : list dict :=
           match l with
           | [] => found
           | item :: rest =>
               each rest (_deep_search_for_products item (S depth) found)
           end) l found
    | _ => found
    end.

(** ** SnitchScraper._looks_like_product *)

Definition key_fields : list str :=
  List.map lit ["title"; "name"; "id"; "product_id"; "price";
                "selling_price"]%string.

Definition _looks_like_product (product : dict) : bool :=
  match product with
  | [] => false
  | _ :: _ =>
      any_key_in key_fields product
      && (negb (dict_has product (lit "children"))
          && negb (dict_has product (lit "className")))
  end.

(** ** SnitchScraper.extract_products *)

Definition nonempty (product : dict) : bool :=
  match product with [] => false | _ :: _ => true end.

(** [for item in items: product = ...; if product: products.append] *)
Fixpoint extract_each (items : list json) (products : list dict)
  : result (list dict) :=
  match items with
  | [] => Ok products
  | item :: rest =>
      bind (extract_item item) (fun product =>
        extract_each rest
          (if nonempty product then products ++ [product] else products))
  end.

(** The same over the lists found among the values of a dict. *)
Fixpoint extract_each_list (entries : list (str * json)) (products : list dict)
  : result (list dict) :=
  match entries with
  | [] => Ok products
  | (_, JList value) :: rest =>
      bind (extract_each value products) (extract_each_list rest)
  | _ :: rest => extract_each_list rest products
  end.

Definition holds_list (d : dict) (k : string) : bool :=
  match dict_get d (lit k) with Some (JList _) => true | _ => false end.

Section Extract.

(** The two searches, as [extract_products] calls them. *)
Variable find_recursive : json -> list json.
Variable deep_search : json -> list dict.

(** The value bound to [products_data]. *)
Definition products_data (data : dict) : json :=
  let field k := dict_get_default data (lit k) JNull in
  if holds_list data "data" then field "data"%string
  else if holds_list data "products" then field "products"%string
  else if holds_list data "results" then field "results"%string
  else if holds_list data "items" then field "items"%string
  else
    match dict_get data (lit "data") with
    | Some (JDict nested_data) =>
        match dict_get nested_data (lit "products") with
        | Some v => v
        | None =>
            match dict_get nested_data (lit "results") with
            | Some v => v
            | None => JList (find_recursive (JDict nested_data))
            end
        end
    | _ => JList (find_recursive (JDict data))
    end.

(** [for obj in all_objects: ... if product and looks_like_product] *)
Definition deep_products (objects : list dict) : list dict :=
  List.filter (fun p => nonempty p && _looks_like_product p)
              (List.map _extract_product_info objects).

Definition extract_products_with (data : json) : result (list dict) :=
  bind
    (match data with
     | JDict d =>
         match products_data d with
         | JList items => extract_each items []
         | JDict entries => extract_each_list entries []
         | _ => Ok []
         end
     | _ => Ok []
     end)
    (fun products =>
       match products with
       | [] => Ok (deep_products (deep_search data))
       | _ :: _ => Ok products
       end).

End Extract.

Definition extract_products (data : json) : result (list dict) :=
  extract_products_with
    (fun d => _find_products_recursive d 0)
    (fun d => _deep_search_for_products d 0 [])
    data.

(** ** SnitchScraper.remove_duplicates_by_title *)

Section Dedup.

(** [str.lower]: the Unicode case mapping, a table of the interpreter. *)
Variable lower : str -> str.
Variable repr : json -> str.

(** The normalised title, the empty str when there is none. *)
Definition normalized_title (product : dict) : str :=
  let title := dict_get_default product (lit "title") (JStr []) in
  if truthy title then strip (lower (py_str repr title)) else [].

Fixpoint dedup_loop (products : list dict) (seen_titles : list str)
  (unique_products : list dict) : list dict :=
  match products with
  | [] => unique_products
  | product :: rest =>
      let t := normalized_title product in
      if nonempty_str t && str_in t seen_titles
      then dedup_loop rest seen_titles unique_products
      else dedup_loop rest
             (if nonempty_str t then t :: seen_titles else seen_titles)
             (unique_products ++ [product])
  end.

Definition remove_duplicates_by_title (products : list dict) : list dict :=
  dedup_loop products [] [].

End Dedup.

(** ** scrape_query *)

(** The local variables of the loop; [JNull] is [None].  [fetched] logs
    the pages requested, in order. *)
Record state : Type := State {
  page : Z;
  all_products : list dict;
  total_count : json;
  total_pages : json;
  fetched : list Z
}.

Definition initial : state :=
  {| page := 1; all_products := []; total_count := JNull;
     total_pages := JNull; fetched := [] |}.

Definition item (d : dict) (k : string) : json :=
  dict_get_default d (lit k) JNull.

Definition has (d : dict) (k : string) : bool := dict_has d (lit k).

(** The pagination fields under ['data']: the new [has_more],
    [total_count] and [total_pages]. *)
Definition data_signals (data_obj : dict) (n_products n_all limit : Z)
  (total_count total_pages : json) : result (bool * json * json) :=
  bind
    (if has data_obj "total_count" then
       let total_count := item data_obj "total_count" in
       if truthy total_count && negb (limit =? 0)%Z then
         bind (as_int total_count) (fun t =>
           Ok (total_count, JInt ((t + limit - 1) / limit)%Z))
       else Ok (total_count, total_pages)
     else Ok (total_count, total_pages))
    (fun '(total_count, total_pages) =>
       match total_count with
       | JNull =>
           Ok (if has data_obj "hasMore" then truthy (item data_obj "hasMore")
               else if has data_obj "nextPage"
                       && truthy (item data_obj "nextPage") then true
               else (n_products =? limit)%Z,
               total_count, total_pages)
       | _ =>
           bind (as_int total_count) (fun t =>
             Ok ((n_all <? t)%Z, total_count, total_pages))
       end).

(** The top-level pagination fields, read when [has_more] is still false. *)
Definition top_signals (response : dict) (n_products limit page : Z)
  (total_count total_pages : json) : result (bool * json) :=
  if has response "hasMore" && truthy (item response "hasMore")
  then Ok (true, total_pages)
  else if has response "totalPages" then
    let total_pages := item response "totalPages" in
    bind (as_int total_pages) (fun t => Ok ((page <? t)%Z, total_pages))
  else if has response "nextPage" && truthy (item response "nextPage")
  then Ok (true, total_pages)
  else
    Ok ((n_products =? limit)%Z
        && match total_count with JNull => true | _ => false end,
        total_pages).

(** The continuation decision after a page that returned records. *)
Definition has_more_after (response_data : json)
  (n_products n_all limit page : Z) (total_count total_pages : json)
  : result (bool * json * json) :=
  bind
    (match response_data with
     | JDict response =>
         match dict_get response (lit "data") with
         | Some (JDict data_obj) =>
             data_signals data_obj n_products n_all limit
                          total_count total_pages
         | _ => Ok (false, total_count, total_pages)
         end
     | _ => Ok (false, total_count, total_pages)
     end)
    (fun '(has_more, total_count, total_pages) =>
       match response_data with
       | JDict response =>
           if has_more then Ok (true, total_count, total_pages)
           else
             bind (top_signals response n_products limit page
                               total_count total_pages)
                  (fun '(has_more, total_pages) =>
                     Ok (has_more, total_count, total_pages))
       | _ => Ok (has_more, total_count, total_pages)
       end).

Section Scrape.

Variable session_get : dict -> http_result.
Variable query : str.
Variable limit : Z.

(** One pass of the loop body, up to [if not has_more: break]. *)
Definition examine (st : state) : result (verdict state) :=
  let response_data := search session_get query (page st) limit in
  let fetched := fetched st ++ [page st] in
  bind (extract_products response_data) (fun products =>
    match products with
    | [] =>
        Ok (Halt NoProducts
              {| page := page st; all_products := all_products st;
                 total_count := total_count st;
                 total_pages := total_pages st; fetched := fetched |})
    | _ :: _ =>
        let all_products := all_products st ++ products in
        bind (has_more_after response_data (len products) (len all_products)
                limit (page st) (total_count st) (total_pages st))
             (fun '(has_more, total_count, total_pages) =>
                let st' := {| page := page st; all_products := all_products;
                              total_count := total_count;
                              total_pages := total_pages;
                              fetched := fetched |} in
                Ok (if has_more then More st' else Halt NoMorePages st'))
    end).

(** [page += 1] *)
Definition advance (st : state) : state :=
  {| page := page st + 1; all_products := all_products st;
     total_count := total_count st; total_pages := total_pages st;
     fetched := fetched st |}.

(** The loop, with its safety limit [if page > 1000: break]. *)
Definition scrape_loop (fuel : nat) (st : state)
  : option (result (reason * state)) :=
  while_true examine advance (fun st => (page st >? 1000)%Z) fuel st.

(** The page ceiling bounds the passes by 1000. *)
Definition scrape_query : option (result (reason * state)) :=
  scrape_loop 1000 initial.

End Scrape.

(** ** SnitchScraper.save_to_csv *)

Section Save.

Variable lower : str -> str.
Variable repr : json -> str.
(** [datetime.now().strftime("%Y%m%d_%H%M%S")] *)
Variable timestamp : str.

Definition preferred_order : list str :=
  List.map lit ["id"; "title"; "price"; "original_price"; "discount"; "brand";
                "category"; "url"; "image"; "description"; "in_stock";
                "rating"; "reviews"; "sku"; "color"; "size";
                "material"]%string.

(** The name of the file, and the table written to it; no file is
    written when there is no record. *)
Definition save_to_csv (products : list dict) (filename : option str)
  : str * option Csv.table :=
  let filename :=
    match filename with
    | Some name =>
        if nonempty_str name then name
        else lit "snitch_products_" ++ timestamp ++ lit ".csv"
    | None => lit "snitch_products_" ++ timestamp ++ lit ".csv"
    end in
  match products with
  | [] => (filename, None)
  | _ :: _ =>
      let products := remove_duplicates_by_title lower repr products in
      (filename, Some (Csv.write preferred_order products))
  end.

End Save.

End Snitch.

(* ================================================================== *)
(** * tasva_scraper.py *)
(* ================================================================== *)

Module Tasva.
Import Py PyJson Paginate.

Definition get (d : dict) (k : string) (default : json) : json :=
  dict_get_default d (lit k) default.

Definition set (d : dict) (k : string) (v : json) : dict :=
  dict_set d (lit k) v.

Definition has (d : dict) (k : string) : bool := dict_has d (lit k).

Definition text (s : string) : json := JStr (lit s).

(** The credentials of a TasvaScraper. *)
Record scraper : Type := Scraper {
  device_token : str;
  secure_key : str;
  device_id : str
}.

(** ** TasvaScraper.search *)

Section Search.

Variable self : scraper.

(** [self.session.post(self.BASE_URL, json=payload, timeout=30)] *)
Variable session_post : dict -> http_result.

(** [self._generate_hash(payload)]: an MD5 digest of the payload and the
    secure key; the digest itself is not modelled. *)
Variable _generate_hash : dict -> str.

Definition request_payload (query : str) (offset limit : Z) : dict :=
  [(lit "categoryId", text "-1");
   (lit "categoryName", text "");
   (lit "fp", text "");
   (lit "sorting", text "popular:asc");
   (lit "limit", JInt limit);
   (lit "offset", JInt offset);
   (lit "pageNo", JInt (offset / limit + 1));
   (lit "pageName", text "");
   (lit "searchWord", JStr query);
   (lit "requestMode", text "similarproducts");
   (lit "storeId", JInt 0);
   (lit "customerId", JInt 0);
   (lit "cartId", JInt 0);
   (lit "shopId", JInt 33);
   (lit "shopName", text "Tasva");
   (lit "regionID", text "UL");
   (lit "deviceId", JStr (device_id self));
   (lit "isS2SCall", JBool false);
   (lit "deviceType", text "desktop");
   (lit "brand", text "Tasva");
   (lit "geoLocation", JInt (-1));
   (lit "fcmToken", JInt (-1));
   (lit "deviceToken", JStr (device_token self))].

(** [(query, offset) in known_hashes] *)
Definition known_hash (query : str) (offset : Z) : option str :=
  if str_eqb query (lit "kurta") && (offset =? 0)%Z
  then Some (lit "30c23fb01d501a7bf6d4e68019a9992d")
  else None.

Definition signed_payload (query : str) (offset limit : Z) : dict :=
  let payload := request_payload query offset limit in
  let hash := match known_hash query offset with
              | Some h => h
              | None => _generate_hash payload
              end in
  set (set payload "hash" (JStr hash)) "validateHash" (JBool true).

(** The payload of the retry: the hash removed, validation off. *)
Definition payload_no_hash (payload : dict) : dict :=
  set (dict_pop payload (lit "hash")) "validateHash" (JBool false).

(** [error_data.get('msg') == ["INVALID_REQUEST"]]: a list equals only a
    list of the same items. *)
Definition is_invalid_request (error_data : json) : bool :=
  match error_data with
  | JDict d =>
      match dict_get d (lit "msg") with
      | Some (JList [JStr m]) => str_eqb m (lit "INVALID_REQUEST")
      | _ => false
      end
  | _ => false
  end.

(** The response [raise_for_status] and [json()] are applied to, and the
    payloads posted so far. *)
Definition after_retry (payload : dict) (response : http_response)
  : http_response * list dict :=
  if (status_code response =? 400)%Z then
    match body response with
    | Some error_data =>
        if is_invalid_request error_data then
          match session_post (payload_no_hash payload) with
          | Replied retry => (retry, [payload; payload_no_hash payload])
          | TransportError => (response, [payload; payload_no_hash payload])
          end
        else (response, [payload])
    | None => (response, [payload])
    end
  else (response, [payload]).

(** The exchange with the service, up to the decoding of the answer: the
    decoded response, [{}] on any failure, and the payloads posted. *)
Definition exchange (query : str) (offset limit : Z)
  : result (json * list dict) :=
  if (limit =? 0)%Z then Raise ZeroDivisionError
  else
    let payload := signed_payload query offset limit in
    match session_post payload with
    | TransportError => Ok (JDict [], [payload])
    | Replied response =>
        let (response, posted) := after_retry payload response in
        if is_http_error response then Ok (JDict [], posted)
        else match body response with
             | Some data => Ok (data, posted)
             | None => Ok (JDict [], posted)
             end
    end.

(** The summary the method prints of a decoded response evaluates
    [len(products_data['hits'])], which raises TypeError on [None], a
    number or a boolean; neither of the two [except] clauses of the
    method catches it. *)
Definition response_summary (data : json) : result unit :=
  match data with
  | JDict d =>
      match dict_get d (lit "results") with
      | Some (JDict results) =>
          match dict_get results (lit "products") with
          | Some (JDict products_data) =>
              match dict_get products_data (lit "hits") with
              | Some (JNull | JBool _ | JInt _) => Raise TypeError
              | _ => Ok tt
              end
          | _ => Ok tt
          end
      | _ => Ok tt
      end
  | _ => Ok tt
  end.

(** The decoded response and the payloads posted.  The empty response of
    a failed request has no summary. *)
Definition search (query : str) (offset limit : Z)
  : result (json * list dict) :=
  bind (exchange query offset limit)
       (fun '(data, posted) =>
          bind (response_summary data) (fun _ => Ok (data, posted))).

End Search.

(** ** TasvaScraper._extract_product_info *)

Definition cdn_url (name : str) : str :=
  lit "https://imagescdn.tasva.com/img/app/product/1/" ++ name
  ++ lit ".jpg?w=1000&auto=format".

(** [json.dumps(v) if v else ''] *)
Definition dumps_if (v : json) : json :=
  if truthy v then JStr (dumps_ascii v) else text "".

(** Copy fields of [src] into [product], under new names, each with
    the default [''] or [0] of the source. *)
Fixpoint copy (src : dict) (fields : list (string * string * json))
  (product : dict) : dict :=
  match fields with
  | [] => product
  | (target, name, default) :: rest =>
      copy src rest (set product target (get src name default))
  end.

Definition same (names : list string) (default : json)
  : list (string * string * json) :=
  List.map (fun n => (n, n, default)) names.

(** The truthy ['Name'] of each dict of the list. *)
Fixpoint names_of (l : list json) : list json :=
  match l with
  | [] => []
  | JDict d :: rest =>
      let name := get d "Name" (text "") in
      if truthy name then name :: names_of rest else names_of rest
  | _ :: rest => names_of rest
  end.

Section Flatten.

Variable repr : json -> str.

Definition basic_fields (item product : dict) : dict :=
  let product :=
    copy item
      (same ["ProductID"; "StyleCode"; "Name"; "ShortDescription";
             "LinkRewrite"; "Price"; "SellingPrice"; "Color"]%string (text "")
       ++ same ["Quantity"; "Active"; "IsReturnable"]%string (JInt 0)
       ++ same ["DefaultCategoryID"; "DefaultCategoryName";
                "DefaultCategoryLinkRewrite"; "CategoryGroupID"; "Gender";
                "GenderLinkRewrite"; "ShopID"]%string (text ""))
      product in
  let product :=
    set product "ShopIDs"
      (match dict_get item (lit "ShopIDs") with
       | Some (JList l) => JStr (dumps_ascii (JList l))
       | _ => get item "ShopIDs" (text "")
       end) in
  copy item (same ["PublishedDate"; "FirstInStock"]%string (text "")) product.

Definition features_fields (item product : dict) : dict :=
  match get item "Features" (JDict []) with
  | JDict features =>
      let product :=
        copy features
          ([("Brand", "Brand", text ""); ("Fabric", "Fabric", text "");
            ("Fit", "Fit", text "");
            ("Color_Feature", "Color", text "")]%string
           ++ same ["Craft"; "Collection"; "Occasion"; "Length"; "Neck";
                    "SleeveLength"; "Type"; "Pockets"; "Reversible";
                    "Closure"; "Subbrand"]%string (text ""))
          product in
      set product "Features_JSON" (JStr (dumps (JDict features)))
  | features => set product "Features_JSON" (dumps_if features)
  end.

Definition discount_fields (item product : dict) : dict :=
  match get item "Discount" (JDict []) with
  | JDict discount =>
      let product :=
        copy discount
          [("Discount_Type", "Type", text "");
           ("Discount_Amount", "Amount", text "");
           ("Discount_StartDate", "StartDate", text "");
           ("Discount_EndDate", "EndDate", text "")]%string
          product in
      set product "Discount_JSON" (JStr (dumps (JDict discount)))
  | discount => set product "Discount_JSON" (dumps_if discount)
  end.

Definition media_fields (item product : dict) : result dict :=
  match get item "Media" (JDict []) with
  | JDict media =>
      bind
        (match get media "Images" (JList []) with
         | JList images =>
             let image_names := names_of images in
             let image_urls :=
               List.map (fun n => cdn_url (py_str repr n)) image_names in
             bind (join_values (lit ", ") image_names) (fun joined =>
               let product := set product "Images" (JStr joined) in
               let product :=
                 set product "Images_JSON" (JStr (dumps (JList images))) in
               let product :=
                 set product "ImageURLs" (JStr (join (lit ", ") image_urls)) in
               let product :=
                 set product "ImageURLs_JSON"
                   (match image_urls with
                    | [] => text "[]"
                    | _ :: _ => JStr (dumps (JList (List.map JStr image_urls)))
                    end) in
               Ok (set product "PrimaryImageURL"
                     (match image_urls with
                      | [] => text ""
                      | u :: _ => JStr u
                      end)))
         | _ =>
             Ok (set (set (set product "ImageURLs" (text ""))
                        "ImageURLs_JSON" (text "[]"))
                   "PrimaryImageURL" (text ""))
         end)
        (fun product =>
           let swatch := get media "Swatch" (text "") in
           let product := set product "Swatch" swatch in
           let product :=
             set product "SwatchExtension"
                 (get media "SwatchExtension" (text "")) in
           if truthy swatch then
             match swatch with
             | JStr s =>
                 let swatch_clean :=
                   replace (lit ".jpeg") [] (replace (lit ".jpg") [] s) in
                 Ok (set product "SwatchImageURL" (JStr (cdn_url swatch_clean)))
             | _ => Raise AttributeError
             end
           else Ok (set product "SwatchImageURL" (text "")))
  | media =>
      let product := set product "Images_JSON" (dumps_if media) in
      let product := set product "ImageURLs" (text "") in
      let product := set product "ImageURLs_JSON" (text "[]") in
      let product := set product "PrimaryImageURL" (text "") in
      Ok (set product "SwatchImageURL" (text ""))
  end.

(** The list [size_info] the source also builds is never read. *)
Definition sizes_fields (item product : dict) : result dict :=
  match get item "Sizes" (JList []) with
  | JList sizes =>
      bind (join_values (lit ", ") (names_of sizes)) (fun joined =>
        let product := set product "Sizes" (JStr joined) in
        Ok (set product "Sizes_JSON" (JStr (dumps (JList sizes)))))
  | sizes => Ok (set product "Sizes_JSON" (dumps_if sizes))
  end.

Definition trailing_fields (item product : dict) : dict :=
  let product :=
    set product "ColorAwayProducts_JSON"
      (match get item "ColorAwayProducts" (JList []) with
       | JList color_away => JStr (dumps (JList color_away))
       | color_away => dumps_if color_away
       end) in
  let product :=
    copy item (same ["SimilarProducts"; "StoreIds"]%string (text "")
               ++ same ["ProductViews"; "OrdersCount"]%string (JInt 0))
         product in
  let link := get product "LinkRewrite" JNull in
  if truthy link then
    set product "ProductURL"
      (JStr (lit "https://www.tasva.com/p/" ++ py_str repr link ++ lit "-"
             ++ py_str repr (get product "ProductID" (text ""))
             ++ lit ".html"))
  else set product "ProductURL" (text "").

Definition _extract_product_info (item : dict) : result dict :=
  let product := basic_fields item [] in
  let product := features_fields item product in
  let product := discount_fields item product in
  bind (media_fields item product) (fun product =>
  bind (sizes_fields item product) (fun product =>
  Ok (trailing_fields item product))).

(** The call on a value of the response: [item.get] raises on anything
    but a dict. *)
Definition extract_item (item : json) : result dict :=
  match item with
  | JDict d => _extract_product_info d
  | _ => Raise AttributeError
  end.

(** ** TasvaScraper.extract_products *)

Definition nonempty (product : dict) : bool :=
  match product with [] => false | _ :: _ => true end.

Fixpoint extract_hits (hits : list json) (products : list dict)
  : result (list dict) :=
  match hits with
  | [] => Ok products
  | JDict hit :: rest =>
      bind (extract_item (if has hit "_source" then get hit "_source" JNull
                          else JDict hit))
           (fun product =>
              extract_hits rest
                (if nonempty product then products ++ [product] else products))
  | _ :: rest => extract_hits rest products
  end.

(** [results.products] of a successful response, when the three nested
    isinstance tests pass. *)
Definition products_obj (data : json) : option dict :=
  match data with
  | JDict d =>
      if truthy (get d "success" JNull) then
        match get d "results" (JDict []) with
        | JDict results =>
            match get results "products" (JDict []) with
            | JDict obj => Some obj
            | _ => None
            end
        | _ => None
        end
      else None
  | _ => None
  end.

Definition extract_products (data : json) : result (list dict) :=
  match products_obj data with
  | Some obj =>
      match get obj "hits" (JList []) with
      | JList hits => extract_hits hits []
      | _ => Ok []
      end
  | None => Ok []
  end.

End Flatten.

(** ** TasvaScraper.remove_duplicates_by_id *)

(** What a set stores for a hashable value: [True] and [1] are the same
    element, as are [False] and [0]. *)
Inductive key : Type :=
| KInt (z : Z)
| KStr (s : str).

Definition key_eqb (a b : key) : bool :=
  match a, b with
  | KInt x, KInt y => (x =? y)%Z
  | KStr x, KStr y => str_eqb x y
  | _, _ => false
  end.

(** The identity key of a record: [None] when [product_id] is falsy and
    the set is not consulted; a truthy list or dict is unhashable. *)
Definition identity_key (product : dict) : result (option key) :=
  let product_id := get product "ProductID" (text "") in
  if truthy product_id then
    match product_id with
    | JInt z => Ok (Some (KInt z))
    | JBool b => Ok (Some (KInt (if b then 1 else 0)))
    | JStr s => Ok (Some (KStr s))
    | _ => Raise TypeError
    end
  else Ok None.

Fixpoint dedup_loop (products : list dict) (seen_ids : list key)
  (unique_products : list dict) : result (list dict) :=
  match products with
  | [] => Ok unique_products
  | product :: rest =>
      bind (identity_key product) (fun k =>
        match k with
        | Some id =>
            if existsb (key_eqb id) seen_ids
            then dedup_loop rest seen_ids unique_products
            else dedup_loop rest (id :: seen_ids) (unique_products ++ [product])
        | None => dedup_loop rest seen_ids (unique_products ++ [product])
        end)
  end.

Definition remove_duplicates_by_id (products : list dict)
  : result (list dict) :=
  dedup_loop products [] [].

(** ** scrape_query *)

(** The local variables of the loop; [fetched] logs the offsets
    requested, in order. *)
Record state : Type := State {
  offset : Z;
  all_products : list dict;
  total_count : json;
  fetched : list Z
}.

Definition initial : state :=
  {| offset := 0; all_products := []; total_count := JNull; fetched := [] |}.

(** The continuation decision after a page that returned records: the
    new [has_more] and [total_count]. *)
Definition has_more_after (response_data : json) (n_products n_all limit : Z)
  (total_count : json) : result (bool * json) :=
  match products_obj response_data with
  | Some obj =>
      let total_count :=
        if has obj "total" then get obj "total" JNull else total_count in
      match total_count with
      | JNull => Ok ((n_products =? limit)%Z, total_count)
      | _ => bind (as_int total_count) (fun t =>
               Ok ((n_all <? t)%Z, total_count))
      end
  | None => Ok (false, total_count)
  end.

Section Scrape.

Variable self : scraper.
Variable session_post : dict -> http_result.
Variable _generate_hash : dict -> str.
Variable repr : json -> str.
Variable query : str.
Variable limit : Z.

(** One pass of the loop body, up to [if not has_more: break]. *)
Definition examine (st : state) : result (verdict state) :=
  bind (search self session_post _generate_hash query (offset st) limit)
    (fun '(response_data, _) =>
  let fetched := fetched st ++ [offset st] in
  bind (extract_products repr response_data) (fun products =>
    match products with
    | [] =>
        Ok (Halt NoProducts
              {| offset := offset st; all_products := all_products st;
                 total_count := total_count st; fetched := fetched |})
    | _ :: _ =>
        let all_products := all_products st ++ products in
        bind (has_more_after response_data (len products) (len all_products)
                limit (total_count st))
             (fun '(has_more, total_count) =>
                let st' := {| offset := offset st;
                              all_products := all_products;
                              total_count := total_count;
                              fetched := fetched |} in
                Ok (if has_more then More st' else Halt NoMorePages st'))
    end)).

(** [offset += limit] *)
Definition advance (st : state) : state :=
  {| offset := offset st + limit; all_products := all_products st;
     total_count := total_count st; fetched := fetched st |}.

(** The loop, with its safety limit [if offset > 100000: break]. *)
Definition scrape_loop (fuel : nat) (st : state)
  : option (result (reason * state)) :=
  while_true examine advance (fun st => (offset st >? 100000)%Z) fuel st.

Definition scrape_query (fuel : nat) : option (result (reason * state)) :=
  scrape_loop fuel initial.

End Scrape.

(** ** TasvaScraper.save_to_csv *)

Section Save.

(** [datetime.now().strftime("%Y%m%d_%H%M%S")] *)
Variable timestamp : str.

Definition preferred_order : list str :=
  List.map lit ["ProductID"; "StyleCode"; "Name"; "ShortDescription";
                "LinkRewrite"; "Price"; "SellingPrice"; "Color"; "Quantity";
                "ProductURL"; "Brand"; "Fabric"; "Fit"; "Category";
                "DefaultCategoryName"; "Gender"; "ShopID"; "Images"; "Sizes";
                "Discount_Amount"; "PublishedDate"; "Active";
                "IsReturnable"]%string.

(** The name of the file, and the table written to it; no file is
    written when there is no record. *)
Definition save_to_csv (products : list dict) (filename : option str)
  : result (str * option Csv.table) :=
  let filename :=
    match filename with
    | Some name =>
        if nonempty_str name then name
        else lit "tasva_products_" ++ timestamp ++ lit ".csv"
    | None => lit "tasva_products_" ++ timestamp ++ lit ".csv"
    end in
  match products with
  | [] => Ok (filename, None)
  | _ :: _ =>
      bind (remove_duplicates_by_id products) (fun products =>
        Ok (filename, Some (Csv.write preferred_order products)))
  end.

End Save.

End Tasva.

(* ================================================================== *)
(** * add_image_urls.py *)
(* ================================================================== *)

Module AddImageUrls.
Import Py.

Definition generate_image_url (image_id : str) : str :=
  lit "https://imagescdn.tasva.com/img/app/product/1/" ++ image_id
  ++ lit ".jpg?w=1000&auto=format".

Definition parse_images (images_str : str) : list str :=
  if negb (nonempty_str images_str) || negb (nonempty_str (strip images_str))
  then []
  else
    List.map strip
      (List.filter (fun img => nonempty_str (strip img))
                   (split_on 44 images_str)).

(** [[generate_image_url(img_id) for img_id in image_ids]] *)
Definition image_urls (images_str : str) : list str :=
  List.map generate_image_url (parse_images images_str).


(** ** parse_images_from_json *)

(** [img['Name']] for each [img] of the list that is a dict with that
    key. *)
Fixpoint names (images_data : list json) : list json :=
  match images_data with
  | [] => []
  | JDict img :: rest =>
      match dict_get img (lit "Name") with
      | Some name => name :: names rest
      | None => names rest
      end
  | _ :: rest => names rest
  end.

(** A text that does not decode gives no identifier.  (A text with a
    float literal is outside [PyJson.loads].) *)
Definition parse_images_from_json (images_json_str : str) : list json :=
  if negb (nonempty_str images_json_str)
     || negb (nonempty_str (strip images_json_str))
  then []
  else
    match PyJson.loads images_json_str with
    | Some (JList images_data) => names images_data
    | _ => []
    end.

(** ** process_csv *)

(** A row of the csv.DictReader: the fields of the header, each with the
    text of its cell, [None] where the line has no cell for it. *)
Definition csv_row := list (str * option str).

Fixpoint row_get (row : csv_row) (k : str) : option (option str) :=
  match row with
  | [] => None
  | (k', v) :: row' => if str_eqb k' k then Some v else row_get row' k
  end.

(** [row[k] = v] *)
Fixpoint row_set (row : csv_row) (k : str) (v : option str) : csv_row :=
  match row with
  | [] => [(k, v)]
  | (k', v') :: row' =>
      if str_eqb k' k then (k', v) :: row' else (k', v') :: row_set row' k v
  end.

(** [dict(zip(fieldnames, cells))], then [None] for the fields that are
    left; the line has no more cells than the header has fields. *)
Fixpoint read_row (fieldnames : list str) (cells : list str) (row : csv_row)
  : csv_row :=
  match fieldnames, cells with
  | key :: fieldnames', cell :: cells' =>
      read_row fieldnames' cells' (row_set row key (Some cell))
  | _, _ => fold_left (fun d key => row_set d key None) fieldnames row
  end.

(** [row.get(k, '')] *)
Definition field (row : csv_row) (k : string) : option str :=
  match row_get row (lit k) with
  | Some v => v
  | None => Some []
  end.

Definition new_columns : list str :=
  List.map lit ["ImageURLs"; "ImageURLs_JSON"; "PrimaryImageURL";
                "SwatchImageURL"]%string.

(** The field names of the output: the new columns after 'Images', at
    the end when there is no such column. *)
Definition output_fieldnames (fieldnames : list str) : list str :=
  match list_index (lit "Images") fieldnames with
  | Some images_idx =>
      firstn (S images_idx) fieldnames ++ new_columns
      ++ skipn (S images_idx) fieldnames
  | None => fieldnames ++ new_columns
  end.

Section ProcessRow.

Variable repr : json -> str.

(** The identifiers of a row: those of 'Images', those of 'Images_JSON'
    when 'Images' gives none. *)
Definition image_ids (row : csv_row) : list json :=
  let image_ids :=
    match field row "Images" with
    | Some images_str => parse_images images_str
    | None => []
    end in
  match image_ids with
  | [] =>
      match field row "Images_JSON" with
      | Some images_json_str => parse_images_from_json images_json_str
      | None => []
      end
  | _ :: _ => List.map JStr image_ids
  end.

Definition swatch_url (row : csv_row) : str :=
  match field row "Swatch" with
  | Some swatch_id =>
      if nonempty_str swatch_id
      then generate_image_url
             (replace (lit ".jpeg") [] (replace (lit ".jpg") [] swatch_id))
      else []
  | None => []
  end.

(** The body of the loop over the rows, up to [writer.writerow(row)]. *)
Definition process_row (row : csv_row) : csv_row :=
  let image_urls :=
    List.map (fun img_id => generate_image_url (py_str repr img_id))
             (image_ids row) in
  let swatch_url := swatch_url row in
  let row := row_set row (lit "ImageURLs")
                     (Some (join (lit ", ") image_urls)) in
  let row :=
    row_set row (lit "ImageURLs_JSON")
      (Some (match image_urls with
             | [] => lit "[]"
             | _ :: _ => PyJson.dumps_ascii (JList (List.map JStr image_urls))
             end)) in
  let row :=
    row_set row (lit "PrimaryImageURL")
      (Some (match image_urls with
             | [] => []
             | url :: _ => url
             end)) in
  row_set row (lit "SwatchImageURL") (Some swatch_url).

(** [writer.writerow(row)]: the cells in the order of the field names,
    empty for [None] and for a field the row does not have. *)
Definition written (fieldnames : list str) (row : csv_row) : list str :=
  List.map (fun key => match row_get row key with
                       | Some (Some cell) => cell
                       | _ => []
                       end) fieldnames.

(** What the loop makes of one line of the input. *)
Inductive written_line : Type :=
| NoRow
| Line (cells : list str)
| WriterError.

(** One line of the input, as a line of the output.  The reader yields no
    row for a line without cells; a line with more cells than the header
    has fields makes the writer raise ValueError. *)
Definition process_line (fieldnames : list str) (cells : list str)
  : written_line :=
  match cells with
  | [] => NoRow
  | _ :: _ =>
      if (length fieldnames <? length cells)%nat then WriterError
      else Line (written (output_fieldnames fieldnames)
                         (process_row (read_row fieldnames cells [])))
  end.

End ProcessRow.
End AddImageUrls.

(* ================================================================== *)
(** * The specification's own notions *)
(* ================================================================== *)

Module Spec.
Import Py Paginate.

(** ** Image identifiers *)

(** The identifiers of a text: its comma-separated pieces, trimmed, the
    empty ones left out. *)
Definition trimmed_identifiers (images_str : str) : list str :=
  List.filter nonempty_str (List.map strip (split_on 44 images_str)).

(** ** Stable deduplication, in the words of the specification *)

Section FirstOccurrences.

Variable K : Type.
Variable eqb : K -> K -> bool.
(** The identity key of a record, [None] when it has none. *)
Variable key : dict -> option K.

Definition same_key (k : K) (q : dict) : bool :=
  match key q with
  | Some k' => eqb k k'
  | None => false
  end.

(** A record repeats an earlier one when it has a key and one of the
    records before it, kept or not, has the same key. *)
Definition repeats (earlier : list dict) (p : dict) : bool :=
  match key p with
  | Some k => existsb (same_key k) earlier
  | None => false
  end.

(** The records that repeat no earlier record, in their order. *)
Fixpoint first_occurrences_from (earlier products : list dict) : list dict :=
  match products with
  | [] => []
  | p :: rest =>
      if repeats earlier p then first_occurrences_from (earlier ++ [p]) rest
      else p :: first_occurrences_from (earlier ++ [p]) rest
  end.

Definition first_occurrences (products : list dict) : list dict :=
  first_occurrences_from [] products.

Definition keyless (p : dict) : bool :=
  match key p with Some _ => false | None => true end.

End FirstOccurrences.

(** The identity key of the Snitch records: the normalised title. *)
Definition title_key (lower : str -> str) (repr : json -> str) (p : dict)
  : option str :=
  let t := Snitch.normalized_title lower repr p in
  if nonempty_str t then Some t else None.

(** The identity key of the Tasva records: the truthy 'ProductID'. *)
Definition id_key (p : dict) : option Tasva.key :=
  match Tasva.identity_key p with
  | Ok k => k
  | Raise _ => None
  end.

(** No record holds a list or a dict as its 'ProductID'. *)
Definition hashable_ids (products : list dict) : bool :=
  forallb (fun p => match Tasva.identity_key p with
                    | Ok _ => true
                    | Raise _ => false
                    end) products.

(** ** Known key-paths, in the words of the specification *)

Definition list_at (d : dict) (k : string) : option (list json) :=
  match dict_get d (lit k) with
  | Some (JList l) => Some l
  | _ => None
  end.

Definition or_else {A} (a b : option A) : option A :=
  match a with Some _ => a | None => b end.

(** The array of the first known key-path that holds one, in the order
    data, products, results, items, data.products, data.results (the
    last only when data has no 'products'). *)
Definition known_path (data : dict) : option (list json) :=
  or_else (list_at data "data")
  (or_else (list_at data "products")
  (or_else (list_at data "results")
  (or_else (list_at data "items")
     match dict_get data (lit "data") with
     | Some (JDict nested) =>
         if dict_has nested (lit "products") then list_at nested "products"
         else list_at nested "results"
     | _ => None
     end))).

(** ** Continuation signals *)

(** The decision alone, of a result that carries the loop variables too. *)
Definition decision {A B} (r : result (bool * A * B)) : result bool :=
  match r with
  | Ok (has_more, _, _) => Ok has_more
  | Raise e => Raise e
  end.

Definition decision2 {A} (r : result (bool * A)) : result bool :=
  match r with
  | Ok (has_more, _) => Ok has_more
  | Raise e => Raise e
  end.

(** What the top-level fields of a Snitch response say when the total
    count is known: a truthy 'hasMore', else 'totalPages' against the
    page number, else a truthy 'nextPage'. *)
Definition top_level_more (response : dict) (page : Z) : result bool :=
  if truthy (dict_get_default response (lit "hasMore") JNull) then Ok true
  else
    match dict_get response (lit "totalPages") with
    | Some total_pages =>
        bind (as_int total_pages) (fun t => Ok (page <? t)%Z)
    | None => Ok (truthy (dict_get_default response (lit "nextPage") JNull))
    end.

(** ** A failed request *)

(** A request fails when transport fails, when the status is an error
    status, or when the body does not decode. *)
Definition failed (r : http_result) : bool :=
  match r with
  | TransportError => true
  | Replied response =>
      is_http_error response
      || match body response with Some _ => false | None => true end
  end.

(** ** Simulated sources *)

(** [ceil(t / l)] *)
Definition ceil_div (t l : Z) : Z := ((t + l - 1) / l)%Z.

(** The records of one page. *)
Definition window (records : list dict) (start limit : Z) : list dict :=
  firstn (Z.to_nat limit) (skipn (Z.to_nat start) records).

(** A Snitch service holding [records]: it serves the page asked for and
    reports the total count. *)
Definition snitch_source (records : list dict) (params : dict) : http_result :=
  match dict_get params (lit "page"), dict_get params (lit "limit") with
  | Some (JInt page), Some (JInt limit) =>
      Replied
        (Response 200
           (Some (JDict
              [(lit "data",
                JDict
                  [(lit "products",
                    JList (List.map JDict
                             (window records ((page - 1) * limit) limit)));
                   (lit "total_count", JInt (len records));
                   (lit "page", JInt page);
                   (lit "limit", JInt limit)])])))
  | _, _ => Replied (Response 400 None)
  end.

(** A Tasva service holding [records]: it serves the hits from the
    offset asked for and reports the total. *)
Definition tasva_source (records : list dict) (payload : dict) : http_result :=
  match dict_get payload (lit "offset"), dict_get payload (lit "limit") with
  | Some (JInt offset), Some (JInt limit) =>
      Replied
        (Response 200
           (Some (JDict
              [(lit "success", JBool true);
               (lit "results",
                JDict
                  [(lit "products",
                    JDict
                      [(lit "total", JInt (len records));
                       (lit "hits",
                        JList (List.map
                                 (fun r => JDict [(lit "_source", JDict r)])
                                 (window records offset limit)))])])])))
  | _, _ => Replied (Response 400 None)
  end.

(** The pages [first], [first + 1], ... or offsets [first],
    [first + step], ... of [n] fetches. *)
Definition fetches (first step : Z) (n : nat) : list Z :=
  List.map (fun i => (first + Z.of_nat i * step)%Z) (seq 0 n).

(** ** Nested values and one-line texts *)

(** A mapping, or a sequence with an element that is not a scalar. *)
Definition nested (v : json) : bool :=
  match v with
  | JDict _ => true
  | JList l => negb (forallb is_scalar l)
  | _ => false
  end.

(** A text on one line: no line break, no other control character. *)
Definition one_line (s : str) : bool := forallb (fun c => (32 <=? c)%N) s.

(** ** What a run of the loop amounts to *)

(** The reason a loop ended, the number of records it collected and the
    number of fetches it made. *)
Definition snitch_summary (r : option (result (reason * Snitch.state)))
  : option (reason * nat * nat) :=
  match r with
  | Some (Ok (why, st)) =>
      Some (why, length (Snitch.all_products st), length (Snitch.fetched st))
  | _ => None
  end.

(** ** The identity keys of a list of records *)

(** The keys of the records that have one, in the order of the records. *)
Definition identity_keys {K} (key : dict -> option K) (products : list dict)
  : list K :=
  flat_map (fun p => match key p with Some k => [k] | None => [] end) products.

(** ** The raw records the Tasva flattener accepts *)

Definition is_str (v : json) : bool :=
  match v with JStr _ => true | _ => false end.

(** The truthy 'Name' of every dict of a list is a str. *)
Definition str_names (v : json) : bool :=
  match v with
  | JList l => forallb is_str (Tasva.names_of l)
  | _ => true
  end.

(** The names of the images and of the sizes are str, and so is the
    swatch when there is one. *)
Definition well_typed (item : dict) : bool :=
  match Tasva.get item "Media" (JDict []) with
  | JDict media =>
      str_names (Tasva.get media "Images" (JList []))
      && (let swatch := Tasva.get media "Swatch" (Tasva.text "") in
          negb (truthy swatch) || is_str swatch)
  | _ => true
  end
  && str_names (Tasva.get item "Sizes" (JList [])).

(** The fields the Tasva flattener copies from the raw record under
    their own name, each with its default. *)
Definition raw_fields : list (string * json) :=
  List.map (fun n => (n, Tasva.text ""))
    ["ProductID"; "StyleCode"; "Name"; "ShortDescription"; "LinkRewrite";
     "Price"; "SellingPrice"; "Color"]%string
  ++ List.map (fun n => (n, JInt 0))
       ["Quantity"; "Active"; "IsReturnable"]%string
  ++ List.map (fun n => (n, Tasva.text ""))
       ["DefaultCategoryID"; "DefaultCategoryName";
        "DefaultCategoryLinkRewrite"; "CategoryGroupID"; "Gender";
        "GenderLinkRewrite"; "ShopID"; "PublishedDate"; "FirstInStock";
        "SimilarProducts"; "StoreIds"]%string
  ++ List.map (fun n => (n, JInt 0)) ["ProductViews"; "OrdersCount"]%string.

(** The fields promoted from 'Features', with the name each has there. *)
Definition promoted_features : list (string * string) :=
  [("Brand", "Brand"); ("Fabric", "Fabric"); ("Fit", "Fit");
   ("Color_Feature", "Color"); ("Craft", "Craft");
   ("Collection", "Collection"); ("Occasion", "Occasion");
   ("Length", "Length"); ("Neck", "Neck"); ("SleeveLength", "SleeveLength");
   ("Type", "Type"); ("Pockets", "Pockets"); ("Reversible", "Reversible");
   ("Closure", "Closure"); ("Subbrand", "Subbrand")]%string.

(** What a hit holds the record in: its '_source' when it has one. *)
Definition source_of (hit : json) : json :=
  match hit with
  | JDict d =>
      if Tasva.has d "_source" then Tasva.get d "_source" JNull else hit
  | _ => hit
  end.

(** ** Image identifiers that survive the Images column *)

(** Not empty, no comma, no white space at either end. *)
Definition clean_identifier (s : str) : bool :=
  nonempty_str s && negb (existsb (N.eqb 44) s) && str_eqb (strip s) s.

(** ** Field names in ascending order *)

(** Each str is below the next. *)
Fixpoint ascending (l : list str) : bool :=
  match l with
  | [] => true
  | a :: rest =>
      match rest with
      | [] => true
      | b :: _ => str_ltb a b && ascending rest
      end
  end.

(** ** The records of one request *)

(** The records the Snitch loop takes from the page asked for, none when
    the extraction raises. *)
Definition records_of_page (session_get : dict -> http_result) (query : str)
  (limit page : Z) : list dict :=
  match Snitch.extract_products
          (Snitch.search session_get query page limit) with
  | Ok products => products
  | Raise _ => []
  end.

(** The records the Tasva loop takes from the offset asked for, none
    when the search or the extraction raises. *)
Definition records_at_offset (self : Tasva.scraper)
  (session_post : dict -> http_result) (_generate_hash : dict -> str)
  (repr : json -> str) (query : str) (limit offset : Z) : list dict :=
  match Tasva.search self session_post _generate_hash query offset
                     limit with
  | Ok (response_data, _) =>
      match Tasva.extract_products repr response_data with
      | Ok products => products
      | Raise _ => []
      end
  | Raise _ => []
  end.

(** ** Texts of Unicode scalar values *)

(** A code point that is no surrogate, up to U+10FFFF. *)
Definition scalar_value (c : N) : bool :=
  ((c <? 55296) || ((57343 <? c) && (c <=? 1114111)))%N.

Definition scalar_text (s : str) : bool := forallb scalar_value s.

(** Every string and every key of the value is a text of scalar values. *)
Fixpoint scalar_json (v : json) : bool :=
  match v with
  | JStr s => scalar_text s
  | JList l => forallb scalar_json l
  | JDict d =>
      forallb (fun kv => scalar_text (fst kv) && scalar_json (snd kv)) d
  | _ => true
  end.

(** A text of the printable ASCII characters, U+0020 to U+007E. *)
Definition ascii_text (s : str) : bool :=
  forallb (fun c => (32 <=? c) && (c <? 127))%N s.

(** ** The answer that is retried *)

(** The Tasva search posts a second time after this answer only: status
    400 with the error payload msg ["INVALID_REQUEST"]. *)
Definition asks_retry (r : http_result) : bool :=
  match r with
  | TransportError => false
  | Replied response =>
      (status_code response =? 400)%Z
      && match body response with
         | Some error_data => Tasva.is_invalid_request error_data
         | None => false
         end
  end.

End Spec.

(* ================================================================== *)
(** * Sample inputs *)
(* ================================================================== *)

Module Samples.
Import Py Paginate.

Definition sample_item : dict :=
  [(lit "ProductID", JStr (lit "A1")); (lit "Name", JStr (lit "X"))].

Definition sample_payload : dict :=
  [(lit "products", JList [JDict [(lit "id", JInt 1)]]);
   (lit "data", JDict [(lit "products", JList [])])].

Definition sample_scraper : Tasva.scraper :=
  Tasva.Scraper (lit "token") (lit "secret") (lit "device").

(** A service that rejects every request as INVALID_REQUEST. *)
Definition rejecting (payload : dict) : http_result :=
  Replied (Response 400
             (Some (JDict [(lit "msg", JList [JStr (lit "INVALID_REQUEST")])]))).

Definition three_records : list dict :=
  [[(lit "id", JInt 1)]; [(lit "id", JInt 2)]; [(lit "id", JInt 3)]].

Definition nested_item : dict :=
  [(lit "id", JInt 7);
   (lit "variants",
    JList [JDict [(lit "size", JStr (lit "M")); (lit "stock", JInt (-3))];
           JNull]);
   (lit "location", JDict [(lit "city", JStr [34; 10; 233]%N)])].

Definition tasva_page : json :=
  JDict [(lit "success", JBool true);
         (lit "results",
          JDict [(lit "products",
                  JDict [(lit "total", JInt 2);
                         (lit "hits",
                          JList [JDict [(lit "_source",
                                         JDict [(lit "ProductID",
                                                 JStr (lit "A1"))])]])])])].

Definition tasva_page_products : list dict :=
  match Tasva.extract_products (fun _ => []) tasva_page with
  | Ok products => products
  | Raise _ => []
  end.

Definition snitch_page : dict :=
  [(lit "data", JDict [(lit "products", JList [JDict [(lit "id", JInt 1)]]);
                       (lit "total_count", JInt 5);
                       (lit "hasMore", JBool false)])].

(** A Snitch service that always has one more record and says so. *)
Definition endless_get (params : dict) : http_result :=
  Replied (Response 200
             (Some (JDict [(lit "products", JList [JDict [(lit "id", JInt 1)]]);
                           (lit "hasMore", JBool true)]))).

(** A Tasva service that always fills the page, of size one. *)
Definition endless_post (payload : dict) : http_result :=
  Replied (Response 200
             (Some (JDict
                [(lit "success", JBool true);
                 (lit "results",
                  JDict [(lit "products",
                          JDict [(lit "hits",
                                  JList [JDict [(lit "ProductID",
                                                 JStr (lit "A1"))]])])])]))).


(** Three Snitch records, the second an empty object. *)
Definition records_with_gap : list dict :=
  [[(lit "id", JInt 1)]; []; [(lit "id", JInt 3)]].

(** A Tasva record whose swatch is a number. *)
Definition untyped_records : list dict :=
  [[(lit "ProductID", JInt 1);
    (lit "Media", JDict [(lit "Swatch", JInt 1)])]].

(** A payload whose 'data' list holds a number. *)
Definition number_payload : dict := [(lit "data", JList [JInt 1])].

(** A service that cannot be reached. *)
Definition unreachable (request : dict) : http_result := TransportError.

(** A Tasva service that answers with no hits at all: 'hits' is null. *)
Definition null_hits (payload : dict) : http_result :=
  Replied (Response 200
             (Some (JDict
                [(lit "success", JBool true);
                 (lit "results",
                  JDict [(lit "products",
                          JDict [(lit "total", JInt 0);
                                 (lit "hits", JNull)])])]))).

(** A Tasva service that has one record for every request and reports a
    total that lies two past the offset asked for, counting down. *)
Definition growing_post (payload : dict) : http_result :=
  match dict_get payload (lit "offset") with
  | Some (JInt offset) =>
      Replied (Response 200
                 (Some (JDict
                    [(lit "success", JBool true);
                     (lit "results",
                      JDict [(lit "products",
                              JDict [(lit "total", JInt (2 - offset));
                                     (lit "hits",
                                      JList [JDict [(lit "ProductID",
                                                     JStr (lit "A1"))]])])])])))
  | _ => Replied (Response 400 None)
  end.

(** A raw Tasva record with features. *)
Definition featured_item : dict :=
  [(lit "ProductID", JInt 7);
   (lit "Color", JStr (lit "Red"));
   (lit "Features", JDict [(lit "Brand", JStr (lit "Tasva"));
                           (lit "Color", JStr (lit "Maroon"))])].

Definition featured_record : dict :=
  match Tasva._extract_product_info (fun _ => []) featured_item with
  | Ok product => product
  | Raise _ => []
  end.

(** Two records with the same fields, in another order. *)
Definition two_records : list dict :=
  [[(lit "title", JStr (lit "Shirt")); (lit "id", JInt 1)];
   [(lit "id", JInt 2); (lit "price", JInt 10); (lit "title", JNull)]].

(** The header and one line of a table of Tasva records. *)
Definition sample_header : list str :=
  List.map lit ["ProductID"; "Images"; "Swatch"]%string.

Definition sample_line : list str :=
  List.map lit ["A1"; "1078050-16668879, 1078050-16668881"; "sw.jpg"]%string.

(** A service that answers every request with status 503 and no body. *)
Definition unavailable (request : dict) : http_result :=
  Replied (Response 503 None).

(** A raw Tasva record with a list of shops, one of them named with a
    letter outside ASCII. *)
Definition shop_item : dict :=
  [(lit "ProductID", JInt 7);
   (lit "ShopIDs", JList [JInt 33; JStr [83; 233]%N])].

Definition shop_record : dict :=
  match Tasva._extract_product_info (fun _ => []) shop_item with
  | Ok product => product
  | Raise _ => []
  end.
End Samples.

(* ================================================================== *)
(** * Facts about the Python values *)
(* ================================================================== *)

Module PyFacts.
Import Py.

Lemma str_eqb_eq (a b : str) : str_eqb a b = true <-> a = b.
Proof.
  revert b; induction a as [|x a IH]; intros [|y b]; simpl;
    split; intro H; try reflexivity; try discriminate.
  - apply andb_true_iff in H as [Hx Hab].
    apply N.eqb_eq in Hx. apply IH in Hab. now subst.
  - injection H as -> ->. rewrite N.eqb_refl. now apply IH.
Qed.

Lemma str_eqb_refl (a : str) : str_eqb a a = true.
Proof. now apply str_eqb_eq. Qed.

Lemma str_eqb_neq (a b : str) : str_eqb a b = false <-> a <> b.
Proof.
  rewrite <- str_eqb_eq. destruct (str_eqb a b); split; intro H;
    try discriminate; try reflexivity; congruence.
Qed.

Lemma str_eqb_sym (a b : str) : str_eqb a b = str_eqb b a.
Proof.
  destruct (str_eqb a b) eqn:E; symmetry.
  - apply str_eqb_eq in E as ->. apply str_eqb_refl.
  - apply str_eqb_neq. apply str_eqb_neq in E. congruence.
Qed.

Lemma str_in_In (k : str) (ks : list str) : str_in k ks = true <-> In k ks.
Proof.
  unfold str_in. rewrite existsb_exists. split.
  - intros (x & Hx & E). apply str_eqb_eq in E. now subst.
  - intro H. exists k. split; [assumption | apply str_eqb_refl].
Qed.

(** ** dict lookups after an assignment *)

Lemma dict_get_set_same (d : dict) (k : str) (v : json) :
  dict_get (dict_set d k v) k = Some v.
Proof.
  induction d as [|[k' v'] d IH]; simpl.
  - now rewrite str_eqb_refl.
  - destruct (str_eqb k' k) eqn:E; simpl; rewrite E; auto.
Qed.

Lemma dict_get_set_other (d : dict) (k k' : str) (v : json) :
  str_eqb k k' = false ->
  dict_get (dict_set d k v) k' = dict_get d k'.
Proof.
  intro Hk. induction d as [|[k0 v0] d IH]; simpl.
  - now rewrite Hk.
  - destruct (str_eqb k0 k) eqn:E; simpl.
    + apply str_eqb_eq in E. subst k0. now rewrite Hk.
    + now rewrite IH.
Qed.

Lemma dict_has_In (d : dict) (k : str) :
  dict_has d k = true <-> In k (keys d).
Proof.
  unfold dict_has. induction d as [|[k' v'] d IH]; simpl.
  - split; [discriminate | tauto].
  - destruct (str_eqb k' k) eqn:E.
    + apply str_eqb_eq in E. split; auto.
    + apply str_eqb_neq in E. rewrite IH. split; [auto | intros [H|H]; congruence].
Qed.

Lemma dict_has_set (d : dict) (k k' : str) (v : json) :
  dict_has (dict_set d k v) k' = str_eqb k k' || dict_has d k'.
Proof.
  unfold dict_has. destruct (str_eqb k k') eqn:E.
  - apply str_eqb_eq in E. subst. now rewrite dict_get_set_same.
  - now rewrite dict_get_set_other.
Qed.

Lemma keys_set_fresh (d : dict) (k : str) (v : json) :
  dict_has d k = false -> keys (dict_set d k v) = keys d ++ [k].
Proof.
  unfold dict_has. induction d as [|[k' v'] d IH]; simpl; intro H.
  - reflexivity.
  - destruct (str_eqb k' k) eqn:E; [discriminate|].
    simpl. now rewrite IH.
Qed.

End PyFacts.

(* ================================================================== *)
(** * add_image_urls.py: deriving the image URLs *)
(* ================================================================== *)

Module ImageFacts.
Import Py PyFacts AddImageUrls Spec.

Lemma lstrip_nil (s : str) : lstrip s = [] -> forallb isspace s = true.
Proof.
  induction s as [|c s IH]; simpl; [reflexivity|].
  destruct (isspace c); [assumption | discriminate].
Qed.

Lemma lstrip_head (s : str) :
  match lstrip s with [] => True | c :: _ => isspace c = false end.
Proof.
  induction s as [|c s IH]; simpl; [exact I|].
  destruct (isspace c) eqn:E; [assumption | simpl; assumption].
Qed.

Lemma lstrip_spaces (s : str) : forallb isspace s = true -> lstrip s = [].
Proof.
  induction s as [|c s IH]; simpl; [reflexivity|].
  destruct (isspace c); [assumption | discriminate].
Qed.

Lemma forallb_rev {A} (f : A -> bool) (l : list A) :
  forallb f (rev l) = forallb f l.
Proof.
  induction l as [|x l IH]; simpl; [reflexivity|].
  rewrite forallb_app, IH. simpl. rewrite andb_true_r. apply andb_comm.
Qed.

(** A text strips to nothing exactly when it is white space only. *)
Lemma strip_nil (s : str) : strip s = [] <-> forallb isspace s = true.
Proof.
  unfold strip, rstrip. split.
  - intro H.
    assert (Hr : lstrip (rev (lstrip s)) = []).
    { destruct (lstrip (rev (lstrip s))) as [|c t]; [reflexivity|].
      simpl in H. now destruct (rev t). }
    apply lstrip_nil in Hr. rewrite forallb_rev in Hr.
    pose proof (lstrip_head s) as Hh.
    destruct (lstrip s) as [|c t] eqn:E.
    + now apply lstrip_nil.
    + simpl in Hr. rewrite Hh in Hr. discriminate.
  - intro H. rewrite (lstrip_spaces s H). reflexivity.
Qed.

(** White space holds no comma: it is one piece for [split(',')]. *)
Lemma split_spaces (s : str) :
  forallb isspace s = true -> split_on 44 s = [s].
Proof.
  induction s as [|c s IH]; simpl; [reflexivity|].
  intro H. apply andb_true_iff in H as [Hc Hs].
  destruct (N.eqb c 44) eqn:E.
  - apply N.eqb_eq in E. subst c. discriminate.
  - now rewrite IH.
Qed.

Lemma map_filter_strip (l : list str) :
  List.map strip (List.filter (fun img => nonempty_str (strip img)) l)
  = List.filter nonempty_str (List.map strip l).
Proof.
  induction l as [|x l IH]; simpl; [reflexivity|].
  destruct (nonempty_str (strip x)); simpl; now rewrite IH.
Qed.

Lemma parse_images_identifiers (images_str : str) :
  parse_images images_str = trimmed_identifiers images_str.
Proof.
  unfold parse_images, trimmed_identifiers.
  destruct images_str as [|c s]; [reflexivity|].
  cbn [nonempty_str negb orb].
  destruct (strip (c :: s)) eqn:E.
  - cbn [nonempty_str negb].
    apply strip_nil in E. rewrite (split_spaces _ E). simpl map.
    apply strip_nil in E. simpl. now rewrite E.
  - cbn [nonempty_str negb]. apply map_filter_strip.
Qed.

End ImageFacts.

(* ================================================================== *)
(** * snitch_scraper.py: the record flattener *)
(* ================================================================== *)

Module FlattenFacts.
Import Py PyFacts PyJson Snitch.

Definition flatten_step (product : dict) (kv : str * json) : dict :=
  dict_set product (fst kv) (flatten_value (snd kv)).

Lemma flatten_has (item product : dict) (k : str) :
  dict_has (fold_left flatten_step item product) k
  = dict_has product k || dict_has item k.
Proof.
  revert product. induction item as [|[k' v'] item IH]; intro product; simpl.
  - now rewrite orb_false_r.
  - rewrite IH. unfold flatten_step. cbn [fst snd]. rewrite dict_has_set.
    replace (dict_has ((k', v') :: item) k)
      with (str_eqb k' k || dict_has item k)
      by (unfold dict_has; simpl; now destruct (str_eqb k' k)).
    destruct (str_eqb k' k), (dict_has product k); reflexivity.
Qed.

Lemma flatten_value_scalar (value : json) :
  is_scalar (flatten_value value) = true.
Proof.
  destruct value as [| | | |l|d]; try reflexivity.
  simpl. destruct l; [reflexivity|]. now destruct (forallb is_scalar (j :: l)).
Qed.

Definition scalar_values (d : dict) : Prop :=
  forall k v, dict_get d k = Some v -> is_scalar v = true.

Lemma set_scalar (d : dict) (k : str) (v : json) :
  scalar_values d -> is_scalar v = true -> scalar_values (dict_set d k v).
Proof.
  intros Hd Hv k' v'. destruct (str_eqb k k') eqn:E.
  - apply str_eqb_eq in E. subst. rewrite dict_get_set_same.
    now intros [= <-].
  - rewrite dict_get_set_other by assumption. apply Hd.
Qed.

Lemma flatten_scalar (item product : dict) :
  scalar_values product -> scalar_values (fold_left flatten_step item product).
Proof.
  revert product. induction item as [|[k' v'] item IH]; intros product H; simpl.
  - assumption.
  - apply IH. apply set_scalar; [assumption | apply flatten_value_scalar].
Qed.

(** The value stored under a key is the flattening of the value the
    input holds under it. *)
Lemma flatten_get (item product : dict) (k : str) :
  dict_get (fold_left flatten_step item product) k
  = match dict_get (rev item) k with
    | Some v => Some (flatten_value v)
    | None => dict_get product k
    end.
Proof.
  revert product. induction item as [|[k' v'] item IH]; intro product; simpl.
  - reflexivity.
  - rewrite IH. 
    assert (Happ : forall (a b : dict),
               dict_get (a ++ b) k
               = match dict_get a k with Some v => Some v | None => dict_get b k end).
    { induction a as [|[ka va] a IHa]; intro b; simpl; [reflexivity|].
      destruct (str_eqb ka k); auto. }
    rewrite Happ. destruct (dict_get (rev item) k); [reflexivity|].
    simpl. unfold flatten_step. simpl.
    destruct (str_eqb k' k) eqn:E.
    + apply str_eqb_eq in E. subst. now rewrite dict_get_set_same.
    + now rewrite dict_get_set_other.
Qed.

End FlattenFacts.

(* ================================================================== *)
(** * tasva_scraper.py: the record flattener *)
(* ================================================================== *)

Module TasvaFlattenFacts.
Import Py PyFacts PyJson Tasva.

Section Keeps.

(** A key that later assignments do not touch. *)
Variable key : str.

Lemma set_keeps (product : dict) (k : string) (v : json) :
  str_eqb (lit k) key = false ->
  dict_get (set product k v) key = dict_get product key.
Proof. intro H. unfold set. now apply dict_get_set_other. Qed.

Definition avoids (fields : list (string * string * json)) : bool :=
  forallb (fun f => negb (str_eqb (lit (fst (fst f))) key)) fields.

Lemma copy_keeps (src : dict) (fields : list (string * string * json))
  (product : dict) :
  avoids fields = true ->
  dict_get (copy src fields product) key = dict_get product key.
Proof.
  revert product.
  induction fields as [|[[target name] default] fields IH];
    intros product H; simpl in *; [reflexivity|].
  apply andb_true_iff in H as [Ht Hf].
  rewrite IH by assumption. apply set_keeps.
  now destruct (str_eqb (lit target) key).
Qed.

End Keeps.

Definition ProductID : str := lit "ProductID".

Ltac keeps :=
  repeat first
    [ rewrite (@set_keeps ProductID) by reflexivity
    | rewrite (@copy_keeps ProductID) by reflexivity ].

Lemma basic_fields_id (item : dict) :
  dict_get (basic_fields item []) ProductID
  = Some (get item "ProductID" (text "")).
Proof.
  unfold basic_fields. keeps.
  cbn [same List.map app copy]. keeps.
  unfold set. apply dict_get_set_same.
Qed.

Lemma features_fields_id (item product : dict) :
  dict_get (features_fields item product) ProductID
  = dict_get product ProductID.
Proof.
  unfold features_fields.
  destruct (get item "Features" (JDict [])); keeps; reflexivity.
Qed.

Lemma discount_fields_id (item product : dict) :
  dict_get (discount_fields item product) ProductID
  = dict_get product ProductID.
Proof.
  unfold discount_fields.
  destruct (get item "Discount" (JDict [])); keeps; reflexivity.
Qed.

Lemma media_fields_id (repr : json -> str) (item product product' : dict) :
  media_fields repr item product = Ok product' ->
  dict_get product' ProductID = dict_get product ProductID.
Proof.
  unfold media_fields.
  destruct (get item "Media" (JDict [])) as [| | | | |media];
    try (intros [= <-]; keeps; reflexivity).
  set (images := get media "Images" (JList [])).
  set (swatch := get media "Swatch" (text "")).
  assert (Hswatch : forall p p' : dict,
    (if truthy swatch
     then match swatch with
          | JStr s =>
              Ok (set (set (set p "Swatch" swatch) "SwatchExtension"
                         (get media "SwatchExtension" (text "")))
                    "SwatchImageURL"
                    (JStr (cdn_url (replace (lit ".jpeg") []
                                      (replace (lit ".jpg") [] s)))))
          | _ => Raise AttributeError
          end
     else Ok (set (set (set p "Swatch" swatch) "SwatchExtension"
                     (get media "SwatchExtension" (text "")))
                "SwatchImageURL" (text ""))) = Ok p' ->
    dict_get p' ProductID = dict_get p ProductID).
  { intros p p'. destruct (truthy swatch).
    - destruct swatch; try discriminate. intros [= <-]. keeps. reflexivity.
    - intros [= <-]. keeps. reflexivity. }
  destruct images as [| | | |l|].
  1-4,6: (simpl bind; intro H; apply Hswatch in H; rewrite H; keeps; reflexivity).
  destruct (join_values (lit ", ") (names_of l)) as [joined|e];
    [|discriminate].
  simpl bind. intro H. apply Hswatch in H. rewrite H. keeps. reflexivity.
Qed.

Lemma sizes_fields_id (item product product' : dict) :
  sizes_fields item product = Ok product' ->
  dict_get product' ProductID = dict_get product ProductID.
Proof.
  unfold sizes_fields.
  destruct (get item "Sizes" (JList [])) as [| | | |sizes|];
    try (intros [= <-]; keeps; reflexivity).
  destruct (join_values (lit ", ") (names_of sizes)); [|discriminate].
  intros [= <-]. keeps. reflexivity.
Qed.

Lemma trailing_fields_id (repr : json -> str) (item product : dict) :
  dict_get (trailing_fields repr item product) ProductID
  = dict_get product ProductID.
Proof.
  unfold trailing_fields.
  match goal with |- context [truthy ?l] => destruct (truthy l) end;
    keeps; reflexivity.
Qed.

(** The flattener copies 'ProductID' first and nothing overwrites it. *)
Lemma extract_info_product_id (repr : json -> str) (item product : dict) :
  _extract_product_info repr item = Ok product ->
  dict_get product ProductID = Some (get item "ProductID" (text "")).
Proof.
  unfold _extract_product_info. intro H.
  destruct (media_fields repr item _) as [p1|] eqn:Hm; [|discriminate].
  simpl in H.
  destruct (sizes_fields item p1) as [p2|] eqn:Hs; [|discriminate].
  simpl in H. injection H as <-.
  rewrite trailing_fields_id.
  rewrite (@sizes_fields_id _ _ _ Hs).
  rewrite (@media_fields_id _ _ _ _ Hm).
  rewrite discount_fields_id, features_fields_id.
  apply basic_fields_id.
Qed.

End TasvaFlattenFacts.

(* ================================================================== *)
(** * Deduplication *)
(* ================================================================== *)

Module DedupFacts.
Import Py PyFacts Spec.

Section Generic.

Variable K : Type.
Variable eqb : K -> K -> bool.
Variable key : dict -> option K.
Hypothesis eqb_eq : forall a b, eqb a b = true <-> a = b.

(** [seen] holds the keys of the records read so far. *)
Definition tracks (seen : list K) (earlier : list dict) : Prop :=
  forall k, existsb (eqb k) seen = existsb (same_key eqb key k) earlier.

Lemma tracks_nil : tracks [] [].
Proof. intro k. reflexivity. Qed.

Lemma tracks_keyless (seen : list K) (earlier : list dict) (p : dict) :
  tracks seen earlier -> key p = None -> tracks seen (earlier ++ [p]).
Proof.
  intros H Hp k. rewrite existsb_app, <- H. simpl.
  unfold same_key. rewrite Hp. now rewrite !orb_false_r.
Qed.

Lemma tracks_new (seen : list K) (earlier : list dict) (p : dict) (id : K) :
  tracks seen earlier -> key p = Some id ->
  tracks (id :: seen) (earlier ++ [p]).
Proof.
  intros H Hp k. rewrite existsb_app, <- H. simpl.
  unfold same_key. rewrite Hp. rewrite orb_false_r. apply orb_comm.
Qed.

Lemma tracks_seen (seen : list K) (earlier : list dict) (p : dict) (id : K) :
  tracks seen earlier -> key p = Some id ->
  existsb (eqb id) seen = true -> tracks seen (earlier ++ [p]).
Proof.
  intros H Hp Hin k. rewrite existsb_app, <- H. simpl.
  unfold same_key. rewrite Hp, orb_false_r.
  destruct (eqb k id) eqn:E; [|now rewrite orb_false_r].
  apply eqb_eq in E. subst k. rewrite Hin. reflexivity.
Qed.

Lemma keyless_first_occurrences (earlier products : list dict) :
  filter (keyless key) (first_occurrences_from eqb key earlier products)
  = filter (keyless key) products.
Proof.
  revert earlier. induction products as [|p rest IH]; intro earlier; simpl.
  - reflexivity.
  - unfold repeats, keyless at 2. destruct (key p) eqn:Hp.
    + destruct (existsb _ earlier); simpl; unfold keyless at 1;
        try rewrite Hp; apply IH.
    + simpl. unfold keyless at 1. rewrite Hp. now rewrite IH.
Qed.

End Generic.

(** ** Snitch *)

Section Snitch.

Variable lower : str -> str.
Variable repr : json -> str.

Lemma snitch_loop (products : list dict) :
  forall (seen : list str) (earlier unique : list dict),
    tracks str_eqb (title_key lower repr) seen earlier ->
    Snitch.dedup_loop lower repr products seen unique
    = unique ++ first_occurrences_from str_eqb (title_key lower repr)
                  earlier products.
Proof.
  induction products as [|p rest IH]; intros seen earlier unique H; simpl.
  - now rewrite app_nil_r.
  - unfold repeats. unfold title_key at 1 3.
    destruct (nonempty_str (Snitch.normalized_title lower repr p)) eqn:Ht;
      cbn [andb].
    + unfold str_in. rewrite (H (Snitch.normalized_title lower repr p)).
      destruct (existsb _ earlier) eqn:Hseen.
      * apply IH.
        apply (@tracks_seen _ str_eqb (title_key lower repr) str_eqb_eq
                 seen earlier p (Snitch.normalized_title lower repr p) H).
        -- unfold title_key. now rewrite Ht.
        -- now rewrite (H _).
      * rewrite (IH _ (earlier ++ [p])).
        -- now rewrite <- app_assoc.
        -- apply tracks_new; [assumption|]. unfold title_key. now rewrite Ht.
    + rewrite (IH _ (earlier ++ [p])).
      * now rewrite <- app_assoc.
      * apply tracks_keyless; [assumption|]. unfold title_key. now rewrite Ht.
Qed.

End Snitch.

(** ** Tasva *)

Lemma key_eqb_eq (a b : Tasva.key) : Tasva.key_eqb a b = true <-> a = b.
Proof.
  destruct a, b; simpl; split; intro H; try discriminate.
  - apply Z.eqb_eq in H. now subst.
  - injection H as ->. apply Z.eqb_refl.
  - apply str_eqb_eq in H. now subst.
  - injection H as ->. apply str_eqb_refl.
Qed.

Lemma tasva_loop (products : list dict) :
  forall (seen : list Tasva.key) (earlier unique : list dict),
    tracks Tasva.key_eqb id_key seen earlier ->
    Tasva.dedup_loop products seen unique
    = if hashable_ids products
      then Ok (unique ++ first_occurrences_from Tasva.key_eqb id_key
                           earlier products)
      else Raise TypeError.
Proof.
  induction products as [|p rest IH]; intros seen earlier unique H; simpl.
  - now rewrite app_nil_r.
  - unfold repeats. unfold id_key at 1 3.
    destruct (Tasva.identity_key p) as [[id|]|e] eqn:Hp; simpl.
    + rewrite (H id). destruct (existsb _ earlier) eqn:Hseen.
      * apply IH.
        apply (@tracks_seen _ Tasva.key_eqb id_key key_eqb_eq
                 seen earlier p id H).
        -- unfold id_key. now rewrite Hp.
        -- now rewrite (H _).
      * rewrite (IH _ (earlier ++ [p])).
        -- now rewrite <- app_assoc.
        -- apply tracks_new; [assumption|]. unfold id_key. now rewrite Hp.
    + rewrite (IH _ (earlier ++ [p])).
      * now rewrite <- app_assoc.
      * apply tracks_keyless; [assumption|]. unfold id_key. now rewrite Hp.
    + unfold Tasva.identity_key in Hp.
      destruct (truthy _); [|discriminate].
      destruct (Tasva.get p "ProductID" (Tasva.text "")); now inversion Hp.
Qed.

End DedupFacts.

(* ================================================================== *)
(** * snitch_scraper.py: locating the records *)
(* ================================================================== *)

Module ExtractFacts.
Import Py PyFacts Spec Snitch.

Lemma holds_list_at (d : dict) (k : string) :
  holds_list d k = match list_at d k with Some _ => true | None => false end.
Proof.
  unfold holds_list, list_at. destruct (dict_get d (lit k)) as [[]|]; reflexivity.
Qed.

Lemma list_at_field (d : dict) (k : string) (l : list json) :
  list_at d k = Some l -> dict_get_default d (lit k) JNull = JList l.
Proof.
  unfold list_at, dict_get_default.
  destruct (dict_get d (lit k)) as [[]|]; try discriminate. now intros [= ->].
Qed.

Lemma known_path_products_data (find : json -> list json) (data : dict)
  (arr : list json) :
  known_path data = Some arr -> products_data find data = JList arr.
Proof.
  unfold known_path, products_data. rewrite !holds_list_at.
  destruct (list_at data "data") as [l|] eqn:E1; simpl.
  { intros [= <-]. now apply list_at_field. }
  destruct (list_at data "products") as [l|] eqn:E2; simpl.
  { intros [= <-]. now apply list_at_field. }
  destruct (list_at data "results") as [l|] eqn:E3; simpl.
  { intros [= <-]. now apply list_at_field. }
  destruct (list_at data "items") as [l|] eqn:E4; simpl.
  { intros [= <-]. now apply list_at_field. }
  destruct (dict_get data (lit "data")) as [[| | | | |nested]|]; try discriminate.
  unfold dict_has, list_at.
  destruct (dict_get nested (lit "products")) as [v|].
  - destruct v; try discriminate. now intros [= <-].
  - destruct (dict_get nested (lit "results")) as [[]|]; try discriminate.
    now intros [= <-].
Qed.

(** On records only, the loop keeps the non-empty flattened records. *)
Lemma extract_each_records (records products : list dict) :
  extract_each (List.map JDict records) products
  = Ok (products ++ List.filter nonempty
                      (List.map _extract_product_info records)).
Proof.
  revert products. induction records as [|r rs IH]; intro products; simpl.
  - now rewrite app_nil_r.
  - rewrite IH. destruct (nonempty (_extract_product_info r)); simpl.
    + now rewrite <- app_assoc.
    + reflexivity.
Qed.

(** The items of a list are all dicts, or the extraction raises. *)
Lemma extract_each_dicts (items : list json) :
  forall products,
    extract_each items products
    = if forallb is_dict items
      then Ok (products
               ++ List.filter nonempty
                    (List.map (fun item =>
                                 match item with
                                 | JDict d => _extract_product_info d
                                 | _ => []
                                 end) items))
      else Raise AttributeError.
Proof.
  induction items as [|item items IH]; intros products;
    cbn [extract_each forallb List.map List.filter].
  - now rewrite app_nil_r.
  - destruct item; cbn [extract_item bind is_dict andb]; try reflexivity.
    rewrite IH. destruct (forallb is_dict items); [|reflexivity].
    destruct (nonempty (_extract_product_info entries));
      rewrite <- ?app_assoc; reflexivity.
Qed.

End ExtractFacts.

(* ================================================================== *)
(** * Continuation signals *)
(* ================================================================== *)

Module SignalFacts.
Import Py PyFacts Spec.

Lemma has_get (d : dict) (k : string) (v : json) :
  dict_get d (lit k) = Some v ->
  Snitch.has d k = true /\ Snitch.item d k = v.
Proof.
  intro H. unfold Snitch.has, Snitch.item, dict_has, dict_get_default.
  now rewrite H.
Qed.

Lemma snitch_top_signals (response : dict) (n_products limit page t : Z)
  (total_pages : json) :
  decision2 (Snitch.top_signals response n_products limit page (JInt t)
                                total_pages)
  = top_level_more response page.
Proof.
  unfold Snitch.top_signals, top_level_more, Snitch.has, Snitch.item,
    dict_has, dict_get_default.
  destruct (dict_get response (lit "hasMore")) as [hm|]; simpl.
  - destruct (truthy hm); [reflexivity|].
    destruct (dict_get response (lit "totalPages")) as [tp|].
    + destruct (as_int tp); reflexivity.
    + destruct (dict_get response (lit "nextPage")) as [np|]; simpl.
      * destruct (truthy np); simpl; [reflexivity|].
        now rewrite andb_false_r.
      * now rewrite andb_false_r.
  - destruct (dict_get response (lit "totalPages")) as [tp|].
    + destruct (as_int tp); reflexivity.
    + destruct (dict_get response (lit "nextPage")) as [np|]; simpl.
      * destruct (truthy np); simpl; [reflexivity|].
        now rewrite andb_false_r.
      * now rewrite andb_false_r.
Qed.

Lemma snitch_total_count (response data_obj : dict)
  (n_products n_all limit page t : Z) (total_count total_pages : json) :
  dict_get response (lit "data") = Some (JDict data_obj) ->
  dict_get data_obj (lit "total_count") = Some (JInt t) ->
  decision (Snitch.has_more_after (JDict response) n_products n_all limit page
                                  total_count total_pages)
  = if (n_all <? t)%Z then Ok true else top_level_more response page.
Proof.
  intros Hd Ht. unfold Snitch.has_more_after. rewrite Hd.
  unfold Snitch.data_signals.
  destruct (has_get data_obj "total_count" Ht) as [-> ->].
  rewrite <- (snitch_top_signals response n_products limit page t
                (if truthy (JInt t) && negb (limit =? 0)%Z
                 then JInt ((t + limit - 1) / limit)%Z else total_pages)).
  destruct (truthy (JInt t) && negb (limit =? 0)%Z); simpl;
    destruct (n_all <? t)%Z; simpl; try reflexivity;
    match goal with
    | |- context [Snitch.top_signals ?a ?b ?c ?d ?e ?f] =>
        destruct (Snitch.top_signals a b c d e f) as [[]|]; reflexivity
    end.
Qed.

(** A Tasva page with records comes from a well-shaped response. *)
Lemma tasva_products_obj (repr : json -> str) (response_data : json)
  (products : list dict) :
  Tasva.extract_products repr response_data = Ok products ->
  products <> [] ->
  exists obj, Tasva.products_obj response_data = Some obj.
Proof.
  unfold Tasva.extract_products.
  destruct (Tasva.products_obj response_data) as [obj|].
  - intros _ _. now exists obj.
  - intros [= <-] H. now contradiction H.
Qed.

Lemma tasva_total (response_data : json) (obj : dict)
  (n_products n_all limit t : Z) (total_count : json) :
  Tasva.products_obj response_data = Some obj ->
  dict_get obj (lit "total") = Some (JInt t) ->
  Tasva.has_more_after response_data n_products n_all limit total_count
  = Ok ((n_all <? t)%Z, JInt t).
Proof.
  intros Ho Ht. unfold Tasva.has_more_after. rewrite Ho.
  unfold Tasva.has, Tasva.get, dict_has, dict_get_default. rewrite Ht.
  reflexivity.
Qed.

End SignalFacts.

(* ================================================================== *)
(** * tasva_scraper.py: the search request and its retry *)
(* ================================================================== *)

Module SearchFacts.
Import Py PyFacts Spec Tasva.

Section Search.

Variable self : scraper.
Variable session_post : dict -> http_result.
Variable _generate_hash : dict -> str.

(** The retry posts the request without its hash, validation off. *)
Lemma retry_payload_unsigned (query : str) (offset limit : Z) :
  payload_no_hash (signed_payload self _generate_hash query offset limit)
  = request_payload self query offset limit
    ++ [(lit "validateHash", JBool false)].
Proof. reflexivity. Qed.

Lemma exchange_after_invalid_request (query : str) (offset limit : Z)
  (first : http_response) (error_data : json) :
  limit <> 0%Z ->
  session_post (signed_payload self _generate_hash query offset limit)
  = Replied first ->
  status_code first = 400%Z ->
  body first = Some error_data ->
  is_invalid_request error_data = true ->
  let payload := signed_payload self _generate_hash query offset limit in
  let retry := payload_no_hash payload in
  exchange self session_post _generate_hash query offset limit
  = Ok (match session_post retry with
        | TransportError => JDict []
        | Replied r =>
            if is_http_error r then JDict []
            else match body r with Some data => data | None => JDict [] end
        end, [payload; retry]).
Proof.
  intros Hl Hp Hs Hb He. cbv zeta. unfold exchange.
  apply Z.eqb_neq in Hl. rewrite Hl, Hp.
  unfold after_retry. rewrite Hs, Z.eqb_refl, Hb, He.
  destruct (session_post (payload_no_hash _)) as [|r].
  - unfold is_http_error. rewrite Hs. reflexivity.
  - destruct (is_http_error r); [reflexivity|].
    destruct (body r); reflexivity.
Qed.

End Search.
End SearchFacts.

(* ================================================================== *)
(** * The pagination loops *)
(* ================================================================== *)

Module LoopFacts.
Import Py Paginate.

Section Runs.

Variable state : Type.
Variable examine : state -> result (verdict state).
Variable advance : state -> state.
Variable over_limit : state -> bool.

(** [runs st out n]: started in [st], the loop makes [n] passes, one
    fetch each, and ends with [out]. *)
Inductive runs : state -> reason * state -> nat -> Prop :=
| runs_halt st r st' :
    examine st = Ok (Halt r st') -> runs st (r, st') 1
| runs_limit st st' :
    examine st = Ok (More st') -> over_limit (advance st') = true ->
    runs st (SafetyLimit, advance st') 1
| runs_more st st' out n :
    examine st = Ok (More st') -> over_limit (advance st') = false ->
    runs (advance st') out n -> runs st out (S n).

(** With fuel for its passes, the loop returns what the run ends with. *)
Lemma runs_while_true st out n :
  runs st out n ->
  forall fuel, (n <= fuel)%nat ->
    while_true examine advance over_limit fuel st = Some (Ok out).
Proof.
  induction 1 as [st r st' He | st st' He Ho | st st' out n He Ho _ IH];
    intros [|fuel] Hf; try lia; simpl; rewrite He; try rewrite Ho;
    try reflexivity.
  apply IH. lia.
Qed.

(** A loop whose every pass asks for more ends at the safety limit, as
    long as the passes come closer to it. *)
Section Limit.

Variable Inv : state -> Prop.
Variable distance : state -> nat.

Hypothesis always_more :
  forall st, Inv st ->
    exists st', examine st = Ok (More st')
                /\ (over_limit (advance st') = false ->
                    Inv (advance st')
                    /\ (distance (advance st') < distance st)%nat).

Lemma runs_to_limit (d : nat) :
  forall st, Inv st -> (distance st <= d)%nat ->
    exists last st' n,
      Inv last /\ examine last = Ok (More st')
      /\ over_limit (advance st') = true
      /\ runs st (SafetyLimit, advance st') n /\ (n <= S d)%nat.
Proof.
  induction d as [|d IH]; intros st Hi Hd;
    destruct (always_more Hi) as (st' & He & Hnext);
    destruct (over_limit (advance st')) eqn:Ho.
  - exists st, st', 1%nat. repeat split; auto using runs_limit.
  - destruct (Hnext eq_refl) as [_ Hlt]. lia.
  - exists st, st', 1%nat. repeat split; auto using runs_limit. lia.
  - destruct (Hnext eq_refl) as [Hi' Hlt].
    destruct (IH (advance st') Hi') as (last & st'' & n & H1 & H2 & H3 & H4 & H5);
      [lia|].
    exists last, st'', (S n). repeat split; auto; [|lia].
    now apply runs_more with (st' := st').
Qed.

End Limit.

End Runs.

End LoopFacts.

Module SnitchLoopFacts.
Import Py PyFacts Paginate LoopFacts Snitch.

Section Snitch.

Variable session_get : dict -> http_result.
Variable query : str.
Variable limit : Z.

(** A pass that asks for more has fetched the page of the state and
    added at least one record. *)
Lemma snitch_examine_more (st st' : state) :
  Snitch.examine session_get query limit st = Ok (More st') ->
  page st' = page st
  /\ fetched st' = fetched st ++ [page st]
  /\ all_products st' <> [].
Proof.
  unfold Snitch.examine.
  destruct (extract_products _) as [[|p ps]|e]; simpl; try discriminate.
  destruct (has_more_after _ _ _ _ _ _ _) as [[[hm tc] tp]|e]; simpl;
    try discriminate.
  destruct hm; intros [= <-]; simpl. repeat split.
  now destruct (all_products st).
Qed.

End Snitch.
End SnitchLoopFacts.

Module TasvaLoopFacts.
Import Py PyFacts Paginate LoopFacts Tasva.

Section Tasva.

Variable self : scraper.
Variable session_post : dict -> http_result.
Variable _generate_hash : dict -> str.
Variable repr : json -> str.
Variable query : str.
Variable limit : Z.

Lemma tasva_examine_more (st st' : state) :
  Tasva.examine self session_post _generate_hash repr query limit st
  = Ok (More st') ->
  offset st' = offset st
  /\ fetched st' = fetched st ++ [offset st]
  /\ all_products st' <> [].
Proof.
  unfold Tasva.examine.
  destruct (search _ _ _ _ _ _) as [[response_data posted]|e]; simpl;
    try discriminate.
  destruct (extract_products _ _) as [[|p ps]|e]; simpl; try discriminate.
  destruct (has_more_after _ _ _ _ _) as [[hm tc]|e]; simpl;
    try discriminate.
  destruct hm; intros [= <-]; simpl. repeat split.
  now destruct (all_products st).
Qed.

End Tasva.
End TasvaLoopFacts.

(* ================================================================== *)
(** * The loops on a source with a fixed total *)
(* ================================================================== *)

Module SourceFacts.
Import Py PyFacts Paginate LoopFacts Spec.

Lemma ceil_div_last (x l : Z) : (1 <= x <= l)%Z -> ceil_div x l = 1%Z.
Proof.
  intro H. unfold ceil_div.
  replace (x + l - 1)%Z with (x - 1 + 1 * l)%Z by lia.
  rewrite Z.div_add by lia. rewrite Z.div_small by lia. reflexivity.
Qed.

Lemma ceil_div_next (x l : Z) :
  (0 < l < x)%Z -> ceil_div x l = (1 + ceil_div (x - l) l)%Z.
Proof.
  intro H. unfold ceil_div.
  replace (x + l - 1)%Z with (x - l + l - 1 + 1 * l)%Z by lia.
  rewrite Z.div_add by lia. lia.
Qed.

Lemma ceil_div_pos (x l : Z) : (0 < l)%Z -> (1 <= x)%Z -> (1 <= ceil_div x l)%Z.
Proof.
  intros Hl Hx. unfold ceil_div.
  apply Z.div_le_lower_bound; lia.
Qed.

Lemma fetches_S (first step : Z) (n : nat) :
  fetches first step (S n) = first :: fetches (first + step) step n.
Proof.
  unfold fetches. simpl. f_equal; [f_equal; lia|].
  rewrite <- seq_shift, map_map. apply map_ext. intro i. lia.
Qed.

Lemma length_fetches (first step : Z) (n : nat) :
  length (fetches first step n) = n.
Proof. unfold fetches. now rewrite length_map, length_seq. Qed.

Lemma window_at (done rest : list dict) (start limit : Z) :
  len done = start ->
  window (done ++ rest) start limit = firstn (Z.to_nat limit) rest.
Proof.
  intro H. unfold window. f_equal.
  replace (Z.to_nat start) with (length done) by (unfold len in H; lia).
  rewrite skipn_app, skipn_all, Nat.sub_diag. reflexivity.
Qed.

Lemma firstn_nonempty {A} (n : nat) (l : list A) :
  (0 < n)%nat -> l <> [] -> firstn n l <> [].
Proof. destruct n, l; simpl; intros; try lia; congruence. Qed.

(** ** The Snitch source *)

Section Snitch.
Import Snitch.

Variable records : list dict.
Variable query : str.
Variable limit : Z.
Hypothesis limit_pos : (1 <= limit)%Z.
Hypothesis records_nonempty : Forall (fun r => r <> []) records.

Lemma flatten_nonempty (r : dict) :
  r <> [] -> nonempty (_extract_product_info r) = true.
Proof.
  intro H. destruct r as [|[k v] r]; [congruence|].
  pose proof (FlattenFacts.flatten_has ((k, v) :: r) [] k) as Hk.
  unfold _extract_product_info.
  change (fun product kv => dict_set product (fst kv) (flatten_value (snd kv)))
    with FlattenFacts.flatten_step.
  destruct (fold_left _ _ _); [|reflexivity].
  unfold dict_has in Hk. simpl in Hk. now rewrite str_eqb_refl in Hk.
Qed.

Lemma flatten_all_nonempty (w : list dict) :
  Forall (fun r => r <> []) w ->
  List.filter nonempty (List.map _extract_product_info w)
  = List.map _extract_product_info w.
Proof.
  induction 1 as [|r w Hr _ IH]; simpl; [reflexivity|].
  rewrite (flatten_nonempty Hr). now rewrite IH.
Qed.

Definition page_response (w : list dict) (page : Z) : json :=
  JDict [(lit "data",
          JDict [(lit "products", JList (List.map JDict w));
                 (lit "total_count", JInt (len records));
                 (lit "page", JInt page);
                 (lit "limit", JInt limit)])].

Lemma search_source (page : Z) :
  search (snitch_source records) query page limit
  = page_response (window records ((page - 1) * limit) limit) page.
Proof. reflexivity. Qed.

Lemma extract_page (w : list dict) (page : Z) :
  Forall (fun r => r <> []) w -> w <> [] ->
  extract_products (page_response w page)
  = Ok (List.map _extract_product_info w).
Proof.
  intros Hw Hne. unfold extract_products, extract_products_with, page_response.
  change (products_data _ _) with (JList (List.map JDict w)).
  cbv beta iota.
  rewrite ExtractFacts.extract_each_records, flatten_all_nonempty by assumption.
  simpl. destruct w; [congruence | reflexivity].
Qed.

Lemma decide_page (w : list dict) (page n_products n_all : Z)
  (total_count total_pages : json) :
  (1 <= len records)%Z ->
  has_more_after (page_response w page) n_products n_all limit page
                 total_count total_pages
  = Ok ((n_all <? len records)%Z, JInt (len records),
        JInt (ceil_div (len records) limit)).
Proof.
  intro Ht. unfold has_more_after, page_response.
  change (dict_get _ (lit "data"))
    with (Some (JDict [(lit "products", JList (List.map JDict w));
                       (lit "total_count", JInt (len records));
                       (lit "page", JInt page);
                       (lit "limit", JInt limit)])).
  unfold data_signals.
  change (has _ "total_count") with true.
  change (item _ "total_count") with (JInt (len records)).
  cbn [truthy].
  replace (len records =? 0)%Z with false by (symmetry; apply Z.eqb_neq; lia).
  replace (limit =? 0)%Z with false by (symmetry; apply Z.eqb_neq; lia).
  cbn [negb andb bind as_int].
  destruct (n_all <? len records)%Z; [reflexivity|].
  cbv beta iota. unfold top_signals.
  change (has _ "hasMore") with false.
  change (has _ "totalPages") with false.
  change (has _ "nextPage") with false.
  cbn [andb bind]. now rewrite andb_false_r.
Qed.

Lemma examine_page (done rest : list dict) (page : Z)
  (total_count total_pages : json) (fetched : list Z) :
  records = done ++ rest -> len done = ((page - 1) * limit)%Z -> rest <> [] ->
  examine (snitch_source records) query limit
    {| page := page; all_products := List.map _extract_product_info done;
       total_count := total_count; total_pages := total_pages;
       fetched := fetched |}
  = Ok ((if (limit <? len rest)%Z then @More state else Halt NoMorePages)
          {| page := page;
             all_products :=
               List.map _extract_product_info
                        (done ++ firstn (Z.to_nat limit) rest);
             total_count := JInt (len records);
             total_pages := JInt (ceil_div (len records) limit);
             fetched := fetched ++ [page] |}).
Proof.
  intros Hr Hd Hne. unfold examine. cbn [Snitch.page Snitch.all_products
    Snitch.total_count Snitch.total_pages Snitch.fetched].
  rewrite search_source.
  assert (Hw : window records ((page - 1) * limit) limit
               = firstn (Z.to_nat limit) rest)
    by (rewrite Hr; now apply window_at).
  rewrite Hw. set (w := firstn (Z.to_nat limit) rest).
  assert (Hwne : w <> []) by (apply firstn_nonempty; [lia | assumption]).
  assert (Hwf : Forall (fun r => r <> []) w).
  { rewrite Hr in records_nonempty.
    apply Forall_app in records_nonempty as [_ Hrest].
    rewrite <- (firstn_skipn (Z.to_nat limit) rest) in Hrest.
    now apply Forall_app in Hrest as [Hfirst _]. }
  rewrite (extract_page page Hwf Hwne). cbn [bind].
  destruct (List.map _extract_product_info w) as [|p ps] eqn:Hmap.
  { destruct w; [congruence | discriminate]. }
  rewrite <- Hmap. rewrite decide_page.
  2: { rewrite Hr. unfold len. rewrite length_app.
       destruct rest; [congruence | simpl; lia]. }
  cbn [bind]. rewrite map_app.
  replace (len (List.map _extract_product_info done
                       ++ List.map _extract_product_info w)
           <? len records)%Z
    with (limit <? len rest)%Z; [now destruct (limit <? len rest)%Z|].
  unfold len, len. rewrite Hr, !length_app, !length_map.
  unfold w. rewrite length_firstn.
  destruct (limit <? Z.of_nat (length rest))%Z eqn:E; symmetry.
  - apply Z.ltb_lt in E. apply Z.ltb_lt. lia.
  - apply Z.ltb_ge in E. apply Z.ltb_ge. lia.
Qed.

Lemma snitch_runs (m : nat) :
  forall (done rest : list dict) (page : Z) (total_count total_pages : json)
         (fetched : list Z),
    records = done ++ rest -> len done = ((page - 1) * limit)%Z ->
    rest <> [] -> (len rest <= Z.of_nat m * limit)%Z ->
    (1 <= page)%Z -> (page - 1 + ceil_div (len rest) limit <= 1000)%Z ->
    exists final,
      runs (examine (snitch_source records) query limit) advance
           (fun st => (Snitch.page st >? 1000)%Z)
           {| page := page; all_products := List.map _extract_product_info done;
              total_count := total_count; total_pages := total_pages;
              fetched := fetched |}
           (NoMorePages, final) (Z.to_nat (ceil_div (len rest) limit))
      /\ all_products final = List.map _extract_product_info records
      /\ Snitch.fetched final
         = fetched ++ fetches page 1 (Z.to_nat (ceil_div (len rest) limit)).
Proof.
  induction m as [|m IH];
    intros done rest page tc tp fetched Hr Hd Hne Hm Hp Hc.
  { destruct rest; [congruence|]. unfold len in Hm. simpl in Hm. lia. }
  assert (Hlen : (1 <= len rest)%Z)
    by (destruct rest; [congruence | unfold len; simpl; lia]).
  pose proof (@examine_page done rest page tc tp fetched Hr Hd Hne) as He.
  destruct (limit <? len rest)%Z eqn:E.
  - apply Z.ltb_lt in E.
    rewrite (@ceil_div_next (len rest) limit) in * by lia.
    assert (Hpos : (1 <= ceil_div (len rest - limit) limit)%Z)
      by (apply ceil_div_pos; lia).
    assert (Hsplit : rest = firstn (Z.to_nat limit) rest
                            ++ skipn (Z.to_nat limit) rest)
      by (symmetry; apply firstn_skipn).
    assert (Hlf : len (firstn (Z.to_nat limit) rest) = limit)
      by (unfold len in *; rewrite length_firstn; lia).
    assert (Hls : len (skipn (Z.to_nat limit) rest) = (len rest - limit)%Z)
      by (unfold len in *; rewrite length_skipn; lia).
    destruct (IH (done ++ firstn (Z.to_nat limit) rest)
                 (skipn (Z.to_nat limit) rest) (page + 1)%Z
                 (JInt (len records)) (JInt (ceil_div (len records) limit))
                 (fetched ++ [page]))
      as (final & Hruns & Hall & Hf).
    + rewrite <- app_assoc, <- Hsplit. exact Hr.
    + unfold len in *. rewrite length_app. lia.
    + intro H0. rewrite H0 in Hls. unfold len in *. simpl in Hls. lia.
    + lia.
    + lia.
    + rewrite Hls. lia.
    + rewrite Hls in *. exists final.
      replace (Z.to_nat (1 + ceil_div (len rest - limit) limit))
        with (S (Z.to_nat (ceil_div (len rest - limit) limit))) by lia.
      split; [|split].
      * eapply runs_more; [exact He | | exact Hruns].
        cbn [advance Snitch.page]. rewrite Z.gtb_ltb. apply Z.ltb_ge. lia.
      * exact Hall.
      * rewrite Hf, fetches_S, <- app_assoc. reflexivity.
  - apply Z.ltb_ge in E.
    rewrite (@ceil_div_last (len rest) limit) by lia.
    eexists. split; [|split].
    + apply runs_halt. exact He.
    + cbn [all_products]. rewrite firstn_all2 by (unfold len in E; lia).
      now rewrite <- Hr.
    + cbn [Snitch.fetched]. unfold fetches. simpl. do 3 f_equal. lia.
Qed.

End Snitch.

(** ** The Tasva source *)

Section Tasva.
Import Tasva.

Variable self : scraper.
Variable _generate_hash : dict -> str.
Variable repr : json -> str.
Variable query : str.
Variable records : list dict.
(** The flattened form of each record. *)
Variable flat : dict -> dict.
Variable limit : Z.
Hypothesis limit_pos : (1 <= limit)%Z.
Hypothesis records_flatten :
  Forall (fun r => _extract_product_info repr r = Ok (flat r)) records.

Definition hits_response (w : list dict) : json :=
  JDict [(lit "success", JBool true);
         (lit "results",
          JDict [(lit "products",
                  JDict [(lit "total", JInt (len records));
                         (lit "hits",
                          JList (List.map
                                   (fun r => JDict [(lit "_source", JDict r)])
                                   w))])])].

Lemma search_tasva_source (offset : Z) :
  search self (tasva_source records) _generate_hash query offset limit
  = Ok (hits_response (window records offset limit),
        [signed_payload self _generate_hash query offset limit]).
Proof.
  unfold search, exchange.
  replace (limit =? 0)%Z with false by (symmetry; apply Z.eqb_neq; lia).
  reflexivity.
Qed.

Lemma extract_hits_source (w : list dict) :
  Forall (fun r => _extract_product_info repr r = Ok (flat r)) w ->
  forall products,
    extract_hits repr
      (List.map (fun r => JDict [(lit "_source", JDict r)]) w) products
    = Ok (products ++ List.map flat w).
Proof.
  induction 1 as [|r w Hr _ IH]; intro products; simpl.
  - now rewrite app_nil_r.
  - change (has _ "_source") with true. cbv iota.
    change (get _ "_source" JNull) with (JDict r).
    unfold extract_item. rewrite Hr. cbn [bind].
    pose proof (@TasvaFlattenFacts.extract_info_product_id repr r (flat r) Hr)
      as Hid.
    destruct (flat r) as [|e p] eqn:Hp; [discriminate|].
    cbn [nonempty]. rewrite IH. now rewrite <- app_assoc.
Qed.

Lemma extract_tasva_page (w : list dict) :
  Forall (fun r => _extract_product_info repr r = Ok (flat r)) w ->
  extract_products repr (hits_response w) = Ok (List.map flat w).
Proof.
  intro Hw. unfold extract_products, hits_response.
  change (products_obj _)
    with (Some [(lit "total", JInt (len records));
                (lit "hits",
                 JList (List.map (fun r => JDict [(lit "_source", JDict r)])
                                 w))]).
  cbv iota.
  change (get _ "hits" (JList []))
    with (JList (List.map (fun r => JDict [(lit "_source", JDict r)]) w)).
  cbv iota. now rewrite extract_hits_source.
Qed.

Lemma decide_tasva_page (w : list dict) (n_products n_all : Z)
  (total_count : json) :
  has_more_after (hits_response w) n_products n_all limit total_count
  = Ok ((n_all <? len records)%Z, JInt (len records)).
Proof. reflexivity. Qed.

Lemma examine_tasva_page (done rest : list dict) (offset : Z)
  (total_count : json) (fetched : list Z) :
  records = done ++ rest -> len done = offset -> rest <> [] ->
  examine self (tasva_source records) _generate_hash repr query limit
    {| offset := offset; all_products := List.map flat done;
       total_count := total_count; fetched := fetched |}
  = Ok ((if (limit <? len rest)%Z then @More state else Halt NoMorePages)
          {| offset := offset;
             all_products :=
               List.map flat (done ++ firstn (Z.to_nat limit) rest);
             total_count := JInt (len records);
             fetched := fetched ++ [offset] |}).
Proof.
  intros Hr Hd Hne. unfold examine.
  cbn [Tasva.offset Tasva.all_products Tasva.total_count Tasva.fetched].
  rewrite search_tasva_source. cbn [bind].
  assert (Hw : window records offset limit = firstn (Z.to_nat limit) rest)
    by (rewrite Hr; now apply window_at).
  rewrite Hw. set (w := firstn (Z.to_nat limit) rest).
  assert (Hwne : w <> []) by (apply firstn_nonempty; [lia | assumption]).
  assert (Hwf : Forall (fun r => _extract_product_info repr r = Ok (flat r)) w).
  { rewrite Hr in records_flatten.
    apply Forall_app in records_flatten as [_ Hrest].
    rewrite <- (firstn_skipn (Z.to_nat limit) rest) in Hrest.
    now apply Forall_app in Hrest as [Hfirst _]. }
  rewrite (extract_tasva_page Hwf). cbn [bind].
  destruct (List.map flat w) as [|p ps] eqn:Hmap.
  { destruct w; [congruence | discriminate]. }
  rewrite <- Hmap. rewrite decide_tasva_page. cbn [bind]. rewrite map_app.
  replace (len (List.map flat done ++ List.map flat w) <? len records)%Z
    with (limit <? len rest)%Z; [now destruct (limit <? len rest)%Z|].
  unfold len, len. rewrite Hr, !length_app, !length_map.
  unfold w. rewrite length_firstn.
  destruct (limit <? Z.of_nat (length rest))%Z eqn:E; symmetry.
  - apply Z.ltb_lt in E. apply Z.ltb_lt. lia.
  - apply Z.ltb_ge in E. apply Z.ltb_ge. lia.
Qed.

Lemma tasva_runs (m : nat) :
  forall (done rest : list dict) (offset : Z) (total_count : json)
         (fetched : list Z),
    records = done ++ rest -> len done = offset ->
    rest <> [] -> (len rest <= Z.of_nat m * limit)%Z ->
    (offset + (ceil_div (len rest) limit - 1) * limit <= 100000)%Z ->
    exists final,
      runs (examine self (tasva_source records) _generate_hash repr query limit)
           (advance limit) (fun st => (Tasva.offset st >? 100000)%Z)
           {| offset := offset; all_products := List.map flat done;
              total_count := total_count; fetched := fetched |}
           (NoMorePages, final) (Z.to_nat (ceil_div (len rest) limit))
      /\ all_products final = List.map flat records
      /\ Tasva.fetched final
         = fetched ++ fetches offset limit (Z.to_nat (ceil_div (len rest) limit)).
Proof.
  induction m as [|m IH];
    intros done rest offset tc fetched Hr Hd Hne Hm Hc.
  { destruct rest; [congruence|]. unfold len in Hm. simpl in Hm. lia. }
  assert (Hlen : (1 <= len rest)%Z)
    by (destruct rest; [congruence | unfold len; simpl; lia]).
  pose proof (@examine_tasva_page done rest offset tc fetched Hr Hd Hne) as He.
  destruct (limit <? len rest)%Z eqn:E.
  - apply Z.ltb_lt in E.
    rewrite (@ceil_div_next (len rest) limit) in * by lia.
    assert (Hpos : (1 <= ceil_div (len rest - limit) limit)%Z)
      by (apply ceil_div_pos; lia).
    assert (Hsplit : rest = firstn (Z.to_nat limit) rest
                            ++ skipn (Z.to_nat limit) rest)
      by (symmetry; apply firstn_skipn).
    assert (Hlf : len (firstn (Z.to_nat limit) rest) = limit)
      by (unfold len in *; rewrite length_firstn; lia).
    assert (Hls : len (skipn (Z.to_nat limit) rest) = (len rest - limit)%Z)
      by (unfold len in *; rewrite length_skipn; lia).
    destruct (IH (done ++ firstn (Z.to_nat limit) rest)
                 (skipn (Z.to_nat limit) rest) (offset + limit)%Z
                 (JInt (len records)) (fetched ++ [offset]))
      as (final & Hruns & Hall & Hf).
    + rewrite <- app_assoc, <- Hsplit. exact Hr.
    + unfold len in *. rewrite length_app. lia.
    + intro H0. rewrite H0 in Hls. unfold len in *. simpl in Hls. lia.
    + lia.
    + rewrite Hls. nia.
    + rewrite Hls in *. exists final.
      replace (Z.to_nat (1 + ceil_div (len rest - limit) limit))
        with (S (Z.to_nat (ceil_div (len rest - limit) limit))) by lia.
      split; [|split].
      * eapply runs_more; [exact He | | exact Hruns].
        cbn [advance Tasva.offset]. rewrite Z.gtb_ltb. apply Z.ltb_ge. nia.
      * exact Hall.
      * rewrite Hf, fetches_S, <- app_assoc. reflexivity.
  - apply Z.ltb_ge in E.
    rewrite (@ceil_div_last (len rest) limit) by lia.
    eexists. split; [|split].
    + apply runs_halt. exact He.
    + cbn [all_products]. rewrite firstn_all2 by (unfold len in E; lia).
      now rewrite <- Hr.
    + cbn [Tasva.fetched]. unfold fetches. simpl. do 3 f_equal. lia.
Qed.

End Tasva.

End SourceFacts.

(* ================================================================== *)
(** * json: parsing back what dumps writes *)
(* ================================================================== *)

Module JsonFacts.
Import Py PyFacts PyJson.

(** ** Induction on decoded values *)

Section Induction.

Variable P : json -> Prop.
Hypothesis P_null : P JNull.
Hypothesis P_bool : forall b, P (JBool b).
Hypothesis P_int : forall z, P (JInt z).
Hypothesis P_str : forall s, P (JStr s).
Hypothesis P_list : forall l, Forall P l -> P (JList l).
Hypothesis P_dict : forall d, Forall (fun kv => P (snd kv)) d -> P (JDict d).

Fixpoint json_induction (v : json) : P v :=
  match v with
  | JNull => P_null
  | JBool b => P_bool b
  | JInt z => P_int z
  | JStr s => P_str s
  | JList l =>
      P_list
        ((fix each (l : list json) : Forall P l :=
            match l with
            | [] => Forall_nil P
            | x :: l' => Forall_cons x (json_induction x) (each l')
            end) l)
  | JDict d =>
      P_dict
        ((fix each (d : list (str * json))
            : Forall (fun kv => P (snd kv)) d :=
            match d with
            | [] => Forall_nil _
            | kv :: d' =>
                Forall_cons kv (json_induction (snd kv)) (each d')
            end) d)
  end.

End Induction.

(** ** What may follow a value: nothing, a comma or a closing bracket *)

Definition follows (rest : str) : bool :=
  match rest with
  | [] => true
  | c :: _ => ((c =? 44) || (c =? 93) || (c =? 125))%N
  end.

Lemma follows_cases (rest : str) :
  follows rest = true ->
  rest = [] \/ exists c tl, rest = c :: tl /\ (c = 44 \/ c = 93 \/ c = 125)%N.
Proof.
  destruct rest as [|c tl]; [now left|]. simpl. intro H. right.
  exists c, tl. split; [reflexivity|].
  apply orb_true_iff in H as [H|H]; [apply orb_true_iff in H as [H|H]|];
    apply N.eqb_eq in H; auto.
Qed.

(** ** Integers *)

Lemma scan_digits_chars (d : Decimal.uint) (rest : str) :
  follows rest = true ->
  scan_digits (uint_chars d ++ rest) = (d, rest).
Proof.
  intro Hf. induction d; simpl; try (rewrite IHd; reflexivity).
  destruct (follows_cases rest Hf) as [->|(c & tl & -> & [->|[->| ->]])];
    reflexivity.
Qed.

Lemma to_uint_head (p : positive) :
  exists c tl, uint_chars (Pos.to_uint p) = c :: tl
               /\ (49 <= c <= 57)%N.
Proof.
  pose proof (DecimalPos.Unsigned.to_uint_nonzero p) as Hz.
  assert (Hu : Decimal.unorm (Pos.to_uint p) = Pos.to_uint p).
  { rewrite <- (DecimalPos.Unsigned.to_of (Pos.to_uint p)).
    now rewrite DecimalPos.Unsigned.of_to. }
  assert (Hnn : Decimal.nzhead (Pos.to_uint p) <> Decimal.Nil).
  { intro Hn. apply DecimalFacts.unorm_0 in Hn. congruence. }
  assert (H0 : forall d, Pos.to_uint p <> Decimal.D0 d).
  { intros d Hd. rewrite DecimalFacts.unorm_nzhead in Hu by exact Hnn.
    rewrite <- Hu in Hd. now apply DecimalFacts.nzhead_nonzero in Hd. }
  pose proof (DecimalPos.Unsigned.to_uint_nonnil p) as Hn.
  destruct (Pos.to_uint p) as [|d|d|d|d|d|d|d|d|d|d]; simpl;
    try congruence; try (exfalso; now apply (H0 d));
    do 2 eexists; (split; [reflexivity | lia]).
Qed.

Lemma match_number_str_of_Z (z : Z) (rest : str) :
  follows rest = true ->
  match_number (str_of_Z z ++ rest) = IntNumber z rest.
Proof.
  intro Hf.
  assert (Hfrac : has_frac rest || has_exp rest = false).
  { destruct (follows_cases rest Hf) as [->|(c & tl & -> & [->|[->| ->]])];
      try reflexivity; destruct tl; reflexivity. }
  assert (Hpos : forall p, scan_int_part (uint_chars (Pos.to_uint p) ++ rest)
                           = Some (Pos.to_uint p, rest)).
  { intro p. destruct (to_uint_head p) as (c & tl & Hc & Hr).
    unfold scan_int_part. rewrite Hc. simpl app. cbv beta iota.
    replace (c =? 48)%N with false by (symmetry; apply N.eqb_neq; lia).
    assert (Hd : is_digit c = true)
      by (unfold is_digit; apply andb_true_iff; split; apply N.leb_le; lia).
    rewrite Hd.
    change (c :: tl ++ rest) with ((c :: tl) ++ rest). rewrite <- Hc.
    now rewrite scan_digits_chars. }
  pose proof (DecimalZ.of_to z) as Hz.
  unfold str_of_Z. destruct z as [|p|p]; simpl Z.to_int in *.
  - simpl. rewrite Hfrac. reflexivity.
  - destruct (to_uint_head p) as (c & tl & Hc & Hr).
    unfold match_number. rewrite Hc. simpl app. cbv beta iota.
    replace (c =? 45)%N with false by (symmetry; apply N.eqb_neq; lia).
    change (c :: tl ++ rest) with ((c :: tl) ++ rest). rewrite <- Hc.
    rewrite Hpos, Hfrac. now rewrite Hz.
  - unfold match_number. simpl app. cbv beta iota. rewrite N.eqb_refl.
    rewrite Hpos, Hfrac. now rewrite Hz.
Qed.

(** ** Strings *)

Lemma below_32 (c : N) :
  (c < 32)%N ->
  In c [0; 1; 2; 3; 4; 5; 6; 7; 8; 9; 10; 11; 12; 13; 14; 15; 16; 17; 18;
        19; 20; 21; 22; 23; 24; 25; 26; 27; 28; 29; 30; 31]%N.
Proof.
  intro H.
  assert (Hin : In (N.to_nat c) (seq 0 32)) by (apply in_seq; lia).
  apply (in_map N.of_nat) in Hin. rewrite N2Nat.id in Hin. exact Hin.
Qed.

(** The scanner reads an escaped character back as the character. *)
Lemma scanstring_escape (c : N) (tail acc : str) :
  scanstring (escape_char c ++ tail) acc = scanstring tail (c :: acc).
Proof.
  destruct (c <? 32)%N eqn:E.
  - apply N.ltb_lt in E. apply below_32 in E. simpl in E.
    repeat (destruct E as [<-|E]; [reflexivity|]). contradiction.
  - destruct (c =? 34)%N eqn:E1; [apply N.eqb_eq in E1; now subst|].
    destruct (c =? 92)%N eqn:E2; [apply N.eqb_eq in E2; now subst|].
    apply N.ltb_ge in E.
    unfold escape_char. rewrite E1, E2.
    replace (c =? 10)%N with false by (symmetry; apply N.eqb_neq; lia).
    replace (c =? 13)%N with false by (symmetry; apply N.eqb_neq; lia).
    replace (c =? 9)%N with false by (symmetry; apply N.eqb_neq; lia).
    replace (c =? 8)%N with false by (symmetry; apply N.eqb_neq; lia).
    replace (c =? 12)%N with false by (symmetry; apply N.eqb_neq; lia).
    replace (c <? 32)%N with false by (symmetry; apply N.ltb_ge; lia).
    simpl. rewrite E1, E2.
    replace (c <? 32)%N with false by (symmetry; apply N.ltb_ge; lia).
    reflexivity.
Qed.

Lemma scanstring_encoded (s tail acc : str) :
  scanstring (flat_map escape_char s ++ 34%N :: tail) acc
  = Some (rev acc ++ s, tail).
Proof.
  revert acc. induction s as [|c s IH]; intro acc.
  - simpl. now rewrite app_nil_r.
  - simpl flat_map. rewrite <- app_assoc, scanstring_escape, IH.
    simpl. now rewrite <- app_assoc.
Qed.

(** ** Unfolding the scanner *)

Lemma scan_once_string (f : nat) (rest : str) :
  scan_once (S f) (34%N :: rest)
  = match scanstring rest [] with
    | Some (x, r) => Some (JStr x, r)
    | None => None
    end.
Proof. reflexivity. Qed.

Lemma scan_once_array (f : nat) (rest : str) :
  scan_once (S f) (91%N :: rest)
  = match skip_ws rest with
    | c1 :: r1 =>
        if (c1 =? 93)%N then Some (JList [], r1)
        else array_items f (skip_ws rest) []
    | [] => None
    end.
Proof. reflexivity. Qed.

Lemma scan_once_object (f : nat) (rest : str) :
  scan_once (S f) (123%N :: rest)
  = match skip_ws rest with
    | c1 :: r1 =>
        if (c1 =? 125)%N then Some (JDict [], r1)
        else object_items f (skip_ws rest) []
    | [] => None
    end.
Proof. reflexivity. Qed.

Lemma scan_once_number (f : nat) (c : N) (rest : str) :
  (c = 45 \/ 48 <= c <= 57)%N ->
  scan_once (S f) (c :: rest)
  = match match_number (c :: rest) with
    | IntNumber z r => Some (JInt z, r)
    | _ => None
    end.
Proof.
  intro H. cbn [scan_once].
  replace (c =? 34)%N with false by (symmetry; apply N.eqb_neq; lia).
  replace (c =? 123)%N with false by (symmetry; apply N.eqb_neq; lia).
  replace (c =? 91)%N with false by (symmetry; apply N.eqb_neq; lia).
  replace (c =? 110)%N with false by (symmetry; apply N.eqb_neq; lia).
  replace (c =? 116)%N with false by (symmetry; apply N.eqb_neq; lia).
  replace (c =? 102)%N with false by (symmetry; apply N.eqb_neq; lia).
  destruct (match_number (c :: rest)); reflexivity.
Qed.

Lemma array_items_S (f : nat) (s : str) (acc : list json) :
  array_items (S f) s acc
  = match scan_once f s with
    | None => None
    | Some (v, r) =>
        match skip_ws r with
        | c :: r' =>
            if (c =? 93)%N then Some (JList (rev (v :: acc)), r')
            else if (c =? 44)%N then array_items f (skip_ws r') (v :: acc)
            else None
        | [] => None
        end
    end.
Proof. reflexivity. Qed.

Lemma object_items_S (f : nat) (r0 : str) (acc : list (str * json)) :
  object_items (S f) (34%N :: r0) acc
  = match scanstring r0 [] with
    | None => None
    | Some (k, r1) =>
        match skip_ws r1 with
        | c1 :: r2 =>
            if (c1 =? 58)%N then
              match scan_once f (skip_ws r2) with
              | None => None
              | Some (v, r3) =>
                  match skip_ws r3 with
                  | c2 :: r4 =>
                      if (c2 =? 125)%N then
                        Some (JDict (dict_of_pairs (rev ((k, v) :: acc))), r4)
                      else if (c2 =? 44)%N then
                        object_items f (skip_ws r4) ((k, v) :: acc)
                      else None
                  | [] => None
                  end
              end
            else None
        | [] => None
        end
    end.
Proof. reflexivity. Qed.

(** ** The first character of a serialized value *)

(** Neither white space nor a closing bracket. *)
Definition opens (s : str) : Prop :=
  exists c tl, s = c :: tl /\ is_ws c = false /\ (c =? 93)%N = false.

Lemma str_of_Z_head (z : Z) :
  exists c tl, str_of_Z z = c :: tl /\ (c = 45 \/ 48 <= c <= 57)%N.
Proof.
  unfold str_of_Z. destruct z as [|p|p]; simpl Z.to_int.
  - exists 48%N, []. split; [reflexivity | lia].
  - destruct (to_uint_head p) as (c & tl & Hc & Hr).
    exists c, tl. split; [exact Hc | lia].
  - exists 45%N, (uint_chars (Pos.to_uint p)). split; [reflexivity | lia].
Qed.

Lemma dumps_opens (v : json) : opens (dumps v).
Proof.
  unfold opens. destruct v as [|[|]|z|s|l|d].
  1-3,5-7: (do 2 eexists; split; [reflexivity | split; reflexivity]).
  destruct (str_of_Z_head z) as (c & tl & Hc & Hr).
  exists c, tl. split; [exact Hc|].
  unfold is_ws. split.
  - repeat (apply orb_false_iff; split); apply N.eqb_neq; lia.
  - apply N.eqb_neq; lia.
Qed.

Lemma opens_app (s tail : str) : opens s -> opens (s ++ tail).
Proof.
  intros (c & tl & -> & H). exists c, (tl ++ tail). now split.
Qed.

Lemma skip_ws_opens (s : str) : opens s -> skip_ws s = s.
Proof. intros (c & tl & -> & Hw & _). simpl. now rewrite Hw. Qed.

Lemma length_dumps_pos (v : json) : (1 <= length (dumps v))%nat.
Proof. destruct (dumps_opens v) as (c & tl & -> & _). simpl. lia. Qed.

(** ** dict(pairs) of distinct keys *)

Lemma dict_set_fresh (d : dict) (k : str) (v : json) :
  dict_has d k = false -> dict_set d k v = d ++ [(k, v)].
Proof.
  unfold dict_has. induction d as [|[k' v'] d IH]; simpl; intro H.
  - reflexivity.
  - destruct (str_eqb k' k); [discriminate|]. now rewrite IH.
Qed.

Lemma dict_has_app (a b : dict) (k : str) :
  dict_has (a ++ b) k = dict_has a k || dict_has b k.
Proof.
  unfold dict_has. induction a as [|[k' v'] a IH]; simpl; [reflexivity|].
  destruct (str_eqb k' k); [reflexivity | exact IH].
Qed.

Lemma dict_of_distinct_pairs (pairs acc : dict) :
  distinct (List.map fst pairs) = true ->
  (forall kv, In kv pairs -> dict_has acc (fst kv) = false) ->
  fold_left (fun d kv => dict_set d (fst kv) (snd kv)) pairs acc
  = acc ++ pairs.
Proof.
  revert acc. induction pairs as [|[k v] pairs IH]; intros acc Hd Hfresh; simpl.
  - now rewrite app_nil_r.
  - simpl in Hd. apply andb_true_iff in Hd as [Hk Hd].
    rewrite dict_set_fresh by (apply (Hfresh (k, v)); now left).
    rewrite IH; [now rewrite <- app_assoc | exact Hd |].
    intros [k' v'] Hin. rewrite dict_has_app.
    rewrite (Hfresh (k', v')) by now right. simpl.
    unfold dict_has. simpl. destruct (str_eqb k k') eqn:E; [|reflexivity].
    apply str_eqb_eq in E. subst k'.
    apply negb_true_iff in Hk. 
    assert (Hin' : In k (List.map fst pairs)) by (apply (in_map fst) in Hin; exact Hin).
    apply str_in_In in Hin'. congruence.
Qed.

(** ** Values *)

(** [v], well formed, is read back from its serialization, whatever
    follows it, with fuel for the length of the text. *)
Definition parses_back (v : json) : Prop :=
  wf_json v = true ->
  forall fuel rest,
    (length (dumps v) <= fuel)%nat -> follows rest = true ->
    scan_once fuel (dumps v ++ rest) = Some (v, rest).

Definition sep : str := lit ", ".

Definition entry (kv : str * json) : str :=
  encode_str false (fst kv) ++ lit ": " ++ dumps (snd kv).

Lemma join_two (x y : str) (l : list str) :
  join sep (x :: y :: l) = x ++ sep ++ join sep (y :: l).
Proof. reflexivity. Qed.

Lemma skip_ws_keep (c : N) (t : str) :
  is_ws c = false -> skip_ws (c :: t) = c :: t.
Proof. intro H. simpl. now rewrite H. Qed.

Lemma join_opens (x : str) (l : list str) : opens x -> opens (join sep (x :: l)).
Proof.
  intro H. destruct l as [|y l]; [exact H|].
  rewrite join_two. now apply opens_app.
Qed.

Lemma array_items_dumps (l : list json) :
  Forall parses_back l -> forallb wf_json l = true -> l <> [] ->
  forall fuel acc rest,
    (length (join sep (List.map dumps l)) < fuel)%nat ->
    array_items fuel (join sep (List.map dumps l) ++ 93%N :: rest) acc
    = Some (JList (rev acc ++ l), rest).
Proof.
  induction 1 as [|x xs Hx Hxs IH]; intros Hwf Hne fuel acc rest Hfuel;
    [congruence|].
  simpl in Hwf. apply andb_true_iff in Hwf as [Hwx Hwxs].
  destruct fuel as [|f]; [lia|]. rewrite array_items_S.
  destruct xs as [|y ys].
  - change (join sep (List.map dumps [x])) with (dumps x) in *.
    rewrite (Hx Hwx f (93%N :: rest)) by (try reflexivity; lia).
    rewrite skip_ws_keep by reflexivity.
    change (93 =? 93)%N with true. cbv iota. reflexivity.
  - change (List.map dumps (x :: y :: ys))
      with (dumps x :: dumps y :: List.map dumps ys) in *.
    rewrite join_two in *. rewrite !length_app in Hfuel.
    change (length sep) with 2%nat in Hfuel.
    rewrite <- !app_assoc.
    change (sep ++ ?t) with (44%N :: 32%N :: t).
    rewrite (Hx Hwx f) by (try reflexivity; lia).
    rewrite skip_ws_keep by reflexivity.
    change (44 =? 93)%N with false. change (44 =? 44)%N with true. cbv iota.
    change (skip_ws (32%N :: ?t)) with (skip_ws t).
    rewrite skip_ws_opens
      by (apply opens_app, (@join_opens (dumps y)), dumps_opens).
    change (dumps y :: List.map dumps ys) with (List.map dumps (y :: ys)) in *.
    rewrite IH; try assumption; try discriminate.
    + simpl rev. now rewrite <- app_assoc.
    + pose proof (length_dumps_pos x). lia.
Qed.

Lemma entry_opens (kv : str * json) : opens (entry kv).
Proof. do 2 eexists. split; [reflexivity | split; reflexivity]. Qed.

Lemma object_items_dumps (d : list (str * json)) :
  Forall (fun kv => parses_back (snd kv)) d ->
  forallb (fun kv => wf_json (snd kv)) d = true -> d <> [] ->
  forall fuel acc rest,
    (length (join sep (List.map entry d)) < fuel)%nat ->
    object_items fuel (join sep (List.map entry d) ++ 125%N :: rest) acc
    = Some (JDict (dict_of_pairs (rev acc ++ d)), rest).
Proof.
  induction 1 as [|[k v] xs Hx Hxs IH]; intros Hwf Hne fuel acc rest Hfuel;
    [congruence|].
  simpl in Hwf. apply andb_true_iff in Hwf as [Hwx Hwxs]. simpl snd in *.
  destruct fuel as [|f]; [lia|].
  assert (Hentry : forall tail,
             entry (k, v) ++ tail
             = 34%N :: flat_map escape_char k
                    ++ 34%N :: 58%N :: 32%N :: dumps v ++ tail).
  { intro tail. unfold entry, encode_str. simpl fst. simpl snd.
    simpl. rewrite <- !app_assoc. reflexivity. }
  assert (Hlen : (length (dumps v) <= length (entry (k, v)))%nat).
  { unfold entry. rewrite !length_app. simpl snd. lia. }
  destruct xs as [|y ys].
  - change (join sep (List.map entry [(k, v)])) with (entry (k, v)) in *.
    rewrite Hentry, object_items_S, scanstring_encoded.
    rewrite skip_ws_keep by reflexivity.
    change (58 =? 58)%N with true. cbv iota.
    change (skip_ws (32%N :: ?t)) with (skip_ws t).
    rewrite skip_ws_opens by (apply opens_app, dumps_opens).
    rewrite (Hx Hwx f (125%N :: rest)) by (try reflexivity; lia).
    rewrite skip_ws_keep by reflexivity.
    change (125 =? 125)%N with true. cbv iota. reflexivity.
  - change (List.map entry ((k, v) :: y :: ys))
      with (entry (k, v) :: entry y :: List.map entry ys) in *.
    rewrite join_two in *. rewrite !length_app in Hfuel.
    change (length sep) with 2%nat in Hfuel.
    rewrite <- !app_assoc.
    rewrite Hentry, object_items_S, scanstring_encoded.
    rewrite skip_ws_keep by reflexivity.
    change (58 =? 58)%N with true. cbv iota.
    change (skip_ws (32%N :: ?t)) with (skip_ws t).
    rewrite skip_ws_opens by (apply opens_app, dumps_opens).
    change (sep ++ ?t) with (44%N :: 32%N :: t).
    rewrite (Hx Hwx f) by (try reflexivity; lia).
    rewrite skip_ws_keep by reflexivity.
    change (44 =? 125)%N with false. change (44 =? 44)%N with true. cbv iota.
    change (skip_ws (32%N :: ?t)) with (skip_ws t).
    rewrite skip_ws_opens
      by (apply opens_app, (@join_opens (entry y)), entry_opens).
    change (entry y :: List.map entry ys) with (List.map entry (y :: ys)) in *.
    destruct (join sep (List.map entry (y :: ys)) ++ 125%N :: rest)
      as [|q r0] eqn:Hj.
    { destruct (@join_opens (entry y) (List.map entry ys) (entry_opens y))
        as (c & tl & Hc & _).
      change (entry y :: List.map entry ys)
        with (List.map entry (y :: ys)) in Hc.
      rewrite Hc in Hj. discriminate. }
    rewrite <- Hj.
    rewrite IH; try assumption; try discriminate.
    + simpl rev. now rewrite <- app_assoc.
    + lia.
Qed.

Lemma scan_once_dumps (v : json) : parses_back v.
Proof.
  induction v as [| b | z | s | l IH | d IH] using json_induction;
    intros Hwf fuel rest Hfuel Hrest.
  - destruct fuel as [|f]; [simpl in Hfuel; lia | reflexivity].
  - destruct b; (destruct fuel as [|f]; [simpl in Hfuel; lia | reflexivity]).
  - pose proof (length_dumps_pos (JInt z)).
    destruct fuel as [|f]; [lia|].
    change (dumps (JInt z)) with (str_of_Z z).
    destruct (str_of_Z_head z) as (c & tl & Hc & Hr).
    pose proof (match_number_str_of_Z z rest Hrest) as Hm.
    rewrite Hc in *. simpl app in *.
    rewrite scan_once_number by exact Hr. now rewrite Hm.
  - destruct fuel as [|f]; [simpl in Hfuel; lia|].
    change (dumps (JStr s)) with (34%N :: flat_map escape_char s ++ [34%N]).
    simpl app. rewrite <- app_assoc. simpl app.
    rewrite scan_once_string, scanstring_encoded. reflexivity.
  - change (dumps (JList l))
      with (91%N :: join sep (List.map dumps l) ++ [93%N]) in *.
    simpl in Hfuel. rewrite length_app in Hfuel. simpl in Hfuel.
    destruct fuel as [|f]; [lia|].
    simpl app. rewrite <- app_assoc. simpl app. rewrite scan_once_array.
    destruct l as [|x xs].
    + reflexivity.
    + rewrite skip_ws_opens
        by (apply opens_app, (@join_opens (dumps x)), dumps_opens).
      destruct (@join_opens (dumps x) (List.map dumps xs) (dumps_opens x))
        as (c & tl & Hc & _ & Hb).
      change (dumps x :: List.map dumps xs)
        with (List.map dumps (x :: xs)) in Hc.
      rewrite Hc at 1. simpl app at 1. cbv iota. rewrite Hb.
      rewrite array_items_dumps; try assumption; try discriminate;
        [reflexivity | lia].
  - change (dumps (JDict d))
      with (123%N :: join sep (List.map entry d) ++ [125%N]) in *.
    simpl in Hfuel. rewrite length_app in Hfuel. simpl in Hfuel.
    simpl in Hwf. apply andb_true_iff in Hwf as [Hdist Hwf].
    destruct fuel as [|f]; [lia|].
    simpl app. rewrite <- app_assoc. simpl app. rewrite scan_once_object.
    destruct d as [|x xs].
    + reflexivity.
    + rewrite skip_ws_opens
        by (apply opens_app, (@join_opens (entry x)), entry_opens).
      assert (Hc : exists tl, join sep (List.map entry (x :: xs)) = 34%N :: tl).
      { destruct xs; simpl; unfold entry, encode_str; simpl; eauto. }
      destruct Hc as (tl & Hc).
      rewrite Hc at 1. simpl app at 1. cbv iota.
      change (34 =? 125)%N with false. cbv iota.
      rewrite object_items_dumps; try assumption; try discriminate; [|lia].
      simpl rev. simpl app. unfold dict_of_pairs.
      rewrite dict_of_distinct_pairs; [reflexivity | assumption |].
      intros kv _. reflexivity.
Qed.

(** [json.loads(json.dumps(v, ensure_ascii=False))] is [v]. *)
Lemma loads_dumps (v : json) : wf_json v = true -> loads (dumps v) = Some v.
Proof.
  intro Hwf. unfold loads.
  rewrite skip_ws_opens by apply dumps_opens.
  rewrite <- (app_nil_r (dumps v)) at 2.
  rewrite (scan_once_dumps v Hwf) by (try reflexivity; lia).
  reflexivity.
Qed.

End JsonFacts.

Module RoundTripFacts.
Import Py PyFacts PyJson JsonFacts Spec.

Lemma one_line_app (a b : str) : one_line (a ++ b) = one_line a && one_line b.
Proof. apply forallb_app. Qed.

Lemma one_line_escape (c : N) : one_line (escape_char c) = true.
Proof.
  destruct (c <? 32)%N eqn:E.
  - apply N.ltb_lt in E. apply below_32 in E. simpl in E.
    repeat (destruct E as [<-|E]; [reflexivity|]). contradiction.
  - unfold escape_char. rewrite E.
    repeat match goal with
           | |- context [(c =? ?n)%N] => destruct (c =? n)%N; [reflexivity|]
           end.
    apply N.ltb_ge in E. simpl. rewrite andb_true_r. now apply N.leb_le.
Qed.

Lemma one_line_encode (s : str) : one_line (encode_str false s) = true.
Proof.
  unfold encode_str. cbn [one_line forallb]. fold (one_line (flat_map escape_char s ++ [34%N])).
  rewrite one_line_app. simpl. rewrite andb_true_r.
  induction s as [|c s IH]; [reflexivity|].
  simpl flat_map. rewrite one_line_app, one_line_escape. exact IH.
Qed.

Lemma one_line_uint (d : Decimal.uint) : one_line (uint_chars d) = true.
Proof. induction d; simpl; auto. Qed.

Lemma one_line_join (parts : list str) :
  forallb one_line parts = true -> one_line (join sep parts) = true.
Proof.
  induction parts as [|x [|y l] IH]; simpl forallb; intro H.
  - reflexivity.
  - simpl. now rewrite andb_true_r in H.
  - apply andb_true_iff in H as [Hx Hl].
    rewrite join_two, !one_line_app, Hx, (IH Hl). reflexivity.
Qed.

Lemma one_line_dumps (v : json) : one_line (dumps v) = true.
Proof.
  induction v as [| [|] | z | s | l IH | d IH] using json_induction;
    try reflexivity.
  - change (dumps (JInt z)) with (str_of_Z z). unfold str_of_Z.
    destruct (Z.to_int z); simpl; apply one_line_uint.
  - apply one_line_encode.
  - change (dumps (JList l))
      with (91%N :: join sep (List.map dumps l) ++ [93%N]).
    cbn [one_line forallb]. fold (one_line (join sep (List.map dumps l) ++ [93%N])).
    rewrite one_line_app, one_line_join; [reflexivity|].
    apply forallb_forall. intros t Ht. apply in_map_iff in Ht as (x & <- & Hx).
    rewrite Forall_forall in IH. now apply IH.
  - change (dumps (JDict d))
      with (123%N :: join sep (List.map entry d) ++ [125%N]).
    cbn [one_line forallb]. fold (one_line (join sep (List.map entry d) ++ [125%N])).
    rewrite one_line_app, one_line_join; [reflexivity|].
    apply forallb_forall. intros t Ht. apply in_map_iff in Ht as (kv & <- & Hin).
    rewrite Forall_forall in IH. unfold entry.
    rewrite !one_line_app, one_line_encode, (IH kv Hin). reflexivity.
Qed.

(** ** The values of a well-formed record *)

Lemma dict_get_In (d : dict) (k : str) (v : json) :
  dict_get d k = Some v -> In (k, v) d.
Proof.
  induction d as [|[k' v'] d IH]; simpl; [discriminate|].
  destruct (str_eqb k' k) eqn:E.
  - apply str_eqb_eq in E. intros [= ->]. left. now subst.
  - intro H. right. now apply IH.
Qed.

Lemma dict_get_absent (d : dict) (k : str) :
  str_in k (List.map fst d) = false -> dict_get d k = None.
Proof.
  induction d as [|[k' v'] d IH]; simpl; [reflexivity|].
  intro H. apply orb_false_iff in H as [Hk Hd].
  rewrite str_eqb_sym, Hk. now apply IH.
Qed.

Lemma dict_get_app (a b : dict) (k : str) :
  dict_get (a ++ b) k
  = match dict_get a k with Some v => Some v | None => dict_get b k end.
Proof.
  induction a as [|[k' v'] a IH]; simpl; [reflexivity|].
  destruct (str_eqb k' k); [reflexivity | exact IH].
Qed.

Lemma dict_get_rev (d : dict) (k : str) :
  distinct (List.map fst d) = true -> dict_get (rev d) k = dict_get d k.
Proof.
  induction d as [|[k' v'] d IH]; simpl; [reflexivity|].
  intro H. apply andb_true_iff in H as [Hk Hd]. apply negb_true_iff in Hk.
  rewrite dict_get_app, (IH Hd). simpl.
  destruct (str_eqb k' k) eqn:E.
  - apply str_eqb_eq in E. subst k'. now rewrite (dict_get_absent d k Hk).
  - now destruct (dict_get d k).
Qed.

Lemma wf_value (d : dict) (k : str) (v : json) :
  wf_json (JDict d) = true -> dict_get d k = Some v -> wf_json v = true.
Proof.
  simpl. intros H Hg. apply andb_true_iff in H as [_ H].
  rewrite forallb_forall in H. apply (H (k, v)). now apply dict_get_In.
Qed.

Lemma flatten_nested (v : json) :
  nested v = true -> Snitch.flatten_value v = JStr (dumps v).
Proof.
  destruct v as [| | | |l|d]; try discriminate; [|reflexivity].
  simpl. destruct l as [|x l]; [discriminate|].
  intro H. apply negb_true_iff in H. now rewrite H.
Qed.

End RoundTripFacts.

(* ================================================================== *)
(** * The claims of the specification *)
(* ================================================================== *)

Import Py PyJson Paginate Spec Samples.

(** C1, as amended.  After a page with records, an integer total count in
    the response decides alone in the Tasva loop: continue exactly when
    fewer records than the total are collected.  In the Snitch loop it
    decides to continue when fewer are collected; once the total is
    reached the has-more flag and next-page pointer under 'data' and the
    full-page heuristic are not consulted, and the loop stops unless a
    top-level 'hasMore', 'totalPages' or 'nextPage' signals more. *)
Theorem total_count_decides :
  forall (repr : json -> str) (tasva_response : json) (products : list dict)
         (response data_obj : dict) (t n_products n_all limit page : Z)
         (total_count total_pages : json),
    Tasva.extract_products repr tasva_response = Ok products ->
    products <> [] ->
    dict_get response (lit "data") = Some (JDict data_obj) ->
    dict_get data_obj (lit "total_count") = Some (JInt t) ->
    (exists obj,
        Tasva.products_obj tasva_response = Some obj
        /\ forall t',
             dict_get obj (lit "total") = Some (JInt t') ->
             Tasva.has_more_after tasva_response n_products n_all limit
                                  total_count
             = Ok ((n_all <? t')%Z, JInt t'))
    /\ decision (Snitch.has_more_after (JDict response) n_products n_all
                   limit page total_count total_pages)
       = if (n_all <? t)%Z then Ok true else top_level_more response page.
Proof.
  intros repr tresp products response data_obj t n_products n_all limit page
         total_count total_pages Hx Hne Hd Ht.
  split.
  - destruct (SignalFacts.tasva_products_obj repr tresp Hx Hne) as [obj Ho].
    exists obj. split; [exact Ho|]. intros t' Ht'.
    now apply (@SignalFacts.tasva_total tresp obj).
  - now apply (@SignalFacts.snitch_total_count response data_obj).
Qed.

(** A Tasva page with a total of 2 and a Snitch page with a total of 5,
    one record collected. *)
Lemma total_count_decides_witness :
  (exists obj,
      Tasva.products_obj tasva_page = Some obj
      /\ forall t',
           dict_get obj (lit "total") = Some (JInt t') ->
           Tasva.has_more_after tasva_page 1 1 10 JNull
           = Ok ((1 <? t')%Z, JInt t'))
  /\ decision (Snitch.has_more_after (JDict snitch_page) 1 1 10 1 JNull JNull)
     = if (1 <? 5)%Z then Ok true else top_level_more snitch_page 1.
Proof.
  apply (@total_count_decides (fun _ => []) tasva_page tasva_page_products
           snitch_page
           [(lit "products", JList [JDict [(lit "id", JInt 1)]]);
            (lit "total_count", JInt 5);
            (lit "hasMore", JBool false)]
           5 1 1 10 1 JNull JNull).
  - vm_compute. reflexivity.
  - vm_compute. discriminate.
  - reflexivity.
  - reflexivity.
Defined.

(** C1, as stated, fails in the Snitch loop: one record collected, a
    total count of 1 in the response, and the loop still continues,
    because the top-level 'hasMore' is consulted. *)
Lemma top_level_flag_overrides_total :
  Snitch.has_more_after
    (JDict [(lit "data", JDict [(lit "products", JList [JDict [(lit "id", JInt 1)]]);
                                (lit "total_count", JInt 1)]);
            (lit "hasMore", JBool true)])
    1 1 10 1 JNull JNull
  = Ok (true, JInt 1, JInt 1).
Proof. vm_compute. reflexivity. Qed.

(** C2, as amended.  For a source that holds T >= 1 records and serves
    them in pages of size L >= 1, each response carrying the total count,
    the loop makes exactly ceil(T/L) fetches and collects exactly the T
    records, flattened, as long as the fetches stay within the safety
    limit: ceil(T/L) <= 1000 pages for Snitch, a last offset
    (ceil(T/L) - 1) * L <= 100000 for Tasva.  The records are records
    the extraction keeps: for Snitch none is the empty object, for Tasva
    each is one the flattener accepts. *)
Theorem fixed_total_fetch_count :
  forall (query : str) (records : list dict) (limit : Z)
         (self : Tasva.scraper) (_generate_hash : dict -> str)
         (repr : json -> str) (flat : dict -> dict),
    (1 <= limit)%Z ->
    records <> [] ->
    let n := Z.to_nat (ceil_div (len records) limit) in
    (Forall (fun r => r <> []) records ->
     (ceil_div (len records) limit <= 1000)%Z ->
     exists st,
       Snitch.scrape_query (snitch_source records) query limit
       = Some (Ok (NoMorePages, st))
       /\ Snitch.all_products st
          = List.map Snitch._extract_product_info records
       /\ Snitch.fetched st = fetches 1 1 n
       /\ length (Snitch.all_products st) = length records
       /\ length (Snitch.fetched st) = n)
    /\ (Forall (fun r => Tasva._extract_product_info repr r = Ok (flat r))
               records ->
        ((ceil_div (len records) limit - 1) * limit <= 100000)%Z ->
        forall fuel, (n <= fuel)%nat ->
        exists st,
          Tasva.scrape_query self (tasva_source records) _generate_hash repr
                             query limit fuel
          = Some (Ok (NoMorePages, st))
          /\ Tasva.all_products st = List.map flat records
          /\ Tasva.fetched st = fetches 0 limit n
          /\ length (Tasva.all_products st) = length records
          /\ length (Tasva.fetched st) = n).
Proof.
  intros query records limit self gh repr flat Hl Hne n.
  assert (Hm : (len records <= Z.of_nat (length records) * limit)%Z)
    by (unfold len; nia).
  split.
  - intros Hrec Hc.
    destruct (@SourceFacts.snitch_runs records query limit Hl Hrec
                (length records) [] records 1%Z JNull JNull [])
      as (final & Hruns & Hall & Hf); try reflexivity; try assumption; try lia.
    exists final. split; [|split; [exact Hall | split; [exact Hf|]]].
    + unfold Snitch.scrape_query, Snitch.scrape_loop.
      apply (LoopFacts.runs_while_true Hruns).
      change 1000%nat with (Z.to_nat 1000). lia.
    + rewrite Hall, Hf, length_map. cbn [app].
      rewrite SourceFacts.length_fetches. now split.
  - intros Hrec Hc fuel Hfuel.
    destruct (@SourceFacts.tasva_runs self gh repr query records flat limit
                Hl Hrec (length records) [] records 0%Z JNull [])
      as (final & Hruns & Hall & Hf); try reflexivity; try assumption; try lia.
    exists final. split; [|split; [exact Hall | split; [exact Hf|]]].
    + unfold Tasva.scrape_query, Tasva.scrape_loop.
      apply (LoopFacts.runs_while_true Hruns). exact Hfuel.
    + rewrite Hall, Hf, length_map. cbn [app].
      rewrite SourceFacts.length_fetches. now split.
Qed.

(** Three records in pages of two: two fetches. *)
Lemma fixed_total_fetch_count_witness :
  let n := Z.to_nat (ceil_div (len three_records) 2) in
  (exists st,
     Snitch.scrape_query (snitch_source three_records) (lit "shirt") 2
     = Some (Ok (NoMorePages, st))
     /\ Snitch.all_products st
        = List.map Snitch._extract_product_info three_records
     /\ Snitch.fetched st = fetches 1 1 n
     /\ length (Snitch.all_products st) = length three_records
     /\ length (Snitch.fetched st) = n)
  /\ (exists st,
        Tasva.scrape_query (Tasva.Scraper [] [] []) (tasva_source three_records)
                           (fun _ => []) (fun _ => []) (lit "shirt") 2 2
        = Some (Ok (NoMorePages, st))
        /\ Tasva.all_products st
           = List.map (fun r =>
                         match Tasva._extract_product_info (fun _ => []) r
                         with Ok p => p | Raise _ => [] end) three_records
        /\ Tasva.fetched st = fetches 0 2 n
        /\ length (Tasva.all_products st) = length three_records
        /\ length (Tasva.fetched st) = n).
Proof.
  intro n.
  destruct (@fixed_total_fetch_count (lit "shirt") three_records 2
              (Tasva.Scraper [] [] []) (fun _ => []) (fun _ => [])
              (fun r => match Tasva._extract_product_info (fun _ => []) r
                        with Ok p => p | Raise _ => [] end))
    as [HS HT].
  - lia.
  - discriminate.
  - split.
    + apply HS.
      * repeat (apply Forall_cons; [discriminate|]). apply Forall_nil.
      * vm_compute. discriminate.
    + apply HT.
      * repeat (apply Forall_cons; [vm_compute; reflexivity|]).
        apply Forall_nil.
      * vm_compute. discriminate.
      * vm_compute. lia.
Defined.

(** C2, as stated, fails at both ends and on records the extraction does
    not keep.  A source with no record at all is still fetched once,
    where ceil(0/10) is 0; a Snitch source with 1001 records in pages of
    one is left at the safety limit, after 1000 fetches and with 1000
    records, where the claim has 1001 of each; a Snitch source of three
    records, one of them the empty object, in one page of three is
    fetched twice and gives two records; and a Tasva source whose record
    has a number as swatch makes the loop raise. *)
Lemma fetch_count_outside_limits :
  snitch_summary (Snitch.scrape_query (snitch_source []) (lit "shirt") 10)
  = Some (NoProducts, 0%nat, 1%nat)
  /\ snitch_summary
       (Snitch.scrape_query
          (snitch_source
             (List.map (fun i => [(lit "id", JInt (Z.of_nat i))]) (seq 1 1001)))
          (lit "shirt") 1)
     = Some (SafetyLimit, 1000%nat, 1000%nat)
  /\ snitch_summary
       (Snitch.scrape_query (snitch_source records_with_gap) (lit "shirt") 3)
     = Some (NoProducts, 2%nat, 2%nat)
  /\ Tasva.scrape_query sample_scraper (tasva_source untyped_records)
                        (fun _ => lit "0") (fun _ => []) (lit "shirt") 10 1
     = Some (Raise AttributeError).
Proof. repeat split; vm_compute; reflexivity. Qed.

(** C3, as amended.  Deduplication scans the records in their order and
    keeps exactly those that repeat no earlier record: a record is dropped
    when an earlier record has the same identity key, and the records
    without a key are all kept, in order.  The key of a Snitch record is
    its title, lower-cased and trimmed, none when the title is falsy or
    trims to nothing; the key of a Tasva record is its 'ProductID', none
    when that is falsy (absent, null, the empty string, 0, false).  On
    Tasva records a truthy list or dict as 'ProductID' raises TypeError. *)
Theorem dedup_keeps_first_occurrences :
  forall (lower : str -> str) (repr : json -> str) (products : list dict),
    (Snitch.remove_duplicates_by_title lower repr products
     = first_occurrences str_eqb (title_key lower repr) products
     /\ filter (keyless (title_key lower repr))
               (Snitch.remove_duplicates_by_title lower repr products)
        = filter (keyless (title_key lower repr)) products)
    /\ (Tasva.remove_duplicates_by_id products
        = if hashable_ids products
          then Ok (first_occurrences Tasva.key_eqb id_key products)
          else Raise TypeError)
    /\ filter (keyless id_key)
              (first_occurrences Tasva.key_eqb id_key products)
       = filter (keyless id_key) products.
Proof.
  intros lower repr products.
  assert (Hs : Snitch.remove_duplicates_by_title lower repr products
               = first_occurrences str_eqb (title_key lower repr) products).
  { unfold Snitch.remove_duplicates_by_title.
    rewrite (@DedupFacts.snitch_loop lower repr products [] [] []).
    - reflexivity.
    - apply DedupFacts.tracks_nil. }
  split; [split; [exact Hs|]|split].
  - rewrite Hs. apply DedupFacts.keyless_first_occurrences.
  - unfold Tasva.remove_duplicates_by_id.
    rewrite (@DedupFacts.tasva_loop products [] [] []).
    + reflexivity.
    + apply DedupFacts.tracks_nil.
  - apply DedupFacts.keyless_first_occurrences.
Qed.

(** C3, as stated, fails: two Tasva records with the same 'ProductID' 0,
    a key that is neither empty nor absent, are both kept. *)
Lemma dedup_keeps_both_zero_ids :
  Tasva.remove_duplicates_by_id
    [[(lit "ProductID", JInt 0); (lit "Name", JStr (lit "first"))];
     [(lit "ProductID", JInt 0); (lit "Name", JStr (lit "second"))]]
  = Ok [[(lit "ProductID", JInt 0); (lit "Name", JStr (lit "first"))];
        [(lit "ProductID", JInt 0); (lit "Name", JStr (lit "second"))]].
Proof. vm_compute. reflexivity. Qed.

(** C4, as amended.  When one of the known key-paths of a payload holds
    an array, the first in the order data, products, results, items,
    data.products, data.results, the record-locating step takes exactly
    that array, whatever the recursive search would find.  When every
    item of the array is an object, extraction returns the non-empty
    flattened records of that array, and the deep search runs only when
    the array yields no record; an item that is not an object makes the
    extraction raise AttributeError. *)
Theorem known_path_precedence :
  forall (find_recursive : json -> list json) (deep_search : json -> list dict)
         (data : dict) (arr : list json),
    known_path data = Some arr ->
    Snitch.products_data find_recursive data = JList arr
    /\ Snitch.extract_products_with find_recursive deep_search (JDict data)
       = (if forallb is_dict arr
          then
            match List.filter Snitch.nonempty
                    (List.map (fun item =>
                                 match item with
                                 | JDict record =>
                                     Snitch._extract_product_info record
                                 | _ => []
                                 end) arr) with
            | [] => Ok (Snitch.deep_products (deep_search (JDict data)))
            | product :: products => Ok (product :: products)
            end
          else Raise AttributeError)
    /\ forall records : list dict,
         arr = List.map JDict records ->
         Snitch.extract_products_with find_recursive deep_search (JDict data)
         = match List.filter Snitch.nonempty
                   (List.map Snitch._extract_product_info records) with
           | [] => Ok (Snitch.deep_products (deep_search (JDict data)))
           | product :: products => Ok (product :: products)
           end.
Proof.
  intros find deep data arr H.
  pose proof (ExtractFacts.known_path_products_data find data H) as Hp.
  split; [exact Hp|]. split.
  - unfold Snitch.extract_products_with. rewrite Hp.
    rewrite ExtractFacts.extract_each_dicts. cbn [app].
    destruct (forallb is_dict arr); [|reflexivity].
    now destruct (List.filter _ _).
  - intros records ->. unfold Snitch.extract_products_with. rewrite Hp.
    rewrite ExtractFacts.extract_each_records. cbn [app].
    now destruct (List.filter _ _).
Qed.

(** A payload with a top-level 'products' array and a nested one. *)
Lemma known_path_precedence_witness :
  Snitch.products_data (fun _ => []) sample_payload
  = JList [JDict [(lit "id", JInt 1)]]
  /\ Snitch.extract_products_with (fun _ => []) (fun _ => [])
       (JDict sample_payload)
     = (if forallb is_dict [JDict [(lit "id", JInt 1)]]
        then
          match List.filter Snitch.nonempty
                  (List.map (fun item =>
                               match item with
                               | JDict record =>
                                   Snitch._extract_product_info record
                               | _ => []
                               end) [JDict [(lit "id", JInt 1)]]) with
          | [] => Ok (Snitch.deep_products [])
          | product :: products => Ok (product :: products)
          end
        else Raise AttributeError)
  /\ forall records : list dict,
       [JDict [(lit "id", JInt 1)]] = List.map JDict records ->
       Snitch.extract_products_with (fun _ => []) (fun _ => [])
         (JDict sample_payload)
       = match List.filter Snitch.nonempty
                 (List.map Snitch._extract_product_info records) with
         | [] => Ok (Snitch.deep_products [])
         | product :: products => Ok (product :: products)
         end.
Proof.
  apply (@known_path_precedence (fun _ => []) (fun _ => []) sample_payload).
  vm_compute. reflexivity.
Defined.

(** C4, as stated, fails: 'data' holds an array, an empty one, and the
    extraction returns a record that the deep recursive search found
    elsewhere in the payload. *)
Lemma empty_known_path_falls_to_deep_search :
  known_path [(lit "data", JList []);
              (lit "user", JDict [(lit "id", JInt 7)])] = Some []
  /\ Snitch.extract_products
       (JDict [(lit "data", JList []);
               (lit "user", JDict [(lit "id", JInt 7)])])
     = Ok [[(lit "id", JInt 7)]].
Proof. split; vm_compute; reflexivity. Qed.

(** C5.  The flattener is total on JSON records: on every mapping the
    call returns a record and raises nothing, every key of the input has
    an entry in the output (and the output has no other key), and every
    value of the output is a scalar. *)
Theorem flatten_total :
  forall item : dict,
    Snitch.extract_item (JDict item) = Ok (Snitch._extract_product_info item)
    /\ (forall k : str,
          dict_has (Snitch._extract_product_info item) k = dict_has item k)
    /\ (forall (k : str) (v : json),
          dict_get (Snitch._extract_product_info item) k = Some v ->
          is_scalar v = true).
Proof.
  intro item. split; [reflexivity|]. split.
  - intro k. unfold Snitch._extract_product_info.
    change (fun product kv => dict_set product (fst kv) (Snitch.flatten_value (snd kv)))
      with FlattenFacts.flatten_step.
    now rewrite FlattenFacts.flatten_has.
  - unfold Snitch._extract_product_info.
    change (fun product kv => dict_set product (fst kv) (Snitch.flatten_value (snd kv)))
      with FlattenFacts.flatten_step.
    apply FlattenFacts.flatten_scalar. intros k v. discriminate.
Qed.

(** X31.  For every nested mapping of a raw record that holds no float,
    and every sequence with a non-scalar element, the flattener stores
    under the same key the JSON serialization of the value, a one-line
    text, and parsing that text back as JSON gives the original value. *)
Theorem nested_value_round_trip :
  forall (item : dict) (k : str) (v : json),
    wf_json (JDict item) = true ->
    dict_get item k = Some v ->
    nested v = true ->
    dict_get (Snitch._extract_product_info item) k = Some (JStr (dumps v))
    /\ one_line (dumps v) = true
    /\ loads (dumps v) = Some v.
Proof.
  intros item k v Hwf Hget Hn. split; [|split].
  - unfold Snitch._extract_product_info.
    change (fun product kv => dict_set product (fst kv) (Snitch.flatten_value (snd kv)))
      with FlattenFacts.flatten_step.
    rewrite FlattenFacts.flatten_get.
    simpl in Hwf. apply andb_true_iff in Hwf as [Hd _].
    rewrite (RoundTripFacts.dict_get_rev item k Hd), Hget.
    now rewrite RoundTripFacts.flatten_nested.
  - apply RoundTripFacts.one_line_dumps.
  - apply JsonFacts.loads_dumps. now apply (@RoundTripFacts.wf_value item k v).
Qed.

(** The 'variants' list of a record, with a nested mapping in it. *)
Lemma nested_value_round_trip_witness :
  dict_get (Snitch._extract_product_info nested_item) (lit "variants")
  = Some (JStr (dumps
       (JList [JDict [(lit "size", JStr (lit "M")); (lit "stock", JInt (-3))];
               JNull])))
  /\ one_line (dumps
       (JList [JDict [(lit "size", JStr (lit "M")); (lit "stock", JInt (-3))];
               JNull])) = true
  /\ loads (dumps
       (JList [JDict [(lit "size", JStr (lit "M")); (lit "stock", JInt (-3))];
               JNull]))
     = Some (JList [JDict [(lit "size", JStr (lit "M"));
                           (lit "stock", JInt (-3))];
                    JNull]).
Proof.
  apply (@nested_value_round_trip nested_item (lit "variants")); reflexivity.
Defined.

(** C7, as amended.  With a source that on every pass returns at least
    one record and signals more pages, the pagination loop terminates at
    its safety limit and returns what it collected, which is not empty:
    the Snitch loop, for every page size, after fetching page 1000, with
    the page number at 1001; the Tasva loop, for a page size of at least
    1, after the first offset above 100000. *)
Theorem safety_limit_stops_loop :
  forall (session_get : dict -> http_result) (query : str) (page_limit : Z)
         (SnitchInv : Snitch.state -> Prop)
         (self : Tasva.scraper) (session_post : dict -> http_result)
         (_generate_hash : dict -> str) (repr : json -> str) (limit : Z)
         (TasvaInv : Tasva.state -> Prop),
    SnitchInv Snitch.initial ->
    (forall st, SnitchInv st ->
       exists st', Snitch.examine session_get query page_limit st
                   = Ok (More st')
                   /\ SnitchInv (Snitch.advance st')) ->
    (0 < limit)%Z ->
    TasvaInv Tasva.initial ->
    (forall st, TasvaInv st ->
       exists st', Tasva.examine self session_post _generate_hash repr query
                                 limit st = Ok (More st')
                   /\ TasvaInv (Tasva.advance limit st')) ->
    (exists st,
        Snitch.scrape_query session_get query page_limit
        = Some (Ok (SafetyLimit, st))
        /\ Snitch.page st = 1001%Z
        /\ length (Snitch.fetched st) = 1000%nat
        /\ Snitch.all_products st <> [])
    /\ (forall fuel, (100001 < Z.of_nat fuel)%Z ->
        exists st,
          Tasva.scrape_query self session_post _generate_hash repr query limit
                             fuel
          = Some (Ok (SafetyLimit, st))
          /\ (100000 < Tasva.offset st <= 100000 + limit)%Z
          /\ Tasva.all_products st <> []).
Proof.
  intros get query page_limit SInv self post gh repr limit TInv
         Hs0 Hs Hl Ht0 Ht.
  split.
  - pose (Inv := fun st => SInv st /\ (1 <= Snitch.page st <= 1000)%Z
                           /\ Z.of_nat (length (Snitch.fetched st))
                              = (Snitch.page st - 1)%Z).
    pose (distance := fun st => Z.to_nat (1000 - Snitch.page st)).
    destruct (@LoopFacts.runs_to_limit _ (Snitch.examine get query page_limit)
                Snitch.advance (fun st => (Snitch.page st >? 1000)%Z)
                Inv distance) with (d := 999%nat) (st := Snitch.initial)
      as (last & st' & n & (Hi & Hp & Hf) & He & Ho & Hr & Hn).
    + intros st (Hi & Hp & Hf).
      destruct (Hs st Hi) as (st' & He & Hi').
      exists st'. split; [exact He|]. intro Ho.
      destruct (@SnitchLoopFacts.snitch_examine_more get query page_limit st st' He) as (Hp' & Hf' & _).
      rewrite Z.gtb_ltb in Ho. apply Z.ltb_ge in Ho.
      unfold Inv, distance. split; [split; [exact Hi'|]|];
        unfold Snitch.advance in *; cbn [Snitch.page Snitch.fetched] in *;
        rewrite ?Hf', ?length_app, ?Hp' in *; cbn [length]; lia.
    + unfold Inv. cbn. repeat split; try assumption; lia.
    + unfold distance. cbn. lia.
    + destruct (@SnitchLoopFacts.snitch_examine_more get query page_limit last st' He) as (Hp' & Hf' & Ha).
      exists (Snitch.advance st'). split.
      * unfold Snitch.scrape_query, Snitch.scrape_loop.
        apply (LoopFacts.runs_while_true Hr). lia.
      * unfold Snitch.advance in *.
        cbn [Snitch.page Snitch.fetched Snitch.all_products] in *.
        rewrite Z.gtb_ltb in Ho. apply Z.ltb_lt in Ho.
        rewrite Hf', length_app. cbn [length]. rewrite Hp' in *.
        repeat split; try assumption; lia.
  - intros fuel Hfuel.
    pose (Inv := fun st => TInv st /\ (0 <= Tasva.offset st <= 100000)%Z).
    pose (distance := fun st => Z.to_nat (100000 - Tasva.offset st)).
    destruct (@LoopFacts.runs_to_limit _
                (Tasva.examine self post gh repr query limit)
                (Tasva.advance limit)
                (fun st => (Tasva.offset st >? 100000)%Z)
                Inv distance) with (d := Z.to_nat 100000) (st := Tasva.initial)
      as (last & st' & n & (Hi & Hp) & He & Ho & Hr & Hn).
    + intros st (Hi & Hp).
      destruct (Ht st Hi) as (st' & He & Hi').
      exists st'. split; [exact He|]. intro Ho.
      destruct (@TasvaLoopFacts.tasva_examine_more self post gh repr query limit st st' He) as (Hp' & _).
      rewrite Z.gtb_ltb in Ho. apply Z.ltb_ge in Ho.
      unfold Inv, distance. split; [split; [exact Hi'|]|];
        unfold Tasva.advance in *; cbn [Tasva.offset] in *;
        rewrite ?Hp' in *; lia.
    + unfold Inv. cbn. repeat split; try assumption; lia.
    + unfold distance. cbn. lia.
    + destruct (@TasvaLoopFacts.tasva_examine_more self post gh repr query limit last st' He)
        as (Hp' & _ & Ha).
      exists (Tasva.advance limit st'). split.
      * unfold Tasva.scrape_query, Tasva.scrape_loop.
        apply (LoopFacts.runs_while_true Hr). lia.
      * unfold Tasva.advance in *.
        cbn [Tasva.offset Tasva.all_products] in *.
        rewrite Z.gtb_ltb in Ho. apply Z.ltb_lt in Ho.
        rewrite Hp' in *. repeat split; try assumption; lia.
Qed.

(** Two services that never run out, asked for pages of one. *)
Lemma safety_limit_stops_loop_witness :
  (exists st,
      Snitch.scrape_query endless_get (lit "shirt") 1
      = Some (Ok (SafetyLimit, st))
      /\ Snitch.page st = 1001%Z
      /\ length (Snitch.fetched st) = 1000%nat
      /\ Snitch.all_products st <> [])
  /\ (forall fuel, (100001 < Z.of_nat fuel)%Z ->
      exists st,
        Tasva.scrape_query (Tasva.Scraper [] [] []) endless_post (fun _ => [])
                           (fun _ => []) (lit "shirt") 1 fuel
        = Some (Ok (SafetyLimit, st))
        /\ (100000 < Tasva.offset st <= 100000 + 1)%Z
        /\ Tasva.all_products st <> []).
Proof.
  apply (@safety_limit_stops_loop endless_get (lit "shirt") 1 (fun _ => True)
           (Tasva.Scraper [] [] []) endless_post (fun _ => []) (fun _ => []) 1
           (fun st => Tasva.total_count st = JNull)).
  - exact I.
  - intros st _. eexists. split; [reflexivity | exact I].
  - lia.
  - reflexivity.
  - intros [offset all tc fetched] H. simpl in H. subst tc.
    eexists. split; [vm_compute; reflexivity | reflexivity].
Defined.

(** C8.  When the search request is answered with status 400 and the
    error payload msg ["INVALID_REQUEST"], exactly one retry is posted,
    the same request with the hash removed and validateHash false,
    whether the search then returns or raises; when the retry fails too
    (transport error, error status or undecodable body) the search
    returns the empty response, as after a transport error, and nothing
    more is posted.  A retry that is answered gives the search the
    response of the retry. *)
Theorem invalid_request_retried_once :
  forall (self : Tasva.scraper) (session_post : dict -> http_result)
         (_generate_hash : dict -> str) (query : str) (offset limit : Z)
         (first : http_response) (error_data : json),
    limit <> 0%Z ->
    session_post (Tasva.signed_payload self _generate_hash query offset limit)
    = Replied first ->
    status_code first = 400%Z ->
    body first = Some error_data ->
    Tasva.is_invalid_request error_data = true ->
    let payload := Tasva.signed_payload self _generate_hash query offset limit in
    let retry := Tasva.payload_no_hash payload in
    (exists data,
        Tasva.exchange self session_post _generate_hash query offset limit
        = Ok (data, [payload; retry])
        /\ Tasva.search self session_post _generate_hash query offset limit
           = bind (Tasva.response_summary data)
                  (fun _ => Ok (data, [payload; retry]))
        /\ (failed (session_post retry) = true ->
            data = JDict []
            /\ Tasva.search self session_post _generate_hash query offset limit
               = Ok (JDict [], [payload; retry]))
        /\ (forall (second : http_response) (answer : json),
              session_post retry = Replied second ->
              is_http_error second = false ->
              body second = Some answer ->
              data = answer))
    /\ dict_has retry (lit "hash") = false
    /\ dict_get retry (lit "validateHash") = Some (JBool false)
    /\ retry = Tasva.request_payload self query offset limit
               ++ [(lit "validateHash", JBool false)].
Proof.
  intros self post gh query offset limit first error_data Hl Hp Hs Hb He.
  cbv zeta. split.
  - pose proof (@SearchFacts.exchange_after_invalid_request
                  self post gh query offset limit first error_data
                  Hl Hp Hs Hb He) as E.
    cbv zeta in E. eexists. split; [exact E|]. split; [|split].
    + unfold Tasva.search. rewrite E. reflexivity.
    + intro F. unfold Tasva.search. rewrite E. unfold failed in F.
      destruct (post (Tasva.payload_no_hash _)) as [|r];
        [split; reflexivity|].
      destruct (is_http_error r); [split; reflexivity|].
      destruct (body r); [discriminate|split; reflexivity].
    + intros second answer Hr Hh Ha. now rewrite Hr, Hh, Ha.
  - split; [reflexivity|]. split; reflexivity.
Qed.

(** A service that rejects the retry as well. *)
Lemma invalid_request_retried_once_witness :
  let payload :=
    Tasva.signed_payload sample_scraper (fun _ => lit "0") (lit "kurta") 0 100 in
  let retry := Tasva.payload_no_hash payload in
  (exists data,
      Tasva.exchange sample_scraper rejecting (fun _ => lit "0")
                     (lit "kurta") 0 100
      = Ok (data, [payload; retry])
      /\ Tasva.search sample_scraper rejecting (fun _ => lit "0")
                      (lit "kurta") 0 100
         = bind (Tasva.response_summary data)
                (fun _ => Ok (data, [payload; retry]))
      /\ (failed (rejecting retry) = true ->
          data = JDict []
          /\ Tasva.search sample_scraper rejecting (fun _ => lit "0")
                          (lit "kurta") 0 100
             = Ok (JDict [], [payload; retry]))
      /\ (forall (second : http_response) (answer : json),
            rejecting retry = Replied second ->
            is_http_error second = false ->
            body second = Some answer ->
            data = answer))
  /\ dict_has retry (lit "hash") = false
  /\ dict_get retry (lit "validateHash") = Some (JBool false)
  /\ retry = Tasva.request_payload sample_scraper (lit "kurta") 0 100
             ++ [(lit "validateHash", JBool false)].
Proof.
  apply (@invalid_request_retried_once sample_scraper rejecting
           (fun _ => lit "0") (lit "kurta") 0 100
           (Response 400
              (Some (JDict [(lit "msg", JList [JStr (lit "INVALID_REQUEST")])])))
           (JDict [(lit "msg", JList [JStr (lit "INVALID_REQUEST")])]));
    try reflexivity.
  intro H. discriminate H.
Defined.

(** The transport error the claim compares with. *)
Lemma transport_error_gives_empty :
  forall (self : Tasva.scraper) (session_post : dict -> http_result)
         (_generate_hash : dict -> str) (query : str) (offset limit : Z),
    limit <> 0%Z ->
    session_post (Tasva.signed_payload self _generate_hash query offset limit)
    = TransportError ->
    Tasva.search self session_post _generate_hash query offset limit
    = Ok (JDict [],
          [Tasva.signed_payload self _generate_hash query offset limit]).
Proof.
  intros self post gh query offset limit Hl Hp.
  unfold Tasva.search, Tasva.exchange.
  apply Z.eqb_neq in Hl. now rewrite Hl, Hp.
Qed.

(** C9.  The identifier list "1078050-16668879, 1078050-16668881" gives
    exactly two URLs, in the order of the identifiers, each of the form
    https://imagescdn.tasva.com/img/app/product/1/<id>.jpg?w=1000&auto=format;
    and for every text the URL list is the image of its non-empty trimmed
    identifiers, in the same order and so of the same length. *)
Theorem image_urls_follow_identifiers :
  AddImageUrls.image_urls (lit "1078050-16668879, 1078050-16668881")
  = [lit "https://imagescdn.tasva.com/img/app/product/1/1078050-16668879.jpg?w=1000&auto=format";
     lit "https://imagescdn.tasva.com/img/app/product/1/1078050-16668881.jpg?w=1000&auto=format"]
  /\ forall images_str : str,
       AddImageUrls.image_urls images_str
       = List.map AddImageUrls.generate_image_url
                  (trimmed_identifiers images_str)
       /\ length (AddImageUrls.image_urls images_str)
          = length (trimmed_identifiers images_str).
Proof.
  split; [vm_compute; reflexivity|].
  intro s. unfold AddImageUrls.image_urls.
  rewrite ImageFacts.parse_images_identifiers. split; [reflexivity|].
  apply length_map.
Qed.

(** C10.  Every record the Tasva flattener produces holds the key
    'ProductID', with the value of the raw record, or the empty string
    when the raw record has none: the key the deduplication reads is
    there. *)
Theorem flattened_record_has_product_id :
  forall (repr : json -> str) (item product : dict),
    Tasva._extract_product_info repr item = Ok product ->
    dict_get product (lit "ProductID")
    = Some (dict_get_default item (lit "ProductID") (JStr []))
    /\ dict_has product (lit "ProductID") = true.
Proof.
  intros repr item product H.
  pose proof (@TasvaFlattenFacts.extract_info_product_id repr item product H)
    as G.
  change TasvaFlattenFacts.ProductID with (lit "ProductID") in G.
  change (Tasva.get item "ProductID" (Tasva.text ""))
    with (dict_get_default item (lit "ProductID") (JStr [])) in G.
  split; [exact G|]. unfold dict_has. now rewrite G.
Qed.

(** A raw record with a 'ProductID' and a name. *)
Lemma flattened_record_has_product_id_witness :
  dict_get
    (match Tasva._extract_product_info (fun _ => []) sample_item with
     | Ok product => product
     | Raise _ => []
     end) (lit "ProductID")
  = Some (dict_get_default sample_item (lit "ProductID") (JStr []))
  /\ dict_has
       (match Tasva._extract_product_info (fun _ => []) sample_item with
        | Ok product => product
        | Raise _ => []
        end) (lit "ProductID") = true.
Proof.
  apply (@flattened_record_has_product_id (fun _ => []) sample_item).
  vm_compute. reflexivity.
Defined.

Module DeepSearchFacts.
Import Snitch PyFacts JsonFacts.

(** The loop over the items of a list, and over the entries of a dict. *)
Fixpoint deep_each (depth : nat) (l : list json) (found : list dict)
  : list dict :=
  match l with
  | [] => found
  | item :: rest =>
      deep_each depth rest (_deep_search_for_products item (S depth) found)
  end.

Fixpoint deep_items (depth : nat) (entries : list (str * json))
  (found : list dict) : list dict :=
  match entries with
  | [] => found
  | (key, value) :: rest =>
      if str_in key deep_skip then deep_items depth rest found
      else deep_items depth rest
             (_deep_search_for_products value (S depth) found)
  end.

(** A dict the search records. *)
Definition candidate (d : dict) : bool :=
  any_key_in deep_indicators d
  && (negb (dict_has d (lit "children")) || negb (dict_has d (lit "className"))).

Lemma deep_search_list (l : list json) (depth : nat) (found : list dict) :
  _deep_search_for_products (JList l) depth found
  = if (15 <? depth)%nat then found else deep_each depth l found.
Proof.
  cbn [_deep_search_for_products].
  destruct (15 <? depth)%nat; [reflexivity|].
  revert found. induction l as [|x l IH]; intros found; [reflexivity|].
  cbn [deep_each]. rewrite <- IH. reflexivity.
Qed.

Lemma deep_items_fix (depth : nat) (d : list (str * json)) (f : list dict) :
  (fix items (entries : list (str * json)) (found : list dict) : list dict :=
     match entries with
     | [] => found
     | (key, value) :: rest =>
         if str_in key deep_skip then items rest found
         else items rest (_deep_search_for_products value (S depth) found)
     end) d f
  = deep_items depth d f.
Proof.
  revert f. induction d as [|[k v] d IH]; intros f; [reflexivity|].
  cbn [deep_items]. destruct (str_in k deep_skip); rewrite <- IH; reflexivity.
Qed.

Lemma deep_search_dict (d : dict) (depth : nat) (found : list dict) :
  _deep_search_for_products (JDict d) depth found
  = if (15 <? depth)%nat then found
    else deep_items depth d (if candidate d then found ++ [d] else found).
Proof.
  cbn [_deep_search_for_products].
  destruct (15 <? depth)%nat; [reflexivity|].
  apply deep_items_fix.
Qed.

Lemma deep_search_scalar (v : json) (depth : nat) (found : list dict) :
  is_scalar v = true -> _deep_search_for_products v depth found = found.
Proof.
  destruct v; try discriminate; intros _; cbn [_deep_search_for_products];
    destruct (15 <? depth)%nat; try destruct b; reflexivity.
Qed.

(** What the search appends does not depend on what was found before. *)
Definition appends (data : json) : Prop :=
  forall depth found,
    _deep_search_for_products data depth found
    = found ++ _deep_search_for_products data depth [].

Lemma deep_each_appends (l : list json) :
  Forall appends l ->
  forall depth found, deep_each depth l found = found ++ deep_each depth l [].
Proof.
  induction 1 as [|x l Hx _ IH]; intros depth found; cbn [deep_each].
  - now rewrite app_nil_r.
  - rewrite IH, (IH depth (_deep_search_for_products x (S depth) [])).
    rewrite (Hx (S depth) found), app_assoc. reflexivity.
Qed.

Lemma deep_items_appends (d : list (str * json)) :
  Forall (fun kv => appends (snd kv)) d ->
  forall depth found, deep_items depth d found = found ++ deep_items depth d [].
Proof.
  induction 1 as [|[k v] d Hx _ IH]; intros depth found; cbn [deep_items].
  - now rewrite app_nil_r.
  - destruct (str_in k deep_skip); [apply IH|]. cbn [snd] in Hx.
    rewrite IH, (IH depth (_deep_search_for_products v (S depth) [])).
    rewrite (Hx (S depth) found), app_assoc. reflexivity.
Qed.

Lemma deep_search_appends (data : json) : appends data.
Proof.
  induction data using json_induction; unfold appends; intros depth found;
    try (rewrite !deep_search_scalar by reflexivity; now rewrite app_nil_r).
  - rewrite !deep_search_list. destruct (15 <? depth)%nat.
    + now rewrite app_nil_r.
    + now apply deep_each_appends.
  - rewrite !deep_search_dict. destruct (15 <? depth)%nat.
    + now rewrite app_nil_r.
    + destruct (candidate d); cbn [app]; [|now apply deep_items_appends].
      match goal with
      | |- deep_items _ _ ?a = _ ++ deep_items _ _ ?b =>
          rewrite (deep_items_appends H depth a),
            (deep_items_appends H depth b)
      end.
      now rewrite app_assoc.
Qed.

(** Every dict the search appends is a candidate. *)
Definition sound (data : json) : Prop :=
  forall depth, forallb candidate (_deep_search_for_products data depth []) = true.

Lemma deep_each_sound (l : list json) :
  Forall sound l -> forall depth, forallb candidate (deep_each depth l []) = true.
Proof.
  induction 1 as [|x l Hx Hl IH]; intros depth; cbn [deep_each]; [reflexivity|].
  rewrite deep_each_appends, forallb_app, Hx, IH; [reflexivity|].
  clear - Hl. induction Hl; constructor; auto using deep_search_appends.
Qed.

Lemma all_appends (l : list json) : Forall appends l.
Proof. induction l; constructor; auto using deep_search_appends. Qed.

Lemma all_entries_append (d : list (str * json)) :
  Forall (fun kv => appends (snd kv)) d.
Proof. induction d; constructor; auto using deep_search_appends. Qed.

Lemma deep_items_sound (d : list (str * json)) :
  Forall (fun kv => sound (snd kv)) d ->
  forall depth, forallb candidate (deep_items depth d []) = true.
Proof.
  induction 1 as [|[k v] d Hx Hl IH]; intros depth; cbn [deep_items];
    [reflexivity|].
  destruct (str_in k deep_skip); [apply IH|]. cbn [snd] in Hx.
  rewrite deep_items_appends by apply all_entries_append.
  rewrite forallb_app, (Hx (S depth)), IH. reflexivity.
Qed.

Lemma deep_search_sound (data : json) : sound data.
Proof.
  induction data using json_induction; unfold sound; intros depth;
    try (rewrite deep_search_scalar by reflexivity; reflexivity).
  - rewrite deep_search_list. destruct (15 <? depth)%nat; [reflexivity|].
    now apply deep_each_sound.
  - rewrite deep_search_dict. destruct (15 <? depth)%nat; [reflexivity|].
    rewrite deep_items_appends by apply all_entries_append.
    rewrite forallb_app, deep_items_sound by assumption.
    destruct (candidate d) eqn:E; cbn; rewrite ?E; reflexivity.
Qed.

End DeepSearchFacts.

Module FindFacts.
Import Snitch PyFacts JsonFacts.

(** The loop over the entries of a dict. *)
Fixpoint find_items (depth : nat) (entries : list (str * json)) : list json :=
  match entries with
  | [] => []
  | (key, value) :: rest =>
      if str_in key skip_keys then find_items depth rest
      else
        match product_list value with
        | Some l => l
        | None =>
            match _find_products_recursive value (S depth) with
            | [] => find_items depth rest
            | item :: result => item :: result
            end
        end
  end.

Lemma find_items_fix (depth : nat) (d : list (str * json)) :
  (fix items (entries : list (str * json)) : list json :=
     match entries with
     | [] => []
     | (key, value) :: rest =>
         if str_in key skip_keys then items rest
         else
           match product_list value with
           | Some l => l
           | None =>
               match _find_products_recursive value (S depth) with
               | [] => items rest
               | item :: result => item :: result
               end
           end
     end) d
  = find_items depth d.
Proof.
  induction d as [|[k v] d IH]; [reflexivity|].
  cbn [find_items]. rewrite <- IH. reflexivity.
Qed.

Lemma find_dict (d : dict) (depth : nat) :
  _find_products_recursive (JDict d) depth
  = if (10 <? depth)%nat then [] else find_items depth d.
Proof.
  cbn [_find_products_recursive].
  destruct (10 <? depth)%nat; [reflexivity|]. apply find_items_fix.
Qed.

Lemma find_list (l : list json) (depth : nat) :
  _find_products_recursive (JList l) depth
  = if (10 <? depth)%nat then []
    else match product_list (JList l) with Some r => r | None => [] end.
Proof. reflexivity. Qed.

Lemma find_scalar (v : json) (depth : nat) :
  is_scalar v = true -> _find_products_recursive v depth = [].
Proof.
  destruct v; try discriminate; intros _; cbn [_find_products_recursive];
    destruct (10 <? depth)%nat; reflexivity.
Qed.

(** A list of products, as the search returns it: empty, or led by a
    dict with an indicator key. *)
Definition led_by_product (r : list json) : Prop :=
  r = [] \/ exists sample rest,
              r = JDict sample :: rest
              /\ any_key_in product_indicators sample = true.

Lemma product_list_led (v : json) (l : list json) :
  product_list v = Some l -> v = JList l /\ led_by_product l.
Proof.
  destruct v as [| | | |items|]; try discriminate.
  destruct items as [|[| | | | |sample] rest]; try discriminate.
  cbn [product_list].
  destruct (any_key_in product_indicators sample) eqn:E; [|discriminate].
  intros H; injection H as H; subst l. split; [reflexivity|].
  right. now exists sample, rest.
Qed.

Lemma find_items_led (d : list (str * json)) :
  Forall (fun kv => forall depth,
            led_by_product (_find_products_recursive (snd kv) depth)) d ->
  forall depth, led_by_product (find_items depth d).
Proof.
  induction 1 as [|[k v] d Hv _ IH]; intros depth; cbn [find_items].
  - now left.
  - destruct (str_in k skip_keys); [apply IH|].
    destruct (product_list v) as [l|] eqn:E.
    + now apply product_list_led in E.
    + cbn [snd] in Hv. specialize (Hv (S depth)).
      destruct (_find_products_recursive v (S depth)); [apply IH|exact Hv].
Qed.

Lemma find_led (data : json) :
  forall depth, led_by_product (_find_products_recursive data depth).
Proof.
  induction data using json_induction; intros depth;
    try (rewrite find_scalar by reflexivity; now left).
  - rewrite find_list. destruct (10 <? depth)%nat; [now left|].
    destruct (product_list (JList l)) as [r|] eqn:E; [|now left].
    now apply product_list_led in E.
  - rewrite find_dict. destruct (10 <? depth)%nat; [now left|].
    now apply find_items_led.
Qed.

Lemma find_too_deep (data : json) (depth : nat) :
  (10 < depth)%nat -> _find_products_recursive data depth = [].
Proof.
  intros H. apply Nat.ltb_lt in H.
  destruct data; cbn [_find_products_recursive]; rewrite H; reflexivity.
Qed.

End FindFacts.

Module RecordFacts.
Import Snitch PyFacts FlattenFacts JsonFacts.

(** A record as the flattener makes it: every value a scalar. *)
Definition flat (p : dict) : Prop :=
  forall (k : str) (v : json), dict_get p k = Some v -> is_scalar v = true.

Lemma flatten_flat (item : dict) : flat (_extract_product_info item).
Proof.
  apply (@flatten_scalar item []). intros k v H. discriminate.
Qed.

Definition kept (p : dict) : Prop := nonempty p = true /\ flat p.

Lemma extract_each_kept (items : list json) :
  forall products out,
    Forall kept products ->
    extract_each items products = Ok out -> Forall kept out.
Proof.
  induction items as [|item items IH]; intros products out Hp; cbn [extract_each].
  - intros H; injection H as <-. exact Hp.
  - destruct item; cbn [extract_item bind]; try discriminate.
    apply IH.
    destruct (nonempty (_extract_product_info entries)) eqn:E; [|exact Hp].
    apply Forall_app. split; [exact Hp|].
    constructor; [|constructor]. split; [exact E|apply flatten_flat].
Qed.

Lemma extract_each_list_kept (entries : list (str * json)) :
  forall products out,
    Forall kept products ->
    extract_each_list entries products = Ok out -> Forall kept out.
Proof.
  induction entries as [|[k v] entries IH]; intros products out Hp;
    cbn [extract_each_list].
  - intros H; injection H as <-. exact Hp.
  - destruct v; try (apply IH; exact Hp).
    destruct (extract_each items products) as [ps|e] eqn:E; cbn [bind];
      [|discriminate].
    apply IH. eapply extract_each_kept; eassumption.
Qed.

Lemma deep_products_kept (objects : list dict) :
  Forall kept (deep_products objects).
Proof.
  unfold deep_products. apply Forall_forall. intros p Hp.
  apply filter_In in Hp. destruct Hp as [Hin Hp].
  apply andb_true_iff in Hp. destruct Hp as [Hn _].
  apply in_map_iff in Hin. destruct Hin as [o [<- _]].
  split; [exact Hn|apply flatten_flat].
Qed.

Lemma extract_products_kept (find : json -> list json)
  (deep : json -> list dict) (data : json) (products : list dict) :
  extract_products_with find deep data = Ok products -> Forall kept products.
Proof.
  unfold extract_products_with.
  match goal with |- bind ?m _ = _ -> _ => destruct m as [ps|e] eqn:E end;
    cbn [bind]; [|discriminate].
  assert (Hps : Forall kept ps).
  { destruct data; try (injection E as <-; constructor).
    destruct (products_data find entries);
      try (injection E as <-; constructor).
    - eapply extract_each_kept; [|exact E]. constructor.
    - eapply extract_each_list_kept; [|exact E]. constructor. }
  destruct ps as [|p ps]; intros H; injection H as <-.
  - apply deep_products_kept.
  - exact Hps.
Qed.

(** Keys stay distinct under assignment. *)
Lemma keys_set (d : dict) (k : str) (v : json) :
  keys (dict_set d k v) = if dict_has d k then keys d else keys d ++ [k].
Proof.
  unfold keys, dict_has.
  induction d as [|[k' v'] d IH]; [reflexivity|].
  cbn [dict_set dict_get].
  destruct (str_eqb k' k) eqn:E; [reflexivity|].
  cbn [List.map fst]. rewrite IH.
  destruct (dict_get d k); reflexivity.
Qed.

Lemma distinct_snoc (ks : list str) (k : str) :
  distinct ks = true -> str_in k ks = false -> distinct (ks ++ [k]) = true.
Proof.
  induction ks as [|x ks IH]; intros Hd Hk; [reflexivity|].
  cbn [distinct app] in *. apply andb_true_iff in Hd. destruct Hd as [Hx Hd].
  cbn [str_in existsb] in Hk. apply orb_false_iff in Hk. destruct Hk as [Hkx Hk].
  rewrite IH by assumption. rewrite andb_true_r.
  apply negb_true_iff. apply negb_true_iff in Hx.
  unfold str_in in *. rewrite existsb_app, Hx. cbn [existsb].
  rewrite str_eqb_sym, Hkx. reflexivity.
Qed.

Lemma dict_has_str_in (d : dict) (k : str) : dict_has d k = str_in k (keys d).
Proof.
  unfold dict_has, str_in, keys.
  induction d as [|[k' v'] d IH]; [reflexivity|].
  cbn [dict_get List.map fst existsb]. rewrite (str_eqb_sym k k').
  destruct (str_eqb k' k); [reflexivity|exact IH].
Qed.

Lemma set_distinct (d : dict) (k : str) (v : json) :
  distinct (keys d) = true -> distinct (keys (dict_set d k v)) = true.
Proof.
  intros H. rewrite keys_set. destruct (dict_has d k) eqn:E; [exact H|].
  apply distinct_snoc; [exact H|]. now rewrite <- dict_has_str_in.
Qed.

Lemma flatten_distinct (item product : dict) :
  distinct (keys product) = true ->
  distinct (keys (fold_left flatten_step item product)) = true.
Proof.
  revert product. induction item as [|kv item IH]; intros product H; [exact H|].
  cbn [fold_left]. apply IH. now apply set_distinct.
Qed.

Lemma set_all_scalar (d : dict) (k : str) (v : json) :
  forallb (fun kv => is_scalar (snd kv)) d = true -> is_scalar v = true ->
  forallb (fun kv => is_scalar (snd kv)) (dict_set d k v) = true.
Proof.
  intros Hd Hv. induction d as [|[k' v'] d IH]; cbn [dict_set forallb snd].
  - now rewrite Hv.
  - cbn [forallb snd] in Hd. apply andb_true_iff in Hd. destruct Hd as [H1 H2].
    destruct (str_eqb k' k); cbn [forallb snd].
    + now rewrite Hv, H2.
    + now rewrite H1, IH.
Qed.

Lemma flatten_all_scalar (item product : dict) :
  forallb (fun kv => is_scalar (snd kv)) product = true ->
  forallb (fun kv => is_scalar (snd kv)) (fold_left flatten_step item product)
  = true.
Proof.
  revert product. induction item as [|kv item IH]; intros product H; [exact H|].
  cbn [fold_left]. apply IH. apply set_all_scalar; [exact H|].
  apply flatten_value_scalar.
Qed.

Lemma flatten_value_id (v : json) : is_scalar v = true -> flatten_value v = v.
Proof. destruct v; try discriminate; reflexivity. Qed.

Lemma flatten_scalars (item product : dict) :
  forallb (fun kv => is_scalar (snd kv)) item = true ->
  fold_left flatten_step item product
  = fold_left (fun d kv => dict_set d (fst kv) (snd kv)) item product.
Proof.
  revert product. induction item as [|[k v] item IH]; intros product H;
    [reflexivity|].
  cbn [forallb snd] in H. apply andb_true_iff in H. destruct H as [Hv H].
  cbn [fold_left]. rewrite <- IH by exact H.
  unfold flatten_step at 2. cbn [fst snd]. now rewrite flatten_value_id.
Qed.

Lemma flatten_idempotent (item : dict) :
  _extract_product_info (_extract_product_info item)
  = _extract_product_info item.
Proof.
  change (_extract_product_info item) with (fold_left flatten_step item []).
  change (_extract_product_info (fold_left flatten_step item []))
    with (fold_left flatten_step (fold_left flatten_step item []) []).
  rewrite (@flatten_scalars (fold_left flatten_step item []) [])
    by (now apply flatten_all_scalar).
  apply (@dict_of_distinct_pairs (fold_left flatten_step item []) []).
  - now apply (@flatten_distinct item []).
  - reflexivity.
Qed.

End RecordFacts.

Module UniqueFacts.
Import PyFacts DedupFacts.

Section Generic.

Variable K : Type.
Variable eqb : K -> K -> bool.
Variable key : dict -> option K.
Hypothesis eqb_eq : forall a b, eqb a b = true <-> a = b.

(** Every key seen among [inner] is seen among [outer]. *)
Definition covered (inner outer : list dict) : Prop :=
  forall k, existsb (same_key eqb key k) inner = true ->
            existsb (same_key eqb key k) outer = true.

Lemma covered_snoc (inner outer : list dict) (p : dict) :
  covered inner outer -> covered (inner ++ [p]) (outer ++ [p]).
Proof.
  intros H k. rewrite !existsb_app. intros Hk.
  apply orb_true_iff in Hk. apply orb_true_iff.
  destruct Hk as [Hk|Hk]; [left; now apply H|right; exact Hk].
Qed.

Lemma covered_more (inner outer : list dict) (p : dict) :
  covered inner outer -> covered inner (outer ++ [p]).
Proof.
  intros H k Hk. rewrite existsb_app. apply orb_true_iff. left. now apply H.
Qed.

Lemma first_occurrences_again (products : list dict) :
  forall inner outer,
    covered inner outer ->
    first_occurrences_from eqb key inner
      (first_occurrences_from eqb key outer products)
    = first_occurrences_from eqb key outer products.
Proof.
  induction products as [|p rest IH]; intros inner outer H; [reflexivity|].
  cbn [first_occurrences_from].
  destruct (repeats eqb key outer p) eqn:E.
  - apply IH. now apply covered_more.
  - cbn [first_occurrences_from].
    assert (E' : repeats eqb key inner p = false).
    { unfold repeats in *. destruct (key p) as [k|]; [|reflexivity].
      destruct (existsb (same_key eqb key k) inner) eqn:Ei; [|reflexivity].
      apply H in Ei. congruence. }
    rewrite E'. f_equal. apply IH. now apply covered_snoc.
Qed.

Lemma first_occurrences_idempotent (products : list dict) :
  first_occurrences eqb key (first_occurrences eqb key products)
  = first_occurrences eqb key products.
Proof.
  apply first_occurrences_again. intros k Hk. exact Hk.
Qed.

Lemma first_occurrences_subset (products : list dict) :
  forall earlier p,
    In p (first_occurrences_from eqb key earlier products) -> In p products.
Proof.
  induction products as [|q rest IH]; intros earlier p; [intros []|].
  cbn [first_occurrences_from].
  destruct (repeats eqb key earlier q).
  - intros H. right. eapply IH, H.
  - intros [H|H]; [now left|right; eapply IH, H].
Qed.

Lemma first_occurrences_unique (products : list dict) :
  forall earlier,
    NoDup (identity_keys key (first_occurrences_from eqb key earlier products))
    /\ forall k,
         In k (identity_keys key
                 (first_occurrences_from eqb key earlier products)) ->
         existsb (same_key eqb key k) earlier = false.
Proof.
  induction products as [|p rest IH]; intros earlier.
  - split; [constructor|intros k []].
  - cbn [first_occurrences_from].
    destruct (IH (earlier ++ [p])) as [Hn Hk].
    assert (Hout : forall k,
               In k (identity_keys key
                       (first_occurrences_from eqb key (earlier ++ [p]) rest)) ->
               existsb (same_key eqb key k) earlier = false
               /\ same_key eqb key k p = false).
    { intros k Hin. apply Hk in Hin. rewrite existsb_app in Hin.
      apply orb_false_iff in Hin. destruct Hin as [H1 H2].
      cbn [existsb] in H2. rewrite orb_false_r in H2. now split. }
    destruct (repeats eqb key earlier p) eqn:E.
    + split; [exact Hn|]. intros k Hin. now apply Hout.
    + unfold identity_keys. cbn [flat_map].
      fold (identity_keys key
              (first_occurrences_from eqb key (earlier ++ [p]) rest)).
      unfold repeats in E. destruct (key p) as [k|] eqn:Ek; cbn [app].
      * split.
        -- constructor; [|exact Hn]. intros Hin. apply Hout in Hin.
           destruct Hin as [_ Hs]. unfold same_key in Hs. rewrite Ek in Hs.
           assert (eqb k k = true) by now apply eqb_eq. congruence.
        -- intros k' [<-|Hin]; [exact E|now apply Hout].
      * split; [exact Hn|]. intros k' Hin. now apply Hout.
Qed.

End Generic.

Lemma hashable_subset (inner outer : list dict) :
  (forall p, In p inner -> In p outer) ->
  hashable_ids outer = true -> hashable_ids inner = true.
Proof.
  unfold hashable_ids. intros Hsub Ho.
  apply forallb_forall. intros p Hp.
  exact (proj1 (forallb_forall _ _) Ho p (Hsub p Hp)).
Qed.

Lemma snitch_dedup (lower : str -> str) (repr : json -> str)
  (products : list dict) :
  Snitch.remove_duplicates_by_title lower repr products
  = first_occurrences str_eqb (title_key lower repr) products.
Proof.
  unfold Snitch.remove_duplicates_by_title, first_occurrences.
  rewrite (@snitch_loop lower repr products [] [] [])
    by apply tracks_nil.
  reflexivity.
Qed.

Lemma tasva_dedup (products : list dict) :
  Tasva.remove_duplicates_by_id products
  = if hashable_ids products
    then Ok (first_occurrences Tasva.key_eqb id_key products)
    else Raise TypeError.
Proof.
  unfold Tasva.remove_duplicates_by_id, first_occurrences.
  rewrite (@tasva_loop products [] [] []) by apply tracks_nil.
  reflexivity.
Qed.

Lemma tasva_dedup_ok (products unique : list dict) :
  Tasva.remove_duplicates_by_id products = Ok unique ->
  hashable_ids products = true
  /\ unique = first_occurrences Tasva.key_eqb id_key products.
Proof.
  rewrite tasva_dedup. destruct (hashable_ids products); [|discriminate].
  intros H; injection H as <-. now split.
Qed.

End UniqueFacts.

Module BoundFacts.

Section Bounded.

Variable state : Type.
Variable examine : state -> result (verdict state).
Variable advance : state -> state.
Variable over_limit : state -> bool.

(** What holds before each pass, a bound on the passes left, and what
    is to hold of the state the loop ends in. *)
Variable Inv : state -> Prop.
Variable distance : state -> nat.
Variable Post : reason * state -> Prop.

Hypothesis on_halt :
  forall st r st', Inv st -> examine st = Ok (Halt r st') -> Post (r, st').
Hypothesis on_limit :
  forall st st', Inv st -> examine st = Ok (More st') ->
    over_limit (advance st') = true -> Post (SafetyLimit, advance st').
Hypothesis on_more :
  forall st st', Inv st -> examine st = Ok (More st') ->
    over_limit (advance st') = false ->
    Inv (advance st') /\ (distance (advance st') < distance st)%nat.

Lemma while_true_ends (fuel : nat) :
  forall st, Inv st -> (distance st < fuel)%nat ->
    exists outcome,
      while_true examine advance over_limit fuel st = Some outcome
      /\ match outcome with
         | Ok out => Post out
         | Raise _ => True
         end.
Proof.
  induction fuel as [|fuel IH]; intros st Hi Hd; [lia|].
  cbn [while_true].
  destruct (examine st) as [[r st'|st']|e] eqn:E.
  - exists (Ok (r, st')). split; [reflexivity|]. eapply on_halt; eassumption.
  - destruct (over_limit (advance st')) eqn:L.
    + exists (Ok (SafetyLimit, advance st')). split; [reflexivity|].
      eapply on_limit; eassumption.
    + destruct (on_more Hi E L) as [Hi' Hd']. apply IH; [exact Hi'|lia].
  - exists (Raise e). now split.
Qed.

End Bounded.

Section Unbounded.

Variable state : Type.
Variable examine : state -> result (verdict state).
Variable advance : state -> state.
Variable over_limit : state -> bool.
Variable Inv : state -> Prop.

Hypothesis always_more :
  forall st, Inv st ->
    exists st', examine st = Ok (More st') /\ Inv (advance st').
Hypothesis below_limit : forall st, Inv st -> over_limit st = false.

Lemma while_true_goes_on (fuel : nat) :
  forall st, Inv st -> while_true examine advance over_limit fuel st = None.
Proof.
  induction fuel as [|fuel IH]; intros st Hi; [reflexivity|].
  cbn [while_true]. destruct (always_more Hi) as [st' [E Hi']].
  rewrite E, (below_limit Hi'). now apply IH.
Qed.

End Unbounded.

Lemma fetches_snoc (first step : Z) (n : nat) :
  fetches first step (S n)
  = fetches first step n ++ [(first + Z.of_nat n * step)%Z].
Proof.
  unfold fetches. rewrite seq_S, map_app. reflexivity.
Qed.

End BoundFacts.

Module SnitchRunFacts.
Import Snitch BoundFacts.

Section Run.

Variable session_get : dict -> http_result.
Variable query : str.
Variable limit : Z.

(** A pass keeps the page number, logs the page it fetched and adds the
    records of that page. *)
Lemma snitch_pass_logs (st : state) (v : verdict state) :
  Snitch.examine session_get query limit st = Ok v ->
  let st' := match v with Halt _ st' => st' | More st' => st' end in
  page st' = page st /\ fetched st' = fetched st ++ [page st]
  /\ all_products st'
     = all_products st ++ records_of_page session_get query limit (page st).
Proof.
  unfold Snitch.examine, records_of_page.
  destruct (Snitch.extract_products _) as [products|e]; cbn [bind];
    [|discriminate].
  destruct products as [|p ps].
  - intros H; injection H as <-. cbn. repeat split.
    now rewrite app_nil_r.
  - destruct (has_more_after _ _ _ _ _ _ _) as [[[has_more tc] tp]|e];
      cbn [bind]; [|discriminate].
    intros H; injection H as <-.
    destruct has_more; cbn; repeat split.
Qed.

Definition paged (st : state) : Prop :=
  (1 <= page st <= 1000)%Z
  /\ fetched st = fetches 1 1 (Z.to_nat (page st - 1))
  /\ all_products st
     = flat_map (records_of_page session_get query limit) (fetched st).

Definition ended (out : reason * state) : Prop :=
  exists n,
    (1 <= n <= 1000)%nat /\ fetched (snd out) = fetches 1 1 n
    /\ all_products (snd out)
       = flat_map (records_of_page session_get query limit) (fetches 1 1 n).

Lemma snitch_fetched_next (st st' : state) :
  paged st -> page st' = page st -> fetched st' = fetched st ++ [page st] ->
  all_products st'
  = all_products st ++ records_of_page session_get query limit (page st) ->
  fetched st' = fetches 1 1 (Z.to_nat (page st))
  /\ (1 <= Z.to_nat (page st) <= 1000)%nat
  /\ all_products st'
     = flat_map (records_of_page session_get query limit) (fetched st').
Proof.
  intros [Hp [Hf Ha]] Hp' Hf' Ha'. split; [|split; [lia|]].
  - rewrite Hf', Hf.
    replace (Z.to_nat (page st)) with (S (Z.to_nat (page st - 1))) by lia.
    rewrite fetches_snoc. f_equal. f_equal. lia.
  - rewrite Ha', Hf', Ha, flat_map_app. cbn [flat_map].
    now rewrite app_nil_r.
Qed.

Lemma snitch_loop_ends_from (fuel : nat) (st : state) :
  paged st -> (Z.to_nat (1000 - page st) < fuel)%nat ->
  exists outcome,
    Snitch.scrape_loop session_get query limit fuel st = Some outcome
    /\ match outcome with
       | Ok out => ended out
       | Raise _ => True
       end.
Proof.
  apply (@while_true_ends state
           (Snitch.examine session_get query limit) advance
           (fun st => (page st >? 1000)%Z) paged
           (fun st => Z.to_nat (1000 - page st)) ended).
  - intros s r s' Hi E. apply snitch_pass_logs in E. cbn in E.
    destruct E as [Hp [Hf Ha]].
    destruct (@snitch_fetched_next s s' Hi Hp Hf Ha) as [H1 [H2 H3]].
    exists (Z.to_nat (page s)). cbn [snd]. rewrite <- H1. now repeat split.
  - intros s s' Hi E _. apply snitch_pass_logs in E. cbn in E.
    destruct E as [Hp [Hf Ha]].
    destruct (@snitch_fetched_next s s' Hi Hp Hf Ha) as [H1 [H2 H3]].
    exists (Z.to_nat (page s)). cbn [snd advance fetched all_products].
    rewrite <- H1. now repeat split.
  - intros s s' Hi E L. apply snitch_pass_logs in E. cbn in E.
    destruct E as [Hp [Hf Ha]].
    destruct (@snitch_fetched_next s s' Hi Hp Hf Ha) as [H1 [H2 H3]].
    cbn [advance page] in L. rewrite Z.gtb_ltb in L. apply Z.ltb_ge in L.
    unfold paged. cbn [advance page fetched all_products].
    destruct Hi as [Hi _].
    split; [|lia]. split; [lia|]. split; [|exact H3].
    rewrite H1. f_equal. lia.
Qed.

(** A request that fails ends the query, with what was collected. *)
Lemma examine_failed (st : state) :
  failed (session_get [(lit "page", JInt (page st)); (lit "limit", JInt limit);
                       (lit "keyword", JStr query)]) = true ->
  Snitch.examine session_get query limit st
  = Ok (Halt NoProducts
          (State (page st) (all_products st) (total_count st) (total_pages st)
                 (fetched st ++ [page st]))).
Proof.
  intros H. unfold Snitch.examine, search.
  destruct (session_get _) as [|response]; [reflexivity|].
  cbn [failed] in H. destruct (is_http_error response); [reflexivity|].
  destruct (body response); [discriminate|reflexivity].
Qed.

End Run.

End SnitchRunFacts.

Module TasvaRunFacts.
Import Tasva BoundFacts.

Section Run.

Variable self : scraper.
Variable session_post : dict -> http_result.
Variable _generate_hash : dict -> str.
Variable repr : json -> str.
Variable query : str.
Variable limit : Z.

(** What is posted: the signed payload and, after an INVALID_REQUEST
    answer only, the retry. *)
Definition posts (payload : dict) (posted : list dict) : Prop :=
  posted = [payload]
  \/ (posted = [payload; payload_no_hash payload]
      /\ exists first error_data,
           session_post payload = Replied first
           /\ status_code first = 400%Z
           /\ body first = Some error_data
           /\ is_invalid_request error_data = true).

Lemma after_retry_posts (payload : dict) (first : http_response) :
  session_post payload = Replied first ->
  posts payload (snd (after_retry session_post payload first)).
Proof.
  intros E. unfold after_retry.
  destruct (status_code first =? 400)%Z eqn:S; [|now left].
  destruct (body first) as [error_data|] eqn:B; [|now left].
  destruct (is_invalid_request error_data) eqn:I; [|now left].
  apply Z.eqb_eq in S.
  assert (R : exists first error_data,
             session_post payload = Replied first
             /\ status_code first = 400%Z
             /\ body first = Some error_data
             /\ is_invalid_request error_data = true)
    by (exists first, error_data; now repeat split).
  destruct (session_post (payload_no_hash payload)); right; now split.
Qed.

Lemma exchange_posts (offset : Z) (data : json) (posted : list dict) :
  Tasva.exchange self session_post _generate_hash query offset limit
  = Ok (data, posted) ->
  posts (signed_payload self _generate_hash query offset limit) posted.
Proof.
  unfold Tasva.exchange. destruct (limit =? 0)%Z; [discriminate|].
  cbv zeta.
  destruct (session_post (signed_payload self _generate_hash query offset limit))
    as [|first] eqn:E.
  - intros H; injection H as _ <-. now left.
  - pose proof (after_retry_posts E) as P.
    destruct (after_retry session_post _ first) as [response p].
    cbn [snd] in P.
    destruct (is_http_error response);
      [intros H; injection H as _ <-; exact P|].
    destruct (body response); intros H; injection H as _ <-; exact P.
Qed.

(** The search returns what the exchange returns, or raises on the
    summary. *)
Lemma search_printed (offset : Z) (data : json) (posted : list dict) :
  Tasva.search self session_post _generate_hash query offset limit
  = Ok (data, posted) ->
  Tasva.exchange self session_post _generate_hash query offset limit
  = Ok (data, posted)
  /\ Tasva.response_summary data = Ok tt.
Proof.
  unfold Tasva.search.
  destruct (Tasva.exchange _ _ _ _ _ _) as [[d p]|e]; cbn [bind];
    [|discriminate].
  destruct (Tasva.response_summary d) as [[]|e] eqn:E; cbn [bind];
    [|discriminate].
  intros H; injection H as <- <-. now split.
Qed.

(** A pass keeps the offset, logs the offset it fetched and adds the
    records found there. *)
Lemma tasva_pass_logs (st : state) (v : verdict state) :
  Tasva.examine self session_post _generate_hash repr query limit st
  = Ok v ->
  let st' := match v with Halt _ st' => st' | More st' => st' end in
  offset st' = offset st /\ fetched st' = fetched st ++ [offset st]
  /\ all_products st'
     = all_products st
       ++ records_at_offset self session_post _generate_hash repr query limit
                            (offset st).
Proof.
  unfold Tasva.examine, records_at_offset.
  destruct (Tasva.search _ _ _ _ _ _) as [[data posted]|e]; cbn [bind];
    [|discriminate].
  destruct (extract_products repr data) as [products|e]; cbn [bind];
    [|discriminate].
  destruct products as [|p ps].
  - intros H; injection H as <-. cbn. repeat split.
    now rewrite app_nil_r.
  - destruct (has_more_after _ _ _ _ _) as [[has_more tc]|e];
      cbn [bind]; [|discriminate].
    intros H; injection H as <-.
    destruct has_more; cbn; repeat split.
Qed.

(** With a page size of 0 the first pass raises, before any request. *)
Lemma examine_zero (st : state) :
  limit = 0%Z ->
  Tasva.examine self session_post _generate_hash repr query limit st
  = Raise ZeroDivisionError.
Proof. intros ->. reflexivity. Qed.

Section Positive.

Hypothesis limit_pos : (1 <= limit)%Z.

Definition found_at : Z -> list dict :=
  records_at_offset self session_post _generate_hash repr query limit.

Definition paged (st : state) : Prop :=
  exists n : nat,
    offset st = (Z.of_nat n * limit)%Z /\ (offset st <= 100000)%Z
    /\ fetched st = fetches 0 limit n
    /\ all_products st = flat_map found_at (fetched st).

Definition ended (out : reason * state) : Prop :=
  exists n : nat,
    (1 <= n)%nat /\ ((Z.of_nat n - 1) * limit <= 100000)%Z
    /\ fetched (snd out) = fetches 0 limit n
    /\ all_products (snd out) = flat_map found_at (fetches 0 limit n).

Lemma tasva_fetched_next (st st' : state) :
  paged st -> offset st' = offset st ->
  fetched st' = fetched st ++ [offset st] ->
  all_products st' = all_products st ++ found_at (offset st) ->
  exists n : nat,
    (1 <= n)%nat /\ offset st = ((Z.of_nat n - 1) * limit)%Z
    /\ (offset st <= 100000)%Z
    /\ fetched st' = fetches 0 limit n
    /\ all_products st' = flat_map found_at (fetched st').
Proof.
  intros [n [Ho [Hl [Hf Ha]]]] Ho' Hf' Ha'. exists (S n).
  split; [lia|]. split; [lia|]. split; [exact Hl|]. split.
  - rewrite Hf', Hf, fetches_snoc. f_equal. f_equal. lia.
  - rewrite Ha', Hf', Ha, flat_map_app. cbn [flat_map].
    now rewrite app_nil_r.
Qed.

Lemma tasva_loop_ends_from (fuel : nat) (st : state) :
  paged st -> (Z.to_nat (100000 - offset st) < fuel)%nat ->
  exists outcome,
    Tasva.scrape_loop self session_post _generate_hash repr query limit
                      fuel st = Some outcome
    /\ match outcome with
       | Ok out => ended out
       | Raise _ => True
       end.
Proof.
  apply (@while_true_ends state
           (Tasva.examine self session_post _generate_hash repr query
                          limit)
           (advance limit) (fun st => (offset st >? 100000)%Z) paged
           (fun st => Z.to_nat (100000 - offset st)) ended).
  - intros s r s' Hi E. apply tasva_pass_logs in E. cbn in E.
    destruct E as [Hp [Hf Ha]].
    destruct (@tasva_fetched_next s s' Hi Hp Hf Ha)
      as [n [H1 [H2 [H3 [H4 H5]]]]].
    exists n. cbn [snd]. rewrite <- H4.
    split; [exact H1|]. split; [lia|]. split; [reflexivity|exact H5].
  - intros s s' Hi E _. apply tasva_pass_logs in E. cbn in E.
    destruct E as [Hp [Hf Ha]].
    destruct (@tasva_fetched_next s s' Hi Hp Hf Ha)
      as [n [H1 [H2 [H3 [H4 H5]]]]].
    exists n. cbn [snd advance fetched all_products]. rewrite <- H4.
    split; [exact H1|]. split; [lia|]. split; [reflexivity|exact H5].
  - intros s s' Hi E L. apply tasva_pass_logs in E. cbn in E.
    destruct E as [Hp [Hf Ha]].
    destruct (@tasva_fetched_next s s' Hi Hp Hf Ha)
      as [n [H1 [H2 [H3 [H4 H5]]]]].
    cbn [advance offset] in L. rewrite Z.gtb_ltb in L. apply Z.ltb_ge in L.
    split; [|cbn [advance offset]; lia].
    exists n. cbn [advance offset fetched all_products].
    split; [lia|]. split; [exact L|]. split; [exact H4|exact H5].
Qed.

End Positive.

(** A request that fails and is not retried ends the query with what was
    collected. *)
Lemma examine_failed_post (st : state) :
  limit <> 0%Z ->
  failed (session_post
            (signed_payload self _generate_hash query (offset st) limit))
  = true ->
  asks_retry (session_post
                (signed_payload self _generate_hash query (offset st) limit))
  = false ->
  Tasva.examine self session_post _generate_hash repr query limit st
  = Ok (Halt NoProducts
          (State (offset st) (all_products st) (total_count st)
                 (fetched st ++ [offset st]))).
Proof.
  intros Hl H Hs. unfold Tasva.examine, Tasva.search, Tasva.exchange.
  apply Z.eqb_neq in Hl. rewrite Hl. cbv zeta.
  destruct (session_post _) as [|response]; [reflexivity|].
  cbn [asks_retry failed] in Hs, H.
  assert (A : after_retry session_post
                (signed_payload self _generate_hash query (offset st) limit)
                response
              = (response,
                 [signed_payload self _generate_hash query (offset st) limit])).
  { unfold after_retry.
    destruct (status_code response =? 400)%Z; [|reflexivity].
    destruct (body response) as [error_data|]; [|reflexivity].
    cbn [andb] in Hs. now rewrite Hs. }
  rewrite A.
  destruct (is_http_error response); [reflexivity|].
  destruct (body response); [discriminate|reflexivity].
Qed.

End Run.

End TasvaRunFacts.

Module TasvaRecordFacts.
Import PyFacts Tasva TasvaFlattenFacts JsonFacts.

(** ** Keys that a step of the flattener does not assign *)

Definition none_of (names : list string) (key : str) : bool :=
  forallb (fun n => negb (str_eqb (lit n) key)) names.

Ltac split_names H :=
  cbn [none_of forallb] in H;
  repeat (apply andb_true_iff in H;
          let N := fresh "N" in
          destruct H as [N H]; apply negb_true_iff in N);
  clear H.

Ltac frame :=
  cbn [copy same List.map app];
  repeat (rewrite set_keeps by assumption).

Definition features_names : list string :=
  ["Brand"; "Fabric"; "Fit"; "Color_Feature"; "Craft"; "Collection";
   "Occasion"; "Length"; "Neck"; "SleeveLength"; "Type"; "Pockets";
   "Reversible"; "Closure"; "Subbrand"; "Features_JSON"]%string.

Definition discount_names : list string :=
  ["Discount_Type"; "Discount_Amount"; "Discount_StartDate";
   "Discount_EndDate"; "Discount_JSON"]%string.

Definition media_names : list string :=
  ["Images"; "Images_JSON"; "ImageURLs"; "ImageURLs_JSON"; "PrimaryImageURL";
   "Swatch"; "SwatchExtension"; "SwatchImageURL"]%string.

Definition sizes_names : list string := ["Sizes"; "Sizes_JSON"]%string.

Definition trailing_names : list string :=
  ["ColorAwayProducts_JSON"; "SimilarProducts"; "StoreIds"; "ProductViews";
   "OrdersCount"; "ProductURL"]%string.

Section Frames.

Variable repr : json -> str.
Variable key : str.

Lemma features_frame (item product : dict) :
  none_of features_names key = true ->
  dict_get (features_fields item product) key = dict_get product key.
Proof.
  intros H. split_names H. unfold features_fields.
  destruct (get item "Features" (JDict [])); frame; reflexivity.
Qed.

Lemma discount_frame (item product : dict) :
  none_of discount_names key = true ->
  dict_get (discount_fields item product) key = dict_get product key.
Proof.
  intros H. split_names H. unfold discount_fields.
  destruct (get item "Discount" (JDict [])); frame; reflexivity.
Qed.

Lemma media_frame (item product product' : dict) :
  none_of media_names key = true ->
  media_fields repr item product = Ok product' ->
  dict_get product' key = dict_get product key.
Proof.
  intros H. split_names H. unfold media_fields.
  destruct (get item "Media" (JDict [])) as [| | | | |media];
    try (intros [= <-]; frame; reflexivity).
  set (images := get media "Images" (JList [])).
  set (swatch := get media "Swatch" (text "")).
  assert (Hswatch : forall p p' : dict,
    (if truthy swatch
     then match swatch with
          | JStr s =>
              Ok (set (set (set p "Swatch" swatch) "SwatchExtension"
                         (get media "SwatchExtension" (text "")))
                    "SwatchImageURL"
                    (JStr (cdn_url (replace (lit ".jpeg") []
                                      (replace (lit ".jpg") [] s)))))
          | _ => Raise AttributeError
          end
     else Ok (set (set (set p "Swatch" swatch) "SwatchExtension"
                     (get media "SwatchExtension" (text "")))
                "SwatchImageURL" (text ""))) = Ok p' ->
    dict_get p' key = dict_get p key).
  { intros p p'. destruct (truthy swatch).
    - destruct swatch; try discriminate. intros [= <-]. frame. reflexivity.
    - intros [= <-]. frame. reflexivity. }
  destruct images as [| | | |l|].
  1-4,6: (cbn [bind]; intro E; apply Hswatch in E; rewrite E; frame;
          reflexivity).
  destruct (join_values (lit ", ") (names_of l)) as [joined|e];
    [|discriminate].
  cbn [bind]. intro E. apply Hswatch in E. rewrite E. frame. reflexivity.
Qed.

Lemma sizes_frame (item product product' : dict) :
  none_of sizes_names key = true ->
  sizes_fields item product = Ok product' ->
  dict_get product' key = dict_get product key.
Proof.
  intros H. split_names H. unfold sizes_fields.
  destruct (get item "Sizes" (JList [])) as [| | | |sizes|];
    try (intros [= <-]; frame; reflexivity).
  destruct (join_values (lit ", ") (names_of sizes)); [|discriminate].
  intros [= <-]. frame. reflexivity.
Qed.

Lemma trailing_frame (item product : dict) :
  none_of trailing_names key = true ->
  dict_get (trailing_fields repr item product) key = dict_get product key.
Proof.
  intros H. split_names H. unfold trailing_fields.
  match goal with |- context [truthy ?l] => destruct (truthy l) end;
    frame; reflexivity.
Qed.

End Frames.

(** The steps of the flattener, one after the other. *)
Lemma extract_info_steps (repr : json -> str) (item product : dict) :
  _extract_product_info repr item = Ok product ->
  exists p1 p2,
    media_fields repr item
      (discount_fields item (features_fields item (basic_fields item [])))
    = Ok p1
    /\ sizes_fields item p1 = Ok p2
    /\ product = trailing_fields repr item p2.
Proof.
  unfold _extract_product_info. intro H.
  destruct (media_fields repr item _) as [p1|] eqn:Hm; [|discriminate].
  cbn [bind] in H.
  destruct (sizes_fields item p1) as [p2|] eqn:Hs; [|discriminate].
  cbn [bind] in H. injection H as <-. now exists p1, p2.
Qed.

(** A key of the basic fields or of the features goes through the later
    steps untouched. *)
Lemma kept_after_features (repr : json -> str) (key : str)
  (item product : dict) :
  none_of (discount_names ++ media_names ++ sizes_names ++ trailing_names) key
  = true ->
  _extract_product_info repr item = Ok product ->
  dict_get product key
  = dict_get (features_fields item (basic_fields item [])) key.
Proof.
  intros H E. apply extract_info_steps in E.
  destruct E as [p1 [p2 [Hm [Hs ->]]]].
  unfold none_of in H. rewrite !forallb_app in H.
  apply andb_true_iff in H. destruct H as [Hd H].
  apply andb_true_iff in H. destruct H as [Hme H].
  apply andb_true_iff in H. destruct H as [Hsi Ht].
  rewrite trailing_frame by exact Ht.
  rewrite (@sizes_frame key item p1 p2 Hsi Hs),
    (@media_frame repr key item _ p1 Hme Hm).
  now apply discount_frame.
Qed.

Ltac get_set :=
  cbn [copy same List.map app];
  repeat (rewrite set_keeps by reflexivity);
  unfold set; apply dict_get_set_same.

End TasvaRecordFacts.

Module TasvaTypedFacts.
Import PyFacts Tasva TasvaFlattenFacts TasvaRecordFacts JsonFacts.

Lemma get_found (d : dict) (k : string) (v default : json) :
  dict_get d (lit k) = Some v -> get d k default = v.
Proof. unfold get, dict_get_default. now intros ->. Qed.

(** ** Fields kept from the raw record *)

Lemma trailing_get (repr : json -> str) (item product : dict)
  (name : string) (default : json) :
  In (name, default)
     [("SimilarProducts", text ""); ("StoreIds", text "");
      ("ProductViews", JInt 0); ("OrdersCount", JInt 0)]%string ->
  dict_get (trailing_fields repr item product) (lit name)
  = Some (get item name default).
Proof.
  intros H. unfold trailing_fields.
  match goal with |- context [truthy ?l] => destruct (truthy l) end;
    cbn [In] in H;
    repeat (destruct H as [H|H]; [injection H as <- <-; get_set|]);
    destruct H.
Qed.

Lemma raw_fields_kept (repr : json -> str) (item product : dict) :
  _extract_product_info repr item = Ok product ->
  Forall (fun f => dict_get product (lit (fst f))
                   = Some (get item (fst f) (snd f))) raw_fields.
Proof.
  intros E.
  destruct (extract_info_steps _ _ E) as [p1 [p2 [_ [_ Hp]]]].
  unfold raw_fields. cbn [List.map app].
  repeat (apply Forall_cons;
          [cbn [fst snd];
           first
             [ rewrite (@kept_after_features repr _ item product)
                 by (reflexivity || exact E);
               rewrite features_frame by reflexivity;
               unfold basic_fields; get_set
             | rewrite Hp; apply trailing_get; cbn [In]; tauto ]
          |]).
  apply Forall_nil.
Qed.

(** ** The features, promoted and kept in full *)

Lemma features_promoted (repr : json -> str) (item features product : dict) :
  dict_get item (lit "Features") = Some (JDict features) ->
  _extract_product_info repr item = Ok product ->
  dict_get product (lit "Features_JSON")
  = Some (JStr (dumps (JDict features)))
  /\ Forall (fun f => dict_get product (lit (fst f))
                      = Some (get features (snd f) (text "")))
            promoted_features.
Proof.
  intros F E.
  assert (S : forall key,
             none_of (discount_names ++ media_names ++ sizes_names
                      ++ trailing_names) key = true ->
             dict_get product key
             = dict_get (features_fields item (basic_fields item [])) key)
    by (intros key N; now apply (@kept_after_features repr)).
  unfold features_fields in S. rewrite (get_found _ _ (JDict []) F) in S.
  split.
  - rewrite S by reflexivity. get_set.
  - unfold promoted_features.
    repeat (apply Forall_cons;
            [cbn [fst snd]; rewrite S by reflexivity; get_set|]).
    apply Forall_nil.
Qed.

(** ** The records the flattener accepts *)

Lemma as_strs_typed (l : list json) :
  match as_strs l with
  | Ok _ => forallb is_str l = true
  | Raise e => forallb is_str l = false /\ e = TypeError
  end.
Proof.
  induction l as [|v l IH]; [reflexivity|].
  destruct v; cbn [as_strs forallb is_str andb]; try (now split).
  destruct (as_strs l); [exact IH|exact IH].
Qed.

Lemma join_values_typed (sep : str) (l : list json) :
  match join_values sep l with
  | Ok _ => forallb is_str l = true
  | Raise e => forallb is_str l = false /\ e = TypeError
  end.
Proof.
  unfold join_values. pose proof (as_strs_typed l) as H.
  destruct (as_strs l); exact H.
Qed.

Definition media_typed (item : dict) : bool :=
  match get item "Media" (JDict []) with
  | JDict media =>
      str_names (get media "Images" (JList []))
      && (let swatch := get media "Swatch" (text "") in
          negb (truthy swatch) || is_str swatch)
  | _ => true
  end.

Lemma media_fields_typed (repr : json -> str) (item product : dict) :
  match media_fields repr item product with
  | Ok _ => media_typed item = true
  | Raise e => media_typed item = false /\ (e = TypeError \/ e = AttributeError)
  end.
Proof.
  unfold media_fields, media_typed.
  destruct (get item "Media" (JDict [])) as [| | | | |media]; try reflexivity.
  match goal with
  | |- match bind ?I ?S with _ => _ end => set (images := I); set (swatch := S)
  end.
  assert (HI : match images with
               | Ok _ => str_names (get media "Images" (JList [])) = true
               | Raise e => str_names (get media "Images" (JList [])) = false
                            /\ e = TypeError
               end).
  { subst images.
    destruct (get media "Images" (JList [])) as [| | | |l|]; try reflexivity.
    cbn [str_names].
    pose proof (join_values_typed (lit ", ") (names_of l)) as J.
    destruct (join_values (lit ", ") (names_of l)); exact J. }
  assert (HS : forall p,
             match swatch p with
             | Ok _ => negb (truthy (get media "Swatch" (text "")))
                       || is_str (get media "Swatch" (text "")) = true
             | Raise e => negb (truthy (get media "Swatch" (text "")))
                          || is_str (get media "Swatch" (text "")) = false
                          /\ e = AttributeError
             end).
  { intros p. subst swatch. cbv beta zeta.
    destruct (truthy (get media "Swatch" (text ""))); [|reflexivity].
    destruct (get media "Swatch" (text "")); cbn; auto. }
  cbv zeta.
  destruct images as [p|e]; cbn [bind].
  - rewrite HI. cbn [andb]. specialize (HS p).
    destruct (swatch p) as [p'|e]; [exact HS|].
    destruct HS as [HS ->]. split; [exact HS|now right].
  - destruct HI as [HI ->]. rewrite HI. split; [reflexivity|now left].
Qed.

Lemma sizes_fields_typed (item product : dict) :
  match sizes_fields item product with
  | Ok _ => str_names (get item "Sizes" (JList [])) = true
  | Raise e => str_names (get item "Sizes" (JList [])) = false /\ e = TypeError
  end.
Proof.
  unfold sizes_fields.
  destruct (get item "Sizes" (JList [])) as [| | | |sizes|]; try reflexivity.
  cbn [str_names].
  pose proof (join_values_typed (lit ", ") (names_of sizes)) as J.
  destruct (join_values (lit ", ") (names_of sizes)); exact J.
Qed.

Lemma well_typed_media_sizes (item : dict) :
  well_typed item
  = media_typed item && str_names (get item "Sizes" (JList [])).
Proof. reflexivity. Qed.

Lemma extract_info_typed (repr : json -> str) (item : dict) :
  match _extract_product_info repr item with
  | Ok _ => well_typed item = true
  | Raise e => well_typed item = false /\ (e = TypeError \/ e = AttributeError)
  end.
Proof.
  rewrite well_typed_media_sizes. unfold _extract_product_info.
  pose proof (media_fields_typed repr item
                (discount_fields item
                   (features_fields item (basic_fields item [])))) as M.
  destruct (media_fields repr item _) as [p1|e]; cbn [bind].
  - rewrite M. cbn [andb]. pose proof (sizes_fields_typed item p1) as S.
    destruct (sizes_fields item p1) as [p2|e]; cbn [bind]; [exact S|].
    destruct S as [S ->]. split; [exact S|now left].
  - destruct M as [M Me]. rewrite M. now split.
Qed.

(** ** One record for each dict among the hits *)

Lemma extract_item_nonempty (repr : json -> str) (v : json) (p : dict) :
  extract_item repr v = Ok p -> nonempty p = true.
Proof.
  destruct v; try discriminate. cbn [extract_item]. intros E.
  apply extract_info_product_id in E. destruct p; [discriminate|reflexivity].
Qed.

Lemma extract_hits_records (repr : json -> str) (hits : list json) :
  forall products out,
    extract_hits repr hits products = Ok out ->
    exists records,
      out = products ++ records
      /\ List.map Ok records
         = List.map (fun h => extract_item repr (source_of h))
                    (List.filter is_dict hits).
Proof.
  induction hits as [|hit hits IH]; intros products out; cbn [extract_hits].
  - intros H; injection H as <-. exists []. now rewrite app_nil_r.
  - destruct hit as [| | | | |d];
      try (cbn [List.filter is_dict]; apply IH).
    cbn [List.filter is_dict List.map].
    change (if has d "_source" then get d "_source" JNull else JDict d)
      with (source_of (JDict d)).
    destruct (extract_item repr (source_of (JDict d))) as [p|e] eqn:E;
      cbn [bind]; [|discriminate].
    rewrite (extract_item_nonempty _ _ E). intros H.
    apply IH in H. destruct H as [records [-> Hr]].
    exists (p :: records). split; [now rewrite <- app_assoc|].
    cbn [List.map]. now rewrite Hr.
Qed.

End TasvaTypedFacts.

Module StripFacts.
Import PyFacts ImageFacts AddImageUrls.

Lemma lstrip_split (s : str) :
  exists spaces, s = spaces ++ lstrip s /\ forallb isspace spaces = true.
Proof.
  induction s as [|c s [sp [Hs Hsp]]]; [now exists []|].
  cbn [lstrip]. destruct (isspace c) eqn:E.
  - exists (c :: sp). cbn [app forallb]. rewrite E, Hsp. split; [|reflexivity].
    now rewrite <- Hs.
  - now exists [].
Qed.

Lemma lstrip_keeps (c : N) (s : str) :
  isspace c = false -> lstrip (c :: s) = c :: s.
Proof. intros H. cbn [lstrip]. now rewrite H. Qed.

Lemma lstrip_idempotent (s : str) : lstrip (lstrip s) = lstrip s.
Proof.
  pose proof (lstrip_head s) as H. destruct (lstrip s); [reflexivity|].
  now apply lstrip_keeps.
Qed.

Lemma rstrip_split (s : str) :
  exists spaces, s = rstrip s ++ spaces /\ forallb isspace spaces = true.
Proof.
  unfold rstrip. destruct (lstrip_split (rev s)) as [sp [Hs Hsp]].
  exists (rev sp). split; [|now rewrite forallb_rev].
  rewrite <- rev_app_distr, <- Hs. now rewrite rev_involutive.
Qed.

Lemma rstrip_idempotent (s : str) : rstrip (rstrip s) = rstrip s.
Proof.
  unfold rstrip. now rewrite rev_involutive, lstrip_idempotent.
Qed.

(** Trimming the end leaves the head in place. *)
Lemma lstrip_rstrip (s : str) : lstrip s = s -> lstrip (rstrip s) = rstrip s.
Proof.
  intros H. destruct (rstrip_split s) as [sp [Hs Hsp]].
  destruct (rstrip s) as [|c r] eqn:E; [reflexivity|].
  pose proof (lstrip_head s) as Hh. rewrite H, Hs in Hh. cbn [app] in Hh.
  now apply lstrip_keeps.
Qed.

Lemma strip_idempotent (s : str) : strip (strip s) = strip s.
Proof.
  unfold strip.
  rewrite (@lstrip_rstrip (lstrip s)) by apply lstrip_idempotent.
  apply rstrip_idempotent.
Qed.

Lemma strip_space (s : str) : strip (32%N :: s) = strip s.
Proof. reflexivity. Qed.

(** The pieces of a split hold no separator. *)
Lemma split_on_pieces (sep : N) (s : str) :
  split_on sep s <> []
  /\ Forall (fun piece => existsb (N.eqb sep) piece = false) (split_on sep s).
Proof.
  induction s as [|c s [Hn IH]]; cbn [split_on].
  - split; [discriminate|]. repeat constructor.
  - destruct (N.eqb c sep) eqn:E.
    + split; [discriminate|]. constructor; [reflexivity|exact IH].
    + destruct (split_on sep s) as [|p ps]; [now destruct Hn|].
      split; [discriminate|]. inversion IH as [|? ? Hp Hps]; subst.
      constructor; [|exact Hps]. cbn [existsb].
      rewrite N.eqb_sym, E. exact Hp.
Qed.

Lemma split_on_app (sep : N) (piece rest : str) :
  existsb (N.eqb sep) piece = false ->
  split_on sep (piece ++ sep :: rest) = piece :: split_on sep rest.
Proof.
  induction piece as [|c piece IH]; intros H.
  - cbn [app split_on]. now rewrite N.eqb_refl.
  - cbn [existsb] in H. apply orb_false_iff in H. destruct H as [Hc H].
    cbn [app split_on]. rewrite N.eqb_sym, Hc, IH by exact H. reflexivity.
Qed.

Lemma split_on_whole (sep : N) (piece : str) :
  existsb (N.eqb sep) piece = false -> split_on sep piece = [piece].
Proof.
  induction piece as [|c piece IH]; intros H; [reflexivity|].
  cbn [existsb] in H. apply orb_false_iff in H. destruct H as [Hc H].
  cbn [split_on]. rewrite N.eqb_sym, Hc, IH by exact H. reflexivity.
Qed.

(** A sublist of a text without commas has none. *)
Lemma lstrip_no_sep (sep : N) (s : str) :
  existsb (N.eqb sep) s = false -> existsb (N.eqb sep) (lstrip s) = false.
Proof.
  induction s as [|c s IH]; intros H; [reflexivity|].
  cbn [lstrip]. destruct (isspace c); [|exact H].
  cbn [existsb] in H. apply orb_false_iff in H. now apply IH.
Qed.

Lemma existsb_rev {A} (f : A -> bool) (l : list A) :
  existsb f (rev l) = existsb f l.
Proof.
  induction l as [|x l IH]; [reflexivity|].
  cbn [rev existsb]. rewrite existsb_app, IH. cbn [existsb].
  rewrite orb_false_r. apply orb_comm.
Qed.

Lemma strip_no_sep (sep : N) (s : str) :
  existsb (N.eqb sep) s = false -> existsb (N.eqb sep) (strip s) = false.
Proof.
  intros H. unfold strip, rstrip. rewrite existsb_rev.
  apply lstrip_no_sep. rewrite existsb_rev. now apply lstrip_no_sep.
Qed.

(** ** The identifiers read back from a joined text *)

Lemma clean_parts (s : str) :
  clean_identifier s = true ->
  nonempty_str s = true /\ existsb (N.eqb 44) s = false /\ strip s = s.
Proof.
  unfold clean_identifier. intros H.
  apply andb_true_iff in H. destruct H as [H Hs].
  apply andb_true_iff in H. destruct H as [Hn Hc].
  apply negb_true_iff in Hc. apply str_eqb_eq in Hs. now repeat split.
Qed.

(** The pieces of the joined text after the first: each identifier after
    a space. *)
Lemma split_joined (id : str) (ids : list str) :
  forallb clean_identifier (id :: ids) = true ->
  split_on 44 (join (lit ", ") (id :: ids))
  = id :: List.map (cons 32%N) ids.
Proof.
  revert id. induction ids as [|id' ids IH]; intros id H.
  - cbn [forallb] in H. apply andb_true_iff in H. destruct H as [H _].
    apply clean_parts in H. destruct H as [_ [Hc _]].
    cbn [join List.map]. now apply split_on_whole.
  - cbn [forallb] in H. apply andb_true_iff in H. destruct H as [H H'].
    apply clean_parts in H. destruct H as [_ [Hc _]].
    change (join (lit ", ") (id :: id' :: ids))
      with (id ++ 44%N :: 32%N :: join (lit ", ") (id' :: ids)).
    rewrite split_on_app by exact Hc. f_equal.
    assert (H2 : forallb clean_identifier (id' :: ids) = true) by exact H'.
    specialize (IH id' H2).
    cbn [forallb] in H'. apply andb_true_iff in H'. destruct H' as [H' _].
    apply clean_parts in H'. destruct H' as [_ [Hc' _]].
    cbn [split_on]. change (32 =? 44)%N with false. cbv iota.
    rewrite IH. reflexivity.
Qed.

Lemma trimmed_clean (ids : list str) :
  forallb clean_identifier ids = true ->
  List.filter nonempty_str (List.map strip ids) = ids.
Proof.
  induction ids as [|id ids IH]; intros H; [reflexivity|].
  cbn [forallb] in H. apply andb_true_iff in H. destruct H as [H H'].
  apply clean_parts in H. destruct H as [Hn [_ Hs]].
  cbn [List.map List.filter]. rewrite Hs, Hn, IH by exact H'. reflexivity.
Qed.

Lemma parse_joined (ids : list str) :
  forallb clean_identifier ids = true ->
  parse_images (join (lit ", ") ids) = ids.
Proof.
  intros H. rewrite parse_images_identifiers. unfold trimmed_identifiers.
  destruct ids as [|id ids]; [reflexivity|].
  rewrite split_joined by exact H.
  cbn [List.map]. rewrite map_map.
  rewrite (map_ext (fun x => strip (32%N :: x)) strip) by apply strip_space.
  change (strip id :: List.map strip ids) with (List.map strip (id :: ids)).
  now apply trimmed_clean.
Qed.

Lemma parsed_clean (images_str : str) :
  forallb clean_identifier (parse_images images_str) = true.
Proof.
  rewrite parse_images_identifiers. unfold trimmed_identifiers.
  destruct (split_on_pieces 44 images_str) as [_ H].
  induction H as [|piece pieces Hp _ IH]; [reflexivity|].
  cbn [List.map List.filter].
  destruct (nonempty_str (strip piece)) eqn:E; [|exact IH].
  cbn [forallb]. rewrite IH, andb_true_r.
  unfold clean_identifier.
  rewrite E, strip_idempotent, str_eqb_refl, strip_no_sep by exact Hp.
  reflexivity.
Qed.

End StripFacts.

Module SortFacts.
Import PyFacts.

(** ** The order of str *)

Lemma str_ltb_irrefl (a : str) : str_ltb a a = false.
Proof.
  induction a as [|x a IH]; [reflexivity|].
  cbn [str_ltb]. now rewrite N.ltb_irrefl, N.eqb_refl, IH.
Qed.

Lemma str_ltb_trans (a b c : str) :
  str_ltb a b = true -> str_ltb b c = true -> str_ltb a c = true.
Proof.
  revert b c. induction a as [|x a IH]; intros [|y b] [|z c];
    cbn [str_ltb]; try discriminate; try reflexivity.
  intros H1 H2.
  apply orb_true_iff in H1. apply orb_true_iff in H2. apply orb_true_iff.
  destruct H1 as [H1|H1]; destruct H2 as [H2|H2].
  - apply N.ltb_lt in H1, H2. left. apply N.ltb_lt. lia.
  - apply andb_true_iff in H2. destruct H2 as [H2 _].
    apply N.eqb_eq in H2. subst. now left.
  - apply andb_true_iff in H1. destruct H1 as [H1 _].
    apply N.eqb_eq in H1. subst. now left.
  - apply andb_true_iff in H1. destruct H1 as [E1 H1].
    apply andb_true_iff in H2. destruct H2 as [E2 H2].
    apply N.eqb_eq in E1, E2. subst. right.
    rewrite N.eqb_refl. cbn [andb]. eapply IH; eassumption.
Qed.

Lemma str_ltb_total (a b : str) :
  str_ltb a b = false -> str_ltb b a = false -> a = b.
Proof.
  revert b. induction a as [|x a IH]; intros [|y b]; cbn [str_ltb];
    try discriminate; [reflexivity|].
  intros H1 H2.
  apply orb_false_iff in H1. destruct H1 as [L1 H1].
  apply orb_false_iff in H2. destruct H2 as [L2 H2].
  apply N.ltb_ge in L1, L2. assert (x = y) by lia. subst.
  rewrite N.eqb_refl in H1, H2. cbn [andb] in H1, H2.
  f_equal. now apply IH.
Qed.

Lemma str_ltb_neq (a b : str) : str_ltb a b = true -> str_eqb a b = false.
Proof.
  intros H. apply str_eqb_neq. intros ->. rewrite str_ltb_irrefl in H.
  discriminate.
Qed.

(** ** Ascending lists *)

Definition below (x : str) (l : list str) : Prop :=
  Forall (fun y => str_ltb x y = true) l.

Lemma ascending_cons (x : str) (l : list str) :
  ascending (x :: l) = true <-> below x l /\ ascending l = true.
Proof.
  revert x. induction l as [|y l IH]; intros x.
  - cbn. split; [intros _; split; [constructor|reflexivity]|reflexivity].
  - change (ascending (x :: y :: l))
      with (str_ltb x y && ascending (y :: l)).
    rewrite andb_true_iff. split.
    + intros [H1 H2]. split; [|exact H2]. constructor; [exact H1|].
      apply IH in H2. destruct H2 as [H2 _].
      unfold below in *. rewrite Forall_forall in *. intros z Hz.
      eapply str_ltb_trans; [exact H1|now apply H2].
    + intros [H1 H2]. split; [|exact H2]. now inversion H1.
Qed.

Lemma ascending_nodup (l : list str) : ascending l = true -> NoDup l.
Proof.
  induction l as [|x l IH]; intros H; [constructor|].
  apply ascending_cons in H. destruct H as [Hb Ha].
  constructor; [|now apply IH]. intros Hin.
  unfold below in Hb. rewrite Forall_forall in Hb. apply Hb in Hin.
  rewrite str_ltb_irrefl in Hin. discriminate.
Qed.

(** ** [sorted] *)

Lemma insert_sorted_in (x y : str) (l : list str) :
  In y (insert_sorted x l) <-> y = x \/ In y l.
Proof.
  induction l as [|z l IH]; cbn [insert_sorted].
  - cbn. intuition.
  - destruct (str_ltb z x); cbn [In]; [rewrite IH|]; intuition.
Qed.

Lemma insert_sorted_ascending (x : str) (l : list str) :
  ascending l = true -> ~ In x l -> ascending (insert_sorted x l) = true.
Proof.
  induction l as [|z l IH]; intros Ha Hx; [reflexivity|].
  cbn [insert_sorted]. destruct (str_ltb z x) eqn:E.
  - apply ascending_cons in Ha. destruct Ha as [Hb Ha].
    apply ascending_cons. split.
    + unfold below in *. rewrite Forall_forall in *. intros y Hy.
      apply insert_sorted_in in Hy. destruct Hy as [->|Hy]; [exact E|].
      now apply Hb.
    + apply IH; [exact Ha|]. intros H. apply Hx. now right.
  - assert (L : str_ltb x z = true).
    { destruct (str_ltb x z) eqn:L; [reflexivity|].
      exfalso. apply Hx. left. now apply str_ltb_total. }
    change (ascending (x :: z :: l)) with (str_ltb x z && ascending (z :: l)).
    now rewrite L, Ha.
Qed.

Lemma sorted_in (l : list str) (y : str) : In y (sorted l) <-> In y l.
Proof.
  induction l as [|x l IH]; [reflexivity|].
  cbn [sorted fold_right]. fold (sorted l).
  rewrite insert_sorted_in, IH. cbn [In]. intuition.
Qed.

Lemma sorted_ascending (l : list str) :
  NoDup l -> ascending (sorted l) = true.
Proof.
  induction 1 as [|x l Hx _ IH]; [reflexivity|].
  cbn [sorted fold_right]. fold (sorted l).
  apply insert_sorted_ascending; [exact IH|]. now rewrite sorted_in.
Qed.

Lemma insert_sorted_below (x : str) (l : list str) :
  below x l -> insert_sorted x l = x :: l.
Proof.
  intros H. destruct l as [|z l]; [reflexivity|].
  cbn [insert_sorted]. inversion H as [|? ? Hz _]; subst.
  destruct (str_ltb z x) eqn:E; [|reflexivity].
  pose proof (str_ltb_trans _ _ _ Hz E) as C.
  rewrite str_ltb_irrefl in C. discriminate.
Qed.

(** A list in ascending order is its own sort. *)
Lemma sorted_fixed (l : list str) : ascending l = true -> sorted l = l.
Proof.
  induction l as [|x l IH]; intros H; [reflexivity|].
  apply ascending_cons in H. destruct H as [Hb Ha].
  cbn [sorted fold_right]. fold (sorted l). rewrite IH by exact Ha.
  now apply insert_sorted_below.
Qed.

(** ** The elements of a set *)

Lemma set_of_step (l seen : list str) :
  NoDup seen ->
  let out := fold_left (fun seen k => if str_in k seen then seen
                                      else seen ++ [k]) l seen in
  NoDup out /\ forall k, In k out <-> In k seen \/ In k l.
Proof.
  revert seen. induction l as [|x l IH]; intros seen Hs; cbn [fold_left].
  - split; [exact Hs|]. cbn. intuition.
  - destruct (str_in x seen) eqn:E.
    + destruct (IH seen Hs) as [H1 H2]. split; [exact H1|].
      intros k. rewrite H2. cbn [In]. apply str_in_In in E.
      intuition; subst; auto.
    + assert (Hs' : NoDup (seen ++ [x])).
      { apply NoDup_app; [exact Hs|repeat constructor; intros []|].
        intros y Hy [<-|[]]. apply str_in_In in Hy. congruence. }
      destruct (IH _ Hs') as [H1 H2]. split; [exact H1|].
      intros k. rewrite H2, in_app_iff. cbn [In]. intuition.
Qed.

Lemma set_of_nodup (l : list str) : NoDup (set_of l).
Proof. apply (@set_of_step l []). constructor. Qed.

Lemma set_of_in (l : list str) (k : str) : In k (set_of l) <-> In k l.
Proof.
  destruct (@set_of_step l [] (NoDup_nil _)) as [_ H].
  unfold set_of. rewrite H. cbn. intuition.
Qed.

(** ** [list.remove] on an ascending list *)

Lemma list_remove_in (x y : str) (l : list str) :
  NoDup l -> (In y (list_remove x l) <-> In y l /\ y <> x).
Proof.
  induction 1 as [|z l Hz Hl IH]; cbn [list_remove].
  - cbn. intuition.
  - destruct (str_eqb z x) eqn:E.
    + apply str_eqb_eq in E. subst z. cbn [In]. split.
      * intros H. split; [now right|]. intros ->. contradiction.
      * intros [[H|H] Hn]; [congruence|exact H].
    + apply str_eqb_neq in E. cbn [In]. rewrite IH. intuition; subst; auto.
Qed.

Lemma list_remove_ascending (x : str) (l : list str) :
  ascending l = true -> ascending (list_remove x l) = true.
Proof.
  induction l as [|z l IH]; intros H; [reflexivity|].
  apply ascending_cons in H. destruct H as [Hb Ha].
  cbn [list_remove]. destruct (str_eqb z x); [exact Ha|].
  apply ascending_cons. split; [|now apply IH].
  unfold below in *. rewrite Forall_forall in *. intros y Hy.
  apply list_remove_in in Hy; [|now apply ascending_nodup].
  now apply Hb.
Qed.

End SortFacts.

Module CsvFacts.
Import PyFacts SortFacts Csv.

Lemma filter_all {A} (f : A -> bool) (l : list A) :
  (forall x, In x l -> f x = true) -> List.filter f l = l.
Proof.
  induction l as [|x l IH]; intros H; [reflexivity|].
  cbn [List.filter]. rewrite (H x) by now left.
  f_equal. apply IH. intros y Hy. apply H. now right.
Qed.

Lemma filter_ascending (f : str -> bool) (l : list str) :
  ascending l = true -> ascending (List.filter f l) = true.
Proof.
  induction l as [|x l IH]; intros H; [reflexivity|].
  apply ascending_cons in H. destruct H as [Hb Ha].
  cbn [List.filter]. destruct (f x); [|now apply IH].
  apply ascending_cons. split; [|now apply IH].
  unfold below in *. rewrite Forall_forall in *. intros y Hy.
  apply filter_In in Hy. now apply Hb.
Qed.

Lemma list_remove_filter (x : str) (l : list str) :
  NoDup l ->
  list_remove x l = List.filter (fun k => negb (str_eqb k x)) l.
Proof.
  induction 1 as [|z l Hz Hl IH]; [reflexivity|].
  cbn [list_remove List.filter]. destruct (str_eqb z x) eqn:E; cbn [negb].
  - apply str_eqb_eq in E. subst z. symmetry. apply filter_all.
    intros y Hy. apply negb_true_iff, str_eqb_neq. intros ->. contradiction.
  - now rewrite IH.
Qed.

Lemma list_remove_nodup (x : str) (l : list str) :
  NoDup l -> NoDup (list_remove x l).
Proof.
  intros H. rewrite list_remove_filter by exact H. now apply NoDup_filter.
Qed.

Lemma str_in_false (k : str) (l : list str) :
  str_in k l = false <-> ~ In k l.
Proof.
  rewrite <- str_in_In. destruct (str_in k l); split; congruence.
Qed.

(** ** The preferred fields first *)

(** With a preferred order that names no field twice, the loop takes
    the preferred fields that are there, in their order, and leaves the
    others in theirs. *)
Lemma prefer_distinct (preferred : list str) :
  PyJson.distinct preferred = true ->
  forall fieldnames ordered,
    NoDup fieldnames ->
    prefer preferred fieldnames ordered
    = (ordered ++ List.filter (fun f => str_in f fieldnames) preferred,
       List.filter (fun k => negb (str_in k preferred)) fieldnames).
Proof.
  induction preferred as [|field rest IH]; intros Hd fieldnames ordered Hn.
  - cbn [prefer List.filter]. rewrite app_nil_r. f_equal.
    symmetry. now apply filter_all.
  - cbn [PyJson.distinct] in Hd. apply andb_true_iff in Hd.
    destruct Hd as [Hf Hd]. apply negb_true_iff in Hf.
    cbn [prefer List.filter]. destruct (str_in field fieldnames) eqn:E.
    + rewrite IH by (try exact Hd; now apply list_remove_nodup).
      rewrite <- app_assoc. cbn [app]. f_equal.
      * f_equal. f_equal. apply filter_ext_in. intros f Hin.
        assert (Hne : f <> field).
        { intros ->. apply str_in_false in Hf. contradiction. }
        destruct (str_in f fieldnames) eqn:F.
        -- apply str_in_In. apply list_remove_in; [exact Hn|].
           split; [now apply str_in_In|exact Hne].
        -- apply str_in_false. intros H. apply list_remove_in in H;
             [|exact Hn]. destruct H as [H _]. apply str_in_In in H.
           congruence.
      * rewrite list_remove_filter by exact Hn.
        clear. induction fieldnames as [|k l IHl]; [reflexivity|].
        cbn [List.filter str_in existsb].
        destruct (str_eqb k field); cbn [negb orb List.filter];
          [exact IHl|].
        fold (str_in k rest). destruct (str_in k rest); cbn [negb];
          now rewrite IHl.
    + rewrite IH by assumption. f_equal.
      apply filter_ext_in. intros k Hin.
      cbn [str_in existsb]. fold (str_in k rest).
      assert (Hne : str_eqb k field = false).
      { apply str_eqb_neq. intros ->. apply str_in_false in E.
        apply E. exact Hin. }
      now rewrite Hne.
Qed.

(** Whatever the preferred order, no field is lost and none is named
    twice. *)
Lemma prefer_keeps (preferred : list str) :
  forall fieldnames ordered,
    NoDup fieldnames -> NoDup ordered ->
    (forall k, In k ordered -> ~ In k fieldnames) ->
    NoDup (fst (prefer preferred fieldnames ordered))
    /\ NoDup (snd (prefer preferred fieldnames ordered))
    /\ (forall k, In k (fst (prefer preferred fieldnames ordered)) ->
                  ~ In k (snd (prefer preferred fieldnames ordered)))
    /\ (forall k, In k (fst (prefer preferred fieldnames ordered))
                  \/ In k (snd (prefer preferred fieldnames ordered))
                  <-> In k ordered \/ In k fieldnames).
Proof.
  induction preferred as [|field rest IH]; intros fieldnames ordered Hf Ho Hd.
  - cbn [prefer fst snd]. repeat split; auto; tauto.
  - cbn [prefer]. destruct (str_in field fieldnames) eqn:E.
    + apply str_in_In in E.
      assert (Hf' : NoDup (list_remove field fieldnames))
        by now apply list_remove_nodup.
      assert (Ho' : NoDup (ordered ++ [field])).
      { apply NoDup_app; [exact Ho|repeat constructor; intros []|].
        intros y Hy [<-|[]]. now apply (Hd field). }
      assert (Hd' : forall k, In k (ordered ++ [field]) ->
                              ~ In k (list_remove field fieldnames)).
      { intros k Hk Hr. apply list_remove_in in Hr; [|exact Hf].
        destruct Hr as [Hr Hne]. apply in_app_iff in Hk.
        destruct Hk as [Hk|[Hk|[]]]; [now apply (Hd k)|congruence]. }
      destruct (IH _ _ Hf' Ho' Hd') as [H1 [H2 [H3 H4]]].
      repeat split; try assumption.
      * intros H. apply H4 in H. rewrite in_app_iff in H. cbn [In] in H.
        rewrite list_remove_in in H by exact Hf.
        destruct H as [[H|[H|[]]]|[H _]]; subst; auto.
      * intros H. apply H4. rewrite in_app_iff. cbn [In].
        rewrite list_remove_in by exact Hf.
        destruct H as [H|H]; [now left; left|].
        destruct (str_eqb k field) eqn:K.
        -- apply str_eqb_eq in K. subst. left. right. now left.
        -- apply str_eqb_neq in K. right. now split.
    + apply IH; assumption.
Qed.

Section Header.

Variable preferred_order : list str.

Lemma sorted_keys_ascending (products : list dict) :
  ascending (sorted_keys products) = true.
Proof. apply sorted_ascending, set_of_nodup. Qed.

Lemma sorted_keys_in (products : list dict) (k : str) :
  In k (sorted_keys products)
  <-> exists p, In p products /\ dict_has p k = true.
Proof.
  unfold sorted_keys. rewrite sorted_in, set_of_in, in_flat_map.
  split; intros [p [Hp Hk]]; exists p; (split; [exact Hp|]);
    now apply dict_has_In.
Qed.

Lemma header_complete (products : list dict) :
  NoDup (ordered_fieldnames preferred_order products)
  /\ forall k,
       In k (ordered_fieldnames preferred_order products)
       <-> exists p, In p products /\ dict_has p k = true.
Proof.
  unfold ordered_fieldnames.
  assert (Hn : NoDup (sorted_keys products))
    by apply ascending_nodup, sorted_keys_ascending.
  destruct (@prefer_keeps preferred_order (sorted_keys products) [] Hn
              (NoDup_nil _)) as [H1 [H2 [H3 H4]]]; [intros k []|].
  destruct (prefer preferred_order (sorted_keys products) [])
    as [ordered fieldnames]. cbn [fst snd] in *.
  split.
  - apply NoDup_app; [exact H1| |].
    + apply ascending_nodup, sorted_ascending, H2.
    + intros k Hk Hs. apply (proj1 (sorted_in _ _)) in Hs. exact (H3 k Hk Hs).
  - intros k. rewrite in_app_iff, sorted_in, H4, <- sorted_keys_in.
    cbn [In]. tauto.
Qed.

Lemma header_order (products : list dict) :
  PyJson.distinct preferred_order = true ->
  ordered_fieldnames preferred_order products
  = List.filter (fun f => str_in f (sorted_keys products)) preferred_order
    ++ List.filter (fun k => negb (str_in k preferred_order))
                   (sorted_keys products).
Proof.
  intros Hd. unfold ordered_fieldnames.
  rewrite prefer_distinct
    by (try exact Hd; apply ascending_nodup, sorted_keys_ascending).
  cbn [app]. f_equal. apply sorted_fixed, filter_ascending,
    sorted_keys_ascending.
Qed.

Lemma rows_aligned (products : list dict) :
  length (rows (write preferred_order products)) = length products
  /\ Forall (fun r => length r
                      = length (header (write preferred_order products)))
            (rows (write preferred_order products)).
Proof.
  unfold write. cbn [rows header]. split; [apply length_map|].
  apply Forall_forall. intros r Hr. apply in_map_iff in Hr.
  destruct Hr as [p [<- _]]. unfold row. apply length_map.
Qed.

End Header.

End CsvFacts.

Module AddUrlsFacts.
Import PyFacts ImageFacts JsonFacts StripFacts AddImageUrls.

(** ** The field names of the output *)

Lemma list_index_split (x : str) (l : list str) (i : nat) :
  list_index x l = Some i ->
  exists before after,
    l = before ++ x :: after /\ str_in x before = false
    /\ firstn (S i) l = before ++ [x] /\ skipn (S i) l = after.
Proof.
  revert i. induction l as [|y l IH]; intros i; [discriminate|].
  cbn [list_index]. destruct (str_eqb y x) eqn:E.
  - intros H; injection H as <-. apply str_eqb_eq in E. subst y.
    exists [], l. repeat split.
  - destruct (list_index x l) as [j|]; [|discriminate].
    intros H; injection H as <-.
    destruct (IH j eq_refl) as [before [after [H1 [H2 [H3 H4]]]]].
    exists (y :: before), after. repeat split.
    + cbn [app]. now rewrite <- H1.
    + cbn [str_in existsb]. rewrite str_eqb_sym, E. exact H2.
    + cbn [firstn app] in *. now rewrite H3.
    + exact H4.
Qed.

Lemma list_index_none (x : str) (l : list str) :
  list_index x l = None -> str_in x l = false.
Proof.
  induction l as [|y l IH]; [reflexivity|].
  cbn [list_index str_in existsb]. destruct (str_eqb y x) eqn:E;
    [discriminate|].
  destruct (list_index x l); [discriminate|].
  intros _. rewrite str_eqb_sym, E. now apply IH.
Qed.

(** ** Rows *)

Definition fresh (row : csv_row) (k : str) : Prop := row_get row k = None.

Lemma row_set_fresh (row : csv_row) (k : str) (v : option str) :
  fresh row k -> row_set row k v = row ++ [(k, v)].
Proof.
  unfold fresh. induction row as [|[k' v'] row IH]; [reflexivity|].
  cbn [row_get row_set]. destruct (str_eqb k' k); [discriminate|].
  intros H. cbn [app]. now rewrite IH.
Qed.

Lemma row_get_app (a b : csv_row) (k : str) :
  row_get (a ++ b) k
  = match row_get a k with Some v => Some v | None => row_get b k end.
Proof.
  induction a as [|[k' v'] a IH]; [reflexivity|].
  cbn [app row_get]. destruct (str_eqb k' k); [reflexivity|exact IH].
Qed.

Lemma fresh_snoc (row : csv_row) (k k' : str) (v : option str) :
  fresh row k -> str_eqb k' k = false -> fresh (row ++ [(k', v)]) k.
Proof.
  unfold fresh. intros H E. rewrite row_get_app, H. cbn [row_get].
  now rewrite E.
Qed.

(** The row of a line with a cell for each field, under a header that
    names no field twice. *)
Lemma read_row_combine (fieldnames : list str) :
  forall cells row,
    distinct fieldnames = true ->
    length cells = length fieldnames ->
    (forall k, In k fieldnames -> fresh row k) ->
    read_row fieldnames cells row
    = row ++ combine fieldnames (List.map Some cells).
Proof.
  induction fieldnames as [|key fieldnames IH]; intros cells row Hd Hl Hf.
  - destruct cells; [|discriminate]. cbn. now rewrite app_nil_r.
  - destruct cells as [|cell cells]; [discriminate|].
    cbn [distinct] in Hd. apply andb_true_iff in Hd. destruct Hd as [Hk Hd].
    apply negb_true_iff in Hk. cbn [length] in Hl. injection Hl as Hl.
    cbn [read_row]. rewrite row_set_fresh by (apply Hf; now left).
    rewrite IH; [now rewrite <- app_assoc|exact Hd|exact Hl|].
    intros k Hin. apply fresh_snoc; [apply Hf; now right|].
    apply str_eqb_neq. intros ->. apply str_in_In in Hin. congruence.
Qed.

Lemma row_get_combine (fieldnames : list str) (cells : list (option str))
  (k : str) :
  str_in k fieldnames = false -> row_get (combine fieldnames cells) k = None.
Proof.
  revert cells. induction fieldnames as [|key fieldnames IH]; intros cells H;
    [reflexivity|].
  destruct cells as [|c cells]; [reflexivity|].
  cbn [str_in existsb] in H. apply orb_false_iff in H. destruct H as [E H].
  cbn [combine row_get]. rewrite str_eqb_sym, E. now apply IH.
Qed.

Section Written.

Variable repr : json -> str.

Lemma written_app (a b : list str) (row : csv_row) :
  written (a ++ b) row = written a row ++ written b row.
Proof. apply map_app. Qed.

Lemma written_firstn (n : nat) (l : list str) (row : csv_row) :
  written (firstn n l) row = firstn n (written l row).
Proof. unfold written. now rewrite firstn_map. Qed.

Lemma written_skipn (n : nat) (l : list str) (row : csv_row) :
  written (skipn n l) row = skipn n (written l row).
Proof. unfold written. now rewrite skipn_map. Qed.

Lemma written_combine (fieldnames : list str) :
  forall cells extra,
    distinct fieldnames = true ->
    length cells = length fieldnames ->
    written fieldnames (combine fieldnames (List.map Some cells) ++ extra)
    = cells.
Proof.
  induction fieldnames as [|key fieldnames IH]; intros cells extra Hd Hl.
  - destruct cells; [reflexivity|discriminate].
  - destruct cells as [|cell cells]; [discriminate|].
    cbn [distinct] in Hd. apply andb_true_iff in Hd. destruct Hd as [Hk Hd].
    apply negb_true_iff in Hk. cbn [length] in Hl. injection Hl as Hl.
    unfold written. cbn [List.map combine app row_get].
    rewrite str_eqb_refl. f_equal.
    transitivity (written fieldnames
                    (combine fieldnames (List.map Some cells) ++ extra));
      [|now apply IH].
    unfold written. apply map_ext_in. intros k Hin.
    assert (E : str_eqb key k = false).
    { apply str_eqb_neq. intros ->. apply str_in_In in Hin. congruence. }
    now rewrite E.
Qed.

Lemma row_set_four (row : csv_row) (k1 k2 k3 k4 : str)
  (v1 v2 v3 v4 : option str) :
  fresh row k1 -> fresh row k2 -> fresh row k3 -> fresh row k4 ->
  str_eqb k1 k2 = false -> str_eqb k1 k3 = false -> str_eqb k1 k4 = false ->
  str_eqb k2 k3 = false -> str_eqb k2 k4 = false -> str_eqb k3 k4 = false ->
  row_set (row_set (row_set (row_set row k1 v1) k2 v2) k3 v3) k4 v4
  = row ++ [(k1, v1); (k2, v2); (k3, v3); (k4, v4)].
Proof.
  intros F1 F2 F3 F4 E12 E13 E14 E23 E24 E34.
  rewrite (@row_set_fresh row k1 v1 F1).
  rewrite (@row_set_fresh (row ++ [(k1, v1)]) k2 v2)
    by now apply fresh_snoc.
  rewrite (@row_set_fresh ((row ++ [(k1, v1)]) ++ [(k2, v2)]) k3 v3)
    by (apply fresh_snoc; [now apply fresh_snoc|exact E23]).
  rewrite (@row_set_fresh (((row ++ [(k1, v1)]) ++ [(k2, v2)]) ++ [(k3, v3)])
             k4 v4)
    by (apply fresh_snoc;
        [apply fresh_snoc; [now apply fresh_snoc|exact E24]|exact E34]).
  now rewrite <- !app_assoc.
Qed.

(** The four assignments add four fields to a row that has none of
    them, and change nothing else. *)
Lemma process_row_adds (row : csv_row) :
  Forall (fresh row) new_columns ->
  exists a b c d,
    process_row repr row
    = row ++ [(lit "ImageURLs", Some a); (lit "ImageURLs_JSON", Some b);
              (lit "PrimaryImageURL", Some c); (lit "SwatchImageURL", Some d)].
Proof.
  intros H. unfold new_columns in H. cbn [List.map] in H.
  inversion H as [|? ? F1 H1]; subst. inversion H1 as [|? ? F2 H2]; subst.
  inversion H2 as [|? ? F3 H3]; subst. inversion H3 as [|? ? F4 _]; subst.
  unfold process_row. cbv zeta.
  do 4 eexists. apply row_set_four; try assumption; reflexivity.
Qed.

Lemma process_line_cells (fieldnames cells : list str) :
  distinct fieldnames = true ->
  forallb (fun c => negb (str_in c fieldnames)) new_columns = true ->
  length cells = length fieldnames ->
  written fieldnames (process_row repr (read_row fieldnames cells [])) = cells.
Proof.
  intros Hd Hn Hl.
  rewrite read_row_combine by (try assumption; intros k _; reflexivity).
  cbn [app].
  destruct (@process_row_adds (combine fieldnames (List.map Some cells)))
    as [a [b [c [d E]]]].
  { apply Forall_forall. intros k Hk.
    apply row_get_combine.
    rewrite forallb_forall in Hn. apply Hn in Hk.
    now apply negb_true_iff in Hk. }
  rewrite E. now apply written_combine.
Qed.

End Written.

End AddUrlsFacts.

Module AsciiJsonFacts.
Import PyFacts JsonFacts.

(** ** The [\uXXXX] escapes *)

Lemma below_16 (n : N) :
  (n < 16)%N ->
  In n [0; 1; 2; 3; 4; 5; 6; 7; 8; 9; 10; 11; 12; 13; 14; 15]%N.
Proof.
  intro H.
  assert (Hin : In (N.to_nat n) (seq 0 16)) by (apply in_seq; lia).
  apply (in_map N.of_nat) in Hin. rewrite N2Nat.id in Hin. exact Hin.
Qed.

Lemma hex_val_digit (n : N) :
  (n < 16)%N -> hex_val (hex_digit n) = Some n.
Proof.
  intro H. apply below_16 in H. simpl in H.
  repeat (destruct H as [<-|H]; [reflexivity|]). contradiction.
Qed.

Lemma hex4_digits (n : N) :
  (n < 65536)%N ->
  hex4 (hex_digit ((n / 4096) mod 16)) (hex_digit ((n / 256) mod 16))
       (hex_digit ((n / 16) mod 16)) (hex_digit (n mod 16))
  = Some n.
Proof.
  intro H. unfold hex4.
  rewrite !hex_val_digit by (apply N.mod_lt; discriminate).
  f_equal.
  pose proof (N.Div0.div_mod n 16) as H0.
  pose proof (N.Div0.div_mod (n / 16) 16) as H1.
  pose proof (N.Div0.div_mod (n / 256) 16) as H2.
  rewrite N.Div0.div_div in H1, H2.
  change (16 * 16)%N with 256%N in *. change (256 * 16)%N with 4096%N in *.
  assert (H3 : (n / 4096 < 16)%N)
    by (apply N.Div0.div_lt_upper_bound; exact H).
  rewrite (N.mod_small (n / 4096) 16) in * by exact H3.
  lia.
Qed.

Definition high_surrogate (n : N) : bool :=
  ((55296 <=? n) && (n <=? 56319))%N.

Definition low_surrogate (n : N) : bool :=
  ((56320 <=? n) && (n <=? 57343))%N.

(** An escape that is no high surrogate is read back as its character. *)
Lemma scanstring_u_single (n h1 h2 h3 h4 : N) (tail acc : str) :
  hex4 h1 h2 h3 h4 = Some n -> high_surrogate n = false ->
  scanstring (92 :: 117 :: h1 :: h2 :: h3 :: h4 :: tail)%N acc
  = scanstring tail (n :: acc).
Proof.
  unfold high_surrogate. intros H R.
  cbn [scanstring]. change (92 =? 34)%N with false.
  change (92 =? 92)%N with true. change (117 =? 117)%N with true. cbv iota.
  rewrite H, R. reflexivity.
Qed.

(** A surrogate pair is read back as the character it encodes. *)
Lemma scanstring_u_pair (hi lo h1 h2 h3 h4 g1 g2 g3 g4 : N)
  (tail acc : str) :
  hex4 h1 h2 h3 h4 = Some hi -> high_surrogate hi = true ->
  hex4 g1 g2 g3 g4 = Some lo -> low_surrogate lo = true ->
  scanstring (92 :: 117 :: h1 :: h2 :: h3 :: h4
              :: 92 :: 117 :: g1 :: g2 :: g3 :: g4 :: tail)%N acc
  = scanstring tail
      ((65536 + ((hi - 55296) * 1024 + (lo - 56320)))%N :: acc).
Proof.
  unfold high_surrogate, low_surrogate. intros H R G L.
  cbn [scanstring]. change (92 =? 34)%N with false.
  change (92 =? 92)%N with true. change (117 =? 117)%N with true.
  cbv iota. rewrite H, R. cbn [andb]. cbv iota. rewrite G, L. reflexivity.
Qed.

Lemma u_escape_cons (n : N) (tail : str) :
  u_escape n ++ tail
  = (92 :: 117 :: hex_digit ((n / 4096) mod 16)
        :: hex_digit ((n / 256) mod 16) :: hex_digit ((n / 16) mod 16)
        :: hex_digit (n mod 16) :: tail)%N.
Proof. reflexivity. Qed.

(** The scanner reads the escape of a scalar value back as the value. *)
Lemma scanstring_escape_ascii (c : N) (tail acc : str) :
  scalar_value c = true ->
  scanstring (escape_char_ascii c ++ tail) acc = scanstring tail (c :: acc).
Proof.
  unfold scalar_value, escape_char_ascii. intro V.
  destruct (c <? 127)%N eqn:E1; [apply scanstring_escape|].
  apply N.ltb_ge in E1.
  destruct (c <? 65536)%N eqn:E2.
  - apply N.ltb_lt in E2. rewrite u_escape_cons.
    apply scanstring_u_single; [now apply hex4_digits|].
    unfold high_surrogate.
    apply orb_true_iff in V. destruct V as [V|V].
    + apply N.ltb_lt in V. apply andb_false_iff. left. apply N.leb_gt. lia.
    + apply andb_true_iff in V. destruct V as [V _]. apply N.ltb_lt in V.
      apply andb_false_iff. right. apply N.leb_gt. lia.
  - apply N.ltb_ge in E2.
    assert (Hc : (c <= 1114111)%N).
    { apply orb_true_iff in V. destruct V as [V|V].
      - apply N.ltb_lt in V. lia.
      - apply andb_true_iff in V. destruct V as [_ V]. now apply N.leb_le. }
    remember (c - 65536)%N as d eqn:Ed.
    assert (Hd : (d < 1048576)%N) by lia.
    assert (Hq : (d / 1024 < 1024)%N)
      by (apply N.Div0.div_lt_upper_bound; exact Hd).
    assert (Hm : (d mod 1024 < 1024)%N) by (apply N.mod_lt; discriminate).
    rewrite (N.mod_small (d / 1024) 1024) by exact Hq.
    pose proof (N.Div0.div_mod d 1024) as Hdm.
    remember (d / 1024)%N as q eqn:Eq. remember (d mod 1024)%N as m eqn:Em.
    clear Eq Em V.
    rewrite <- app_assoc, u_escape_cons, u_escape_cons.
    rewrite (@scanstring_u_pair (55296 + q) (56320 + m)).
    + f_equal. f_equal. lia.
    + apply hex4_digits. lia.
    + unfold high_surrogate. apply andb_true_iff.
      split; apply N.leb_le; lia.
    + apply hex4_digits. lia.
    + unfold low_surrogate. apply andb_true_iff.
      split; apply N.leb_le; lia.
Qed.

Lemma scanstring_encoded_ascii (s tail acc : str) :
  scalar_text s = true ->
  scanstring (flat_map escape_char_ascii s ++ 34%N :: tail) acc
  = Some (rev acc ++ s, tail).
Proof.
  unfold scalar_text. revert acc. induction s as [|c s IH]; intros acc V.
  - simpl. now rewrite app_nil_r.
  - cbn [forallb] in V. apply andb_true_iff in V. destruct V as [Vc Vs].
    simpl flat_map. rewrite <- app_assoc, scanstring_escape_ascii, IH
      by assumption.
    simpl. now rewrite <- app_assoc.
Qed.

(** ** Values under [ensure_ascii=True] *)

Lemma dumps_ascii_opens (v : json) : opens (dumps_ascii v).
Proof.
  unfold opens. destruct v as [|[|]|z|s|l|d].
  1-3,5-7: (do 2 eexists; split; [reflexivity | split; reflexivity]).
  destruct (str_of_Z_head z) as (c & tl & Hc & Hr).
  exists c, tl. split; [exact Hc|].
  unfold is_ws. split.
  - repeat (apply orb_false_iff; split); apply N.eqb_neq; lia.
  - apply N.eqb_neq; lia.
Qed.

Lemma length_dumps_ascii_pos (v : json) : (1 <= length (dumps_ascii v))%nat.
Proof. destruct (dumps_ascii_opens v) as (c & tl & -> & _). simpl. lia. Qed.

(** [v], well formed and of scalar values, is read back from its
    serialization, whatever follows it. *)
Definition parses_back_ascii (v : json) : Prop :=
  wf_json v = true -> scalar_json v = true ->
  forall fuel rest,
    (length (dumps_ascii v) <= fuel)%nat -> follows rest = true ->
    scan_once fuel (dumps_ascii v ++ rest) = Some (v, rest).

Definition entry_ascii (kv : str * json) : str :=
  encode_str true (fst kv) ++ lit ": " ++ dumps_ascii (snd kv).

Lemma array_items_dumps_ascii (l : list json) :
  Forall parses_back_ascii l -> forallb wf_json l = true ->
  forallb scalar_json l = true -> l <> [] ->
  forall fuel acc rest,
    (length (join sep (List.map dumps_ascii l)) < fuel)%nat ->
    array_items fuel (join sep (List.map dumps_ascii l) ++ 93%N :: rest) acc
    = Some (JList (rev acc ++ l), rest).
Proof.
  induction 1 as [|x xs Hx Hxs IH]; intros Hwf Hsc Hne fuel acc rest Hfuel;
    [congruence|].
  simpl in Hwf. apply andb_true_iff in Hwf as [Hwx Hwxs].
  simpl in Hsc. apply andb_true_iff in Hsc as [Hsx Hsxs].
  destruct fuel as [|f]; [lia|]. rewrite array_items_S.
  destruct xs as [|y ys].
  - change (join sep (List.map dumps_ascii [x])) with (dumps_ascii x) in *.
    rewrite (Hx Hwx Hsx f (93%N :: rest)) by (try reflexivity; lia).
    rewrite skip_ws_keep by reflexivity.
    change (93 =? 93)%N with true. cbv iota. reflexivity.
  - change (List.map dumps_ascii (x :: y :: ys))
      with (dumps_ascii x :: dumps_ascii y :: List.map dumps_ascii ys) in *.
    rewrite join_two in *. rewrite !length_app in Hfuel.
    change (length sep) with 2%nat in Hfuel.
    rewrite <- !app_assoc.
    change (sep ++ ?t) with (44%N :: 32%N :: t).
    rewrite (Hx Hwx Hsx f) by (try reflexivity; lia).
    rewrite skip_ws_keep by reflexivity.
    change (44 =? 93)%N with false. change (44 =? 44)%N with true. cbv iota.
    change (skip_ws (32%N :: ?t)) with (skip_ws t).
    rewrite skip_ws_opens
      by (apply opens_app, (@join_opens (dumps_ascii y)), dumps_ascii_opens).
    change (dumps_ascii y :: List.map dumps_ascii ys)
      with (List.map dumps_ascii (y :: ys)) in *.
    rewrite IH; try assumption; try discriminate.
    + simpl rev. now rewrite <- app_assoc.
    + pose proof (length_dumps_ascii_pos x). lia.
Qed.

Lemma entry_ascii_opens (kv : str * json) : opens (entry_ascii kv).
Proof. do 2 eexists. split; [reflexivity | split; reflexivity]. Qed.

Lemma object_items_dumps_ascii (d : list (str * json)) :
  Forall (fun kv => parses_back_ascii (snd kv)) d ->
  forallb (fun kv => wf_json (snd kv)) d = true ->
  forallb (fun kv => scalar_text (fst kv) && scalar_json (snd kv)) d = true ->
  d <> [] ->
  forall fuel acc rest,
    (length (join sep (List.map entry_ascii d)) < fuel)%nat ->
    object_items fuel (join sep (List.map entry_ascii d) ++ 125%N :: rest) acc
    = Some (JDict (dict_of_pairs (rev acc ++ d)), rest).
Proof.
  induction 1 as [|[k v] xs Hx Hxs IH];
    intros Hwf Hsc Hne fuel acc rest Hfuel; [congruence|].
  simpl in Hwf. apply andb_true_iff in Hwf as [Hwx Hwxs].
  cbn [forallb fst snd] in Hsc. apply andb_true_iff in Hsc as [Hsx Hsxs].
  apply andb_true_iff in Hsx as [Hsk Hsv]. simpl snd in *.
  destruct fuel as [|f]; [lia|].
  assert (Hentry : forall tail,
             entry_ascii (k, v) ++ tail
             = 34%N :: flat_map escape_char_ascii k
                    ++ 34%N :: 58%N :: 32%N :: dumps_ascii v ++ tail).
  { intro tail. unfold entry_ascii, encode_str. simpl fst. simpl snd.
    simpl. rewrite <- !app_assoc. reflexivity. }
  assert (Hlen : (length (dumps_ascii v) <= length (entry_ascii (k, v)))%nat).
  { unfold entry_ascii. rewrite !length_app. simpl snd. lia. }
  destruct xs as [|y ys].
  - change (join sep (List.map entry_ascii [(k, v)]))
      with (entry_ascii (k, v)) in *.
    rewrite Hentry, object_items_S, scanstring_encoded_ascii by exact Hsk.
    rewrite skip_ws_keep by reflexivity.
    change (58 =? 58)%N with true. cbv iota.
    change (skip_ws (32%N :: ?t)) with (skip_ws t).
    rewrite skip_ws_opens by (apply opens_app, dumps_ascii_opens).
    rewrite (Hx Hwx Hsv f (125%N :: rest)) by (try reflexivity; lia).
    rewrite skip_ws_keep by reflexivity.
    change (125 =? 125)%N with true. cbv iota. reflexivity.
  - change (List.map entry_ascii ((k, v) :: y :: ys))
      with (entry_ascii (k, v) :: entry_ascii y :: List.map entry_ascii ys)
      in *.
    rewrite join_two in *. rewrite !length_app in Hfuel.
    change (length sep) with 2%nat in Hfuel.
    rewrite <- !app_assoc.
    rewrite Hentry, object_items_S, scanstring_encoded_ascii by exact Hsk.
    rewrite skip_ws_keep by reflexivity.
    change (58 =? 58)%N with true. cbv iota.
    change (skip_ws (32%N :: ?t)) with (skip_ws t).
    rewrite skip_ws_opens by (apply opens_app, dumps_ascii_opens).
    change (sep ++ ?t) with (44%N :: 32%N :: t).
    rewrite (Hx Hwx Hsv f) by (try reflexivity; lia).
    rewrite skip_ws_keep by reflexivity.
    change (44 =? 125)%N with false. change (44 =? 44)%N with true. cbv iota.
    change (skip_ws (32%N :: ?t)) with (skip_ws t).
    rewrite skip_ws_opens
      by (apply opens_app, (@join_opens (entry_ascii y)), entry_ascii_opens).
    change (entry_ascii y :: List.map entry_ascii ys)
      with (List.map entry_ascii (y :: ys)) in *.
    destruct (join sep (List.map entry_ascii (y :: ys)) ++ 125%N :: rest)
      as [|q r0] eqn:Hj.
    { destruct (@join_opens (entry_ascii y) (List.map entry_ascii ys)
                  (entry_ascii_opens y)) as (c & tl & Hc & _).
      change (entry_ascii y :: List.map entry_ascii ys)
        with (List.map entry_ascii (y :: ys)) in Hc.
      rewrite Hc in Hj. discriminate. }
    rewrite <- Hj.
    rewrite IH; try assumption; try discriminate.
    + simpl rev. now rewrite <- app_assoc.
    + lia.
Qed.

Lemma scan_once_dumps_ascii (v : json) : parses_back_ascii v.
Proof.
  induction v as [| b | z | s | l IH | d IH] using json_induction;
    intros Hwf Hsc fuel rest Hfuel Hrest.
  - destruct fuel as [|f]; [simpl in Hfuel; lia | reflexivity].
  - destruct b; (destruct fuel as [|f]; [simpl in Hfuel; lia | reflexivity]).
  - pose proof (length_dumps_ascii_pos (JInt z)).
    destruct fuel as [|f]; [lia|].
    change (dumps_ascii (JInt z)) with (str_of_Z z).
    destruct (str_of_Z_head z) as (c & tl & Hc & Hr).
    pose proof (match_number_str_of_Z z rest Hrest) as Hm.
    rewrite Hc in *. simpl app in *.
    rewrite scan_once_number by exact Hr. now rewrite Hm.
  - destruct fuel as [|f]; [simpl in Hfuel; lia|].
    change (dumps_ascii (JStr s))
      with (34%N :: flat_map escape_char_ascii s ++ [34%N]).
    simpl app. rewrite <- app_assoc. simpl app.
    rewrite scan_once_string, scanstring_encoded_ascii by exact Hsc.
    reflexivity.
  - change (dumps_ascii (JList l))
      with (91%N :: join sep (List.map dumps_ascii l) ++ [93%N]) in *.
    simpl in Hfuel. rewrite length_app in Hfuel. simpl in Hfuel.
    destruct fuel as [|f]; [lia|].
    simpl app. rewrite <- app_assoc. simpl app. rewrite scan_once_array.
    destruct l as [|x xs].
    + reflexivity.
    + rewrite skip_ws_opens
        by (apply opens_app, (@join_opens (dumps_ascii x)), dumps_ascii_opens).
      destruct (@join_opens (dumps_ascii x) (List.map dumps_ascii xs)
                  (dumps_ascii_opens x)) as (c & tl & Hc & _ & Hb).
      change (dumps_ascii x :: List.map dumps_ascii xs)
        with (List.map dumps_ascii (x :: xs)) in Hc.
      rewrite Hc at 1. simpl app at 1. cbv iota. rewrite Hb.
      rewrite array_items_dumps_ascii; try assumption; try discriminate;
        [reflexivity | lia].
  - change (dumps_ascii (JDict d))
      with (123%N :: join sep (List.map entry_ascii d) ++ [125%N]) in *.
    simpl in Hfuel. rewrite length_app in Hfuel. simpl in Hfuel.
    simpl in Hwf. apply andb_true_iff in Hwf as [Hdist Hwf].
    cbn [scalar_json] in Hsc.
    destruct fuel as [|f]; [lia|].
    simpl app. rewrite <- app_assoc. simpl app. rewrite scan_once_object.
    destruct d as [|x xs].
    + reflexivity.
    + rewrite skip_ws_opens
        by (apply opens_app, (@join_opens (entry_ascii x)), entry_ascii_opens).
      assert (Hc : exists tl,
                 join sep (List.map entry_ascii (x :: xs)) = 34%N :: tl).
      { destruct xs; simpl; unfold entry_ascii, encode_str; simpl; eauto. }
      destruct Hc as (tl & Hc).
      rewrite Hc at 1. simpl app at 1. cbv iota.
      change (34 =? 125)%N with false. cbv iota.
      rewrite object_items_dumps_ascii; try assumption; try discriminate;
        [|lia].
      simpl rev. simpl app. unfold dict_of_pairs.
      rewrite dict_of_distinct_pairs; [reflexivity | assumption |].
      intros kv _. reflexivity.
Qed.

(** [json.loads(json.dumps(v))] is [v]. *)
Lemma loads_dumps_ascii (v : json) :
  wf_json v = true -> scalar_json v = true ->
  loads (dumps_ascii v) = Some v.
Proof.
  intros Hwf Hsc. unfold loads.
  rewrite skip_ws_opens by apply dumps_ascii_opens.
  rewrite <- (app_nil_r (dumps_ascii v)) at 2.
  rewrite (scan_once_dumps_ascii v Hwf Hsc) by (try reflexivity; lia).
  reflexivity.
Qed.

(** ** The serialization is printable ASCII *)

Lemma ascii_text_app (a b : str) :
  ascii_text (a ++ b) = ascii_text a && ascii_text b.
Proof. apply forallb_app. Qed.

Lemma ascii_hex_digit (n : N) :
  (n < 16)%N -> ascii_text [hex_digit n] = true.
Proof.
  intro H. apply below_16 in H. simpl in H.
  repeat (destruct H as [<-|H]; [reflexivity|]). contradiction.
Qed.

Lemma ascii_u_escape (n : N) : ascii_text (u_escape n) = true.
Proof.
  unfold u_escape.
  change (ascii_text ([92; 117]%N
                      ++ [hex_digit ((n / 4096) mod 16)]
                      ++ [hex_digit ((n / 256) mod 16)]
                      ++ [hex_digit ((n / 16) mod 16)]
                      ++ [hex_digit (n mod 16)]) = true).
  rewrite !ascii_text_app.
  rewrite !ascii_hex_digit by (apply N.mod_lt; discriminate).
  reflexivity.
Qed.

Lemma ascii_escape_char_ascii (c : N) :
  ascii_text (escape_char_ascii c) = true.
Proof.
  unfold escape_char_ascii.
  destruct (c <? 127)%N eqn:E1.
  - destruct (c <? 32)%N eqn:E.
    + apply N.ltb_lt in E. apply below_32 in E. simpl in E.
      repeat (destruct E as [<-|E]; [reflexivity|]). contradiction.
    + unfold escape_char. rewrite E.
      repeat match goal with
             | |- context [(c =? ?n)%N] => destruct (c =? n)%N; [reflexivity|]
             end.
      cbn [ascii_text forallb]. rewrite E1. apply N.ltb_ge in E.
      rewrite andb_true_r. apply andb_true_iff. split; [|reflexivity].
      now apply N.leb_le.
  - destruct (c <? 65536)%N; [apply ascii_u_escape|].
    now rewrite ascii_text_app, !ascii_u_escape.
Qed.

Lemma ascii_encode (s : str) : ascii_text (encode_str true s) = true.
Proof.
  unfold encode_str.
  change (ascii_text ([34%N] ++ flat_map escape_char_ascii s ++ [34%N])
          = true).
  rewrite !ascii_text_app.
  replace (ascii_text (flat_map escape_char_ascii s)) with true;
    [reflexivity|].
  symmetry. induction s as [|c s IH]; [reflexivity|].
  simpl flat_map. now rewrite ascii_text_app, ascii_escape_char_ascii.
Qed.

Lemma ascii_uint (d : Decimal.uint) : ascii_text (uint_chars d) = true.
Proof. induction d; simpl; auto. Qed.

Lemma ascii_join (parts : list str) :
  forallb ascii_text parts = true -> ascii_text (join sep parts) = true.
Proof.
  induction parts as [|x [|y l] IH]; simpl forallb; intro H.
  - reflexivity.
  - simpl. now rewrite andb_true_r in H.
  - apply andb_true_iff in H as [Hx Hl].
    rewrite join_two, !ascii_text_app, Hx, (IH Hl). reflexivity.
Qed.

(** [json.dumps(v)] holds printable ASCII only, whatever the value. *)
Lemma ascii_dumps (v : json) : ascii_text (dumps_ascii v) = true.
Proof.
  induction v as [| [|] | z | s | l IH | d IH] using json_induction;
    try reflexivity.
  - change (dumps_ascii (JInt z)) with (str_of_Z z). unfold str_of_Z.
    destruct (Z.to_int z); simpl; apply ascii_uint.
  - apply ascii_encode.
  - change (dumps_ascii (JList l))
      with ([91%N] ++ join sep (List.map dumps_ascii l) ++ [93%N]).
    rewrite !ascii_text_app, ascii_join; [reflexivity|].
    apply forallb_forall. intros t Ht. apply in_map_iff in Ht as (x & <- & Hx).
    rewrite Forall_forall in IH. now apply IH.
  - change (dumps_ascii (JDict d))
      with ([123%N] ++ join sep (List.map entry_ascii d) ++ [125%N]).
    rewrite !ascii_text_app, ascii_join; [reflexivity|].
    apply forallb_forall. intros t Ht.
    apply in_map_iff in Ht as (kv & <- & Hin).
    rewrite Forall_forall in IH. unfold entry_ascii.
    rewrite !ascii_text_app, ascii_encode, (IH kv Hin). reflexivity.
Qed.

End AsciiJsonFacts.

Module SerializedFacts.
Import PyFacts JsonFacts AsciiJsonFacts TasvaFlattenFacts TasvaRecordFacts
       TasvaTypedFacts.

(** ** The cells of a row *)

Lemma row_get_set_same (row : AddImageUrls.csv_row) (k : str)
  (v : option str) :
  AddImageUrls.row_get (AddImageUrls.row_set row k v) k = Some v.
Proof.
  induction row as [|[k' v'] row IH]; cbn [AddImageUrls.row_set].
  - cbn [AddImageUrls.row_get]. now rewrite str_eqb_refl.
  - destruct (str_eqb k' k) eqn:E; cbn [AddImageUrls.row_get]; rewrite E;
      [reflexivity|exact IH].
Qed.

Lemma row_get_set_other (row : AddImageUrls.csv_row) (k k' : str)
  (v : option str) :
  str_eqb k k' = false ->
  AddImageUrls.row_get (AddImageUrls.row_set row k v) k'
  = AddImageUrls.row_get row k'.
Proof.
  intro N. induction row as [|[k0 v0] row IH]; cbn [AddImageUrls.row_set].
  - cbn [AddImageUrls.row_get]. now rewrite N.
  - destruct (str_eqb k0 k) eqn:E; cbn [AddImageUrls.row_get].
    + apply str_eqb_eq in E. subst k0. now rewrite N.
    + destruct (str_eqb k0 k'); [reflexivity|exact IH].
Qed.

(** ** The URLs of scalar texts *)

Lemma scalar_text_app (a b : str) :
  scalar_text (a ++ b) = scalar_text a && scalar_text b.
Proof. apply forallb_app. Qed.

Lemma scalar_url (image_id : str) :
  scalar_text (AddImageUrls.generate_image_url image_id)
  = scalar_text image_id.
Proof.
  unfold AddImageUrls.generate_image_url.
  rewrite !scalar_text_app.
  change (scalar_text (lit "https://imagescdn.tasva.com/img/app/product/1/"))
    with true.
  change (scalar_text (lit ".jpg?w=1000&auto=format")) with true.
  now rewrite andb_true_r.
Qed.

Lemma texts_read_back (texts : list str) :
  forallb scalar_text texts = true ->
  loads (dumps_ascii (JList (List.map JStr texts)))
  = Some (JList (List.map JStr texts)).
Proof.
  intro H. apply loads_dumps_ascii.
  - cbn [wf_json]. apply forallb_forall. intros v Hv.
    apply in_map_iff in Hv as (t & <- & _). reflexivity.
  - cbn [scalar_json]. apply forallb_forall. intros v Hv.
    apply in_map_iff in Hv as (t & <- & Ht). cbn [scalar_json].
    rewrite forallb_forall in H. now apply H.
Qed.

(** ** The 'ShopIDs' of a Tasva record *)

Lemma shop_ids_dumped (repr : json -> str) (item product : dict)
  (shop_ids : list json) :
  Tasva._extract_product_info repr item = Ok product ->
  dict_get item (lit "ShopIDs") = Some (JList shop_ids) ->
  dict_get product (lit "ShopIDs")
  = Some (JStr (dumps_ascii (JList shop_ids))).
Proof.
  intros E H.
  rewrite (@kept_after_features repr _ item product)
    by (reflexivity || exact E).
  rewrite features_frame by reflexivity.
  unfold Tasva.basic_fields. rewrite H. get_set.
Qed.

End SerializedFacts.

(* ================================================================== *)
(** * Further properties of the code *)
(* ================================================================== *)

(** X1.  The deep search threads its accumulator: what a call appends to
    the list of found objects does not depend on what the list held
    before, and nothing already found is dropped or moved. *)
Theorem deep_search_accumulates :
  forall (data : json) (depth : nat) (found : list dict),
    Snitch._deep_search_for_products data depth found
    = found ++ Snitch._deep_search_for_products data depth [].
Proof.
  intros data depth found.
  apply DeepSearchFacts.deep_search_appends.
Qed.

(** X2.  Every object the deep search returns is a dict with one of the
    indicator keys that lacks 'children' or 'className'; and below depth
    15 nothing is searched, the list comes back as it was. *)
Theorem deep_search_finds_candidates :
  forall (data : json) (depth : nat),
    forallb (fun d => any_key_in Snitch.deep_indicators d
                      && (negb (dict_has d (lit "children"))
                          || negb (dict_has d (lit "className"))))
            (Snitch._deep_search_for_products data depth []) = true
    /\ forall found : list dict,
         (15 < depth)%nat ->
         Snitch._deep_search_for_products data depth found = found.
Proof.
  intros data depth. split.
  - apply DeepSearchFacts.deep_search_sound.
  - intros found H. apply Nat.ltb_lt in H.
    destruct data; cbn [Snitch._deep_search_for_products]; rewrite H;
      reflexivity.
Qed.

(** X3.  The recursive search returns no list or a list of products: a
    result that is not empty starts with a dict that has one of the
    indicator keys; and past depth 10 it returns nothing. *)
Theorem find_products_leads_with_product :
  forall (data : json) (depth : nat),
    (Snitch._find_products_recursive data depth = []
     \/ exists sample rest,
          Snitch._find_products_recursive data depth
          = JDict sample :: rest
          /\ any_key_in Snitch.product_indicators sample = true)
    /\ ((10 < depth)%nat ->
        Snitch._find_products_recursive data depth = []).
Proof.
  intros data depth. split.
  - apply FindFacts.find_led.
  - apply FindFacts.find_too_deep.
Qed.

(** X4.  The records the extraction returns are flat and not empty:
    whichever way the products were found, no record is the empty dict
    and every value of a record is a scalar. *)
Theorem extracted_records_are_flat :
  forall (data : json) (products : list dict),
    Snitch.extract_products data = Ok products ->
    Forall (fun p => Snitch.nonempty p = true
                     /\ forall (k : str) (v : json),
                          dict_get p k = Some v -> is_scalar v = true)
           products.
Proof.
  intros data products H.
  apply RecordFacts.extract_products_kept in H. exact H.
Qed.

(** The record of the sample payload. *)
Lemma extracted_records_are_flat_witness :
  Forall (fun p => Snitch.nonempty p = true
                   /\ forall (k : str) (v : json),
                        dict_get p k = Some v -> is_scalar v = true)
         [[(lit "id", JInt 1)]].
Proof.
  apply (@extracted_records_are_flat (JDict sample_payload)).
  reflexivity.
Defined.

(** X5.  The extraction raises on an item that is not a dict: when the
    list it processes holds one, the call ends in AttributeError (the
    flattener calls [items()] on it) and no record is returned; when
    every item is a dict it returns. *)
Theorem non_dict_item_raises :
  forall (data : dict) (items : list json),
    Snitch.products_data (fun d => Snitch._find_products_recursive d 0)
                         data = JList items ->
    if forallb is_dict items
    then exists products,
           Snitch.extract_products (JDict data) = Ok products
    else Snitch.extract_products (JDict data) = Raise AttributeError.
Proof.
  intros data items H.
  unfold Snitch.extract_products, Snitch.extract_products_with.
  rewrite H, ExtractFacts.extract_each_dicts.
  destruct (forallb is_dict items); [|reflexivity].
  cbn [bind app].
  match goal with |- exists _, match ?l with _ => _ end = _ => destruct l end;
    eexists; reflexivity.
Qed.

(** A 'data' list that holds a number. *)
Lemma non_dict_item_raises_witness :
  if forallb is_dict [JInt 1]
  then exists products,
         Snitch.extract_products (JDict number_payload) = Ok products
  else Snitch.extract_products (JDict number_payload)
       = Raise AttributeError.
Proof.
  apply (@non_dict_item_raises number_payload [JInt 1]).
  reflexivity.
Defined.

(** X6.  Flattening is idempotent: a flattened record is flattened to
    itself, field for field and in the same order. *)
Theorem flatten_is_idempotent :
  forall item : dict,
    Snitch._extract_product_info (Snitch._extract_product_info item)
    = Snitch._extract_product_info item.
Proof.
  intros item.
  apply RecordFacts.flatten_idempotent.
Qed.

(** X7.  Deduplication is idempotent: run on its own output it removes
    nothing more, by title as by 'ProductID'. *)
Theorem dedup_is_idempotent :
  forall (lower : str -> str) (repr : json -> str) (products : list dict),
    Snitch.remove_duplicates_by_title lower repr
      (Snitch.remove_duplicates_by_title lower repr products)
    = Snitch.remove_duplicates_by_title lower repr products
    /\ forall unique : list dict,
         Tasva.remove_duplicates_by_id products = Ok unique ->
         Tasva.remove_duplicates_by_id unique = Ok unique.
Proof.
  intros lower repr products. split.
  - rewrite !UniqueFacts.snitch_dedup.
    apply UniqueFacts.first_occurrences_idempotent.
  - intros unique H. apply UniqueFacts.tasva_dedup_ok in H.
    destruct H as [Hh ->]. rewrite UniqueFacts.tasva_dedup.
    rewrite UniqueFacts.first_occurrences_idempotent.
    rewrite (@UniqueFacts.hashable_subset
               (first_occurrences Tasva.key_eqb id_key products) products);
      [reflexivity| |exact Hh].
    intros p. apply UniqueFacts.first_occurrences_subset.
Qed.

(** X8.  After deduplication no two records share an identity key: the
    normalised titles of the Snitch records that have one are pairwise
    different, and so are the truthy 'ProductID's of the Tasva records. *)
Theorem dedup_leaves_unique_keys :
  forall (lower : str -> str) (repr : json -> str) (products : list dict),
    NoDup (identity_keys (title_key lower repr)
             (Snitch.remove_duplicates_by_title lower repr products))
    /\ forall unique : list dict,
         Tasva.remove_duplicates_by_id products = Ok unique ->
         NoDup (identity_keys id_key unique).
Proof.
  intros lower repr products. split.
  - rewrite UniqueFacts.snitch_dedup.
    apply (@UniqueFacts.first_occurrences_unique str str_eqb
             (title_key lower repr) PyFacts.str_eqb_eq products []).
  - intros unique H. apply UniqueFacts.tasva_dedup_ok in H.
    destruct H as [_ ->].
    apply (@UniqueFacts.first_occurrences_unique Tasva.key Tasva.key_eqb
             id_key DedupFacts.key_eqb_eq products []).
Qed.

(** X9.  The Snitch loop ends for every service and every page size: it
    makes at most 1000 requests, for the pages 1, 2, 3, ... in this
    order and each of them once, and then returns or raises.  What it
    returns are the records of these pages, page after page, none lost
    and none added. *)
Theorem snitch_loop_always_ends :
  forall (session_get : dict -> http_result) (query : str) (limit : Z),
    exists outcome,
      Snitch.scrape_query session_get query limit = Some outcome
      /\ match outcome with
         | Ok (_, st) =>
             exists n : nat,
               (1 <= n <= 1000)%nat /\ Snitch.fetched st = fetches 1 1 n
               /\ Snitch.all_products st
                  = flat_map (records_of_page session_get query limit)
                             (fetches 1 1 n)
         | Raise _ => True
         end.
Proof.
  intros session_get query limit.
  destruct (@SnitchRunFacts.snitch_loop_ends_from session_get query limit 1000
              Snitch.initial) as [outcome [H1 H2]].
  - split; [cbn; lia|]. split; reflexivity.
  - cbn. lia.
  - exists outcome. split; [exact H1|].
    destruct outcome as [[r st]|e]; [exact H2|exact I].
Qed.

(** X10.  A request that fails (in transport, with an error status, or
    with a body that does not decode) ends the query: the pass stops
    with "no products", the records of the pages before are kept, and
    nothing more is requested. *)
Theorem failed_request_ends_query :
  forall (session_get : dict -> http_result) (query : str) (limit : Z)
         (st : Snitch.state) (fuel : nat),
    failed (session_get [(lit "page", JInt (Snitch.page st));
                         (lit "limit", JInt limit);
                         (lit "keyword", JStr query)]) = true ->
    Snitch.scrape_loop session_get query limit (S fuel) st
    = Some (Ok (NoProducts,
                Snitch.State (Snitch.page st) (Snitch.all_products st)
                             (Snitch.total_count st) (Snitch.total_pages st)
                             (Snitch.fetched st ++ [Snitch.page st]))).
Proof.
  intros session_get query limit st fuel H.
  unfold Snitch.scrape_loop. cbn [while_true].
  rewrite SnitchRunFacts.examine_failed by exact H.
  reflexivity.
Qed.

(** A service that cannot be reached, asked for the first page. *)
Lemma failed_request_ends_query_witness :
  Snitch.scrape_loop unreachable (lit "shirt") 10 (S 999) Snitch.initial
  = Some (Ok (NoProducts,
              Snitch.State 1 [] JNull JNull ([] ++ [1%Z]))).
Proof.
  apply (@failed_request_ends_query unreachable (lit "shirt") 10
           Snitch.initial 999).
  reflexivity.
Defined.

(** X11.  A search posts the signed payload and at most one more: a
    second payload is posted only after an answer with status 400 and
    the error payload msg ["INVALID_REQUEST"], and it is the retry
    without the hash; no other failure is retried. *)
Theorem search_posts_at_most_twice :
  forall (self : Tasva.scraper) (session_post : dict -> http_result)
         (_generate_hash : dict -> str) (query : str) (offset limit : Z)
         (data : json) (posted : list dict),
    Tasva.search self session_post _generate_hash query offset limit
    = Ok (data, posted) ->
    let payload := Tasva.signed_payload self _generate_hash query offset limit in
    posted = [payload]
    \/ (posted = [payload; Tasva.payload_no_hash payload]
        /\ exists first error_data,
             session_post payload = Replied first
             /\ status_code first = 400%Z
             /\ body first = Some error_data
             /\ Tasva.is_invalid_request error_data = true).
Proof.
  intros self session_post _generate_hash query offset limit data posted H.
  apply TasvaRunFacts.search_printed in H. destruct H as [H _].
  apply TasvaRunFacts.exchange_posts in H. exact H.
Qed.

(** A service that rejects every request as INVALID_REQUEST. *)
Lemma search_posts_at_most_twice_witness :
  let payload :=
    Tasva.signed_payload sample_scraper (fun _ => lit "0") (lit "kurta") 0 100 in
  [payload; Tasva.payload_no_hash payload] = [payload]
  \/ ([payload; Tasva.payload_no_hash payload]
      = [payload; Tasva.payload_no_hash payload]
      /\ exists first error_data,
           rejecting payload = Replied first
           /\ status_code first = 400%Z
           /\ body first = Some error_data
           /\ Tasva.is_invalid_request error_data = true).
Proof.
  apply (@search_posts_at_most_twice sample_scraper rejecting
           (fun _ => lit "0") (lit "kurta") 0 100 (JDict [])).
  reflexivity.
Defined.

(** X12.  A decoded answer whose results.products.hits is null, a number
    or a boolean makes the search raise TypeError: the summary the
    method prints takes the length of 'hits', and neither handler of the
    method catches the error.  The loop ends with it. *)
Theorem hits_without_length_raise :
  forall (self : Tasva.scraper) (session_post : dict -> http_result)
         (_generate_hash : dict -> str) (repr : json -> str) (query : str)
         (limit : Z) (st : Tasva.state) (fuel : nat)
         (answer : http_response) (data results products_data : dict)
         (hits : json),
    limit <> 0%Z ->
    session_post (Tasva.signed_payload self _generate_hash query
                                       (Tasva.offset st) limit)
    = Replied answer ->
    status_code answer = 200%Z ->
    body answer = Some (JDict data) ->
    dict_get data (lit "results") = Some (JDict results) ->
    dict_get results (lit "products") = Some (JDict products_data) ->
    dict_get products_data (lit "hits") = Some hits ->
    is_scalar hits && negb (is_str hits) = true ->
    Tasva.search self session_post _generate_hash query
                 (Tasva.offset st) limit
    = Raise TypeError
    /\ Tasva.scrape_loop self session_post _generate_hash repr query
                         limit (S fuel) st
       = Some (Raise TypeError).
Proof.
  intros self session_post _generate_hash repr query limit st fuel answer data
         results products_data hits Hl Hp Hs Hb Hr Hpr Hh Hu.
  assert (E : Tasva.search self session_post _generate_hash query
                (Tasva.offset st) limit = Raise TypeError).
  { unfold Tasva.search, Tasva.exchange.
    apply Z.eqb_neq in Hl. rewrite Hl. cbv zeta. rewrite Hp.
    unfold Tasva.after_retry. rewrite Hs.
    change (200 =? 400)%Z with false. cbv iota.
    unfold is_http_error. rewrite Hs.
    change ((400 <=? 200)%Z && (200 <? 600)%Z) with false.
    cbv iota. rewrite Hb. cbn [bind].
    unfold Tasva.response_summary. rewrite Hr, Hpr, Hh.
    destruct hits; try discriminate; reflexivity. }
  split; [exact E|].
  unfold Tasva.scrape_loop. cbn [while_true].
  unfold Tasva.examine. rewrite E. reflexivity.
Qed.

(** A service that answers with 'hits': null. *)
Lemma hits_without_length_raise_witness :
  Tasva.search sample_scraper null_hits (fun _ => lit "0")
               (lit "shirt") (Tasva.offset Tasva.initial) 100
  = Raise TypeError
  /\ Tasva.scrape_loop sample_scraper null_hits (fun _ => lit "0")
                       (fun _ => []) (lit "shirt") 100 (S 0)
                       Tasva.initial
     = Some (Raise TypeError).
Proof.
  apply (@hits_without_length_raise sample_scraper null_hits
           (fun _ => lit "0") (fun _ => []) (lit "shirt") 100 Tasva.initial 0
           (Response 200
              (Some (JDict
                 [(lit "success", JBool true);
                  (lit "results",
                   JDict [(lit "products",
                           JDict [(lit "total", JInt 0);
                                  (lit "hits", JNull)])])])))
           [(lit "success", JBool true);
            (lit "results",
             JDict [(lit "products",
                     JDict [(lit "total", JInt 0); (lit "hits", JNull)])])]
           [(lit "products",
             JDict [(lit "total", JInt 0); (lit "hits", JNull)])]
           [(lit "total", JInt 0); (lit "hits", JNull)]
           JNull);
    try reflexivity.
  lia.
Defined.

(** X13.  With a page size of at least 1 the Tasva loop ends for every
    service: the requests are for the offsets 0, limit, 2 limit, ... in
    this order, the last of them not above 100000, and then the loop
    returns or raises.  What it returns are the records found at these
    offsets, one offset after the other, none lost and none added. *)
Theorem tasva_loop_ends :
  forall (self : Tasva.scraper) (session_post : dict -> http_result)
         (_generate_hash : dict -> str) (repr : json -> str) (query : str)
         (limit : Z) (fuel : nat),
    (1 <= limit)%Z ->
    (100000 < Z.of_nat fuel)%Z ->
    exists outcome,
      Tasva.scrape_query self session_post _generate_hash repr query
                         limit fuel = Some outcome
      /\ match outcome with
         | Ok (_, st) =>
             exists n : nat,
               (1 <= n)%nat /\ ((Z.of_nat n - 1) * limit <= 100000)%Z
               /\ Tasva.fetched st = fetches 0 limit n
               /\ Tasva.all_products st
                  = flat_map (records_at_offset self session_post
                                _generate_hash repr query limit)
                             (fetches 0 limit n)
         | Raise _ => True
         end.
Proof.
  intros self session_post _generate_hash repr query limit fuel Hl Hf.
  destruct (@TasvaRunFacts.tasva_loop_ends_from self session_post _generate_hash
              repr query limit Hl fuel Tasva.initial) as [outcome [H1 H2]].
  - exists 0%nat. cbn [Tasva.initial Tasva.offset Tasva.fetched
                         Tasva.all_products fetches flat_map].
    split; [lia|]. split; [lia|]. split; reflexivity.
  - cbn [Tasva.initial Tasva.offset]. lia.
  - exists outcome. split; [exact H1|].
    destruct outcome as [[r st]|e]; [exact H2|exact I].
Qed.

(** A service that rejects every request, asked for pages of 100. *)
Lemma tasva_loop_ends_witness :
  exists outcome,
    Tasva.scrape_query sample_scraper rejecting (fun _ => lit "0")
                       (fun _ => []) (lit "kurta") 100
                       (Z.to_nat 100001) = Some outcome
    /\ match outcome with
       | Ok (_, st) =>
           exists n : nat,
             (1 <= n)%nat /\ ((Z.of_nat n - 1) * 100 <= 100000)%Z
             /\ Tasva.fetched st = fetches 0 100 n
             /\ Tasva.all_products st
                = flat_map (records_at_offset sample_scraper rejecting
                              (fun _ => lit "0") (fun _ => []) (lit "kurta")
                              100)
                           (fetches 0 100 n)
       | Raise _ => True
       end.
Proof.
  apply (@tasva_loop_ends sample_scraper rejecting (fun _ => lit "0")
           (fun _ => []) (lit "kurta") 100 (Z.to_nat 100001)).
  - lia.
  - rewrite Z2Nat.id; lia.
Defined.

(** X14.  With a page size of 0 the first pass raises ZeroDivisionError
    (the page number is [offset // limit + 1]), whatever the service. *)
Theorem zero_limit_raises :
  forall (self : Tasva.scraper) (session_post : dict -> http_result)
         (_generate_hash : dict -> str) (repr : json -> str) (query : str)
         (fuel : nat),
    Tasva.scrape_query self session_post _generate_hash repr query 0
                       (S fuel)
    = Some (Raise ZeroDivisionError)
    /\ forall offset : Z,
         Tasva.search self session_post _generate_hash query offset 0
         = Raise ZeroDivisionError.
Proof.
  intros self session_post _generate_hash repr query fuel. split.
  - unfold Tasva.scrape_query, Tasva.scrape_loop.
    cbn [while_true]. rewrite TasvaRunFacts.examine_zero by reflexivity.
    reflexivity.
  - intros offset. reflexivity.
Qed.

(** X15.  With a negative page size the safety limit never comes: the
    offset goes down from 0, and a service that has records and signals
    more on every pass keeps the loop going for ever. *)
Theorem negative_limit_never_ends :
  forall (self : Tasva.scraper) (session_post : dict -> http_result)
         (_generate_hash : dict -> str) (repr : json -> str) (query : str)
         (limit : Z) (Inv : Tasva.state -> Prop) (fuel : nat),
    (limit < 0)%Z ->
    Inv Tasva.initial ->
    (forall st, Inv st ->
       exists st',
         Tasva.examine self session_post _generate_hash repr query
                       limit st = Ok (More st')
         /\ Inv (Tasva.advance limit st')) ->
    Tasva.scrape_query self session_post _generate_hash repr query
                       limit fuel = None.
Proof.
  intros self session_post _generate_hash repr query limit Inv fuel Hl Hi Hm.
  unfold Tasva.scrape_query, Tasva.scrape_loop.
  apply (@BoundFacts.while_true_goes_on Tasva.state
           (Tasva.examine self session_post _generate_hash repr query
                          limit)
           (Tasva.advance limit) (fun st => (Tasva.offset st >? 100000)%Z)
           (fun st => Inv st /\ (Tasva.offset st <= 0)%Z)).
  - intros st [H1 H2]. destruct (Hm st H1) as [st' [E H3]].
    exists st'. split; [exact E|]. split; [exact H3|].
    apply TasvaRunFacts.tasva_pass_logs in E. cbn in E. destruct E as [E _].
    cbn [Tasva.advance Tasva.offset]. lia.
  - intros st [_ H]. rewrite Z.gtb_ltb. apply Z.ltb_ge. lia.
  - split; [exact Hi|]. cbn. lia.
Qed.

(** The service [growing_post], asked for pages of -1, signals more on
    every pass. *)
Lemma growing_post_goes_on (st : Tasva.state) :
  len (Tasva.all_products st) = (- Tasva.offset st)%Z ->
  exists st',
    Tasva.examine sample_scraper growing_post (fun _ => lit "0")
                  (fun _ => []) (lit "shirt") (-1) st
    = Ok (More st')
    /\ len (Tasva.all_products (Tasva.advance (-1) st'))
       = (- Tasva.offset (Tasva.advance (-1) st'))%Z.
Proof.
  destruct st as [offset all tc fetched].
  cbn [Tasva.offset Tasva.all_products]. intros H.
  set (data :=
         JDict
           [(lit "success", JBool true);
            (lit "results",
             JDict [(lit "products",
                     JDict [(lit "total", JInt (2 - offset));
                            (lit "hits",
                             JList [JDict [(lit "ProductID",
                                            JStr (lit "A1"))]])])])]).
  assert (E : Tasva.search sample_scraper growing_post
                (fun _ => lit "0") (lit "shirt") offset (-1)
              = Ok (data, [Tasva.signed_payload sample_scraper
                             (fun _ => lit "0") (lit "shirt") offset (-1)]))
    by reflexivity.
  destruct (Tasva.extract_products (fun _ => []) data) as [products|e] eqn:X;
    [|discriminate X].
  assert (P : exists p, products = [p]).
  { vm_compute in X. injection X as <-. eexists. reflexivity. }
  destruct P as [p ->].
  assert (M : Tasva.has_more_after data (len [p]) (len (all ++ [p])) (-1) tc
              = Ok ((len (all ++ [p]) <? 2 - offset)%Z, JInt (2 - offset))).
  { apply (@SignalFacts.tasva_total data
             [(lit "total", JInt (2 - offset));
              (lit "hits",
               JList [JDict [(lit "ProductID", JStr (lit "A1"))]])]);
      reflexivity. }
  assert (L : len (all ++ [p]) = (1 - offset)%Z).
  { unfold len in *. rewrite length_app. cbn [length]. lia. }
  exists (Tasva.State offset (all ++ [p]) (JInt (2 - offset))
                      (fetched ++ [offset])).
  split.
  - unfold Tasva.examine.
    cbn [Tasva.offset Tasva.all_products Tasva.fetched Tasva.total_count].
    rewrite E. cbn [bind]. rewrite X. cbn [bind]. rewrite M. cbn [bind].
    rewrite L. replace (1 - offset <? 2 - offset)%Z with true; [reflexivity|].
    symmetry. apply Z.ltb_lt. lia.
  - cbn [Tasva.advance Tasva.offset Tasva.all_products]. rewrite L. lia.
Qed.

(** A service that always has more, asked for pages of -1. *)
Lemma negative_limit_never_ends_witness :
  Tasva.scrape_query sample_scraper growing_post (fun _ => lit "0")
                     (fun _ => []) (lit "shirt") (-1) 5
  = None.
Proof.
  apply (@negative_limit_never_ends sample_scraper growing_post
           (fun _ => lit "0") (fun _ => []) (lit "shirt") (-1)
           (fun st => len (Tasva.all_products st) = (- Tasva.offset st)%Z) 5).
  - lia.
  - reflexivity.
  - intros st H. apply growing_post_goes_on. exact H.
Defined.

(** C7, as stated, fails in the Tasva loop for a page size that is not
    positive.  With a page size of 0 the first pass raises
    ZeroDivisionError and nothing is returned; with a page size of -1 the
    offset goes down from 0, and the service [growing_post], which has a
    record and signals more on every pass, keeps the loop going whatever
    the number of passes allowed. *)
Lemma ceiling_needs_positive_page_size :
  Tasva.scrape_query sample_scraper endless_post (fun _ => lit "0")
                     (fun _ => []) (lit "shirt") 0 1
  = Some (Raise ZeroDivisionError)
  /\ forall fuel : nat,
       Tasva.scrape_query sample_scraper growing_post (fun _ => lit "0")
                          (fun _ => []) (lit "shirt") (-1) fuel
       = None.
Proof.
  split; [reflexivity|]. intro fuel.
  unfold Tasva.scrape_query, Tasva.scrape_loop.
  apply (@BoundFacts.while_true_goes_on Tasva.state
           (Tasva.examine sample_scraper growing_post (fun _ => lit "0")
                          (fun _ => []) (lit "shirt") (-1))
           (Tasva.advance (-1)) (fun st => (Tasva.offset st >? 100000)%Z)
           (fun st => len (Tasva.all_products st) = (- Tasva.offset st)%Z
                      /\ (Tasva.offset st <= 0)%Z)).
  - intros st [H1 H2]. destruct (growing_post_goes_on st H1) as [st' [E H3]].
    exists st'. split; [exact E|]. split; [exact H3|].
    apply TasvaRunFacts.tasva_pass_logs in E. cbn in E. destruct E as [E _].
    cbn [Tasva.advance Tasva.offset]. lia.
  - intros st [_ H]. rewrite Z.gtb_ltb. apply Z.ltb_ge. lia.
  - split; [reflexivity|]. cbn. lia.
Qed.

(** X16.  The extraction returns one record for each hit that is a dict,
    in the order of the hits: the flattening of the hit's '_source', of
    the hit itself when it has none.  Hits that are not dicts are left
    out, and no record is dropped as empty. *)
Theorem one_record_per_hit :
  forall (repr : json -> str) (data : json) (obj : dict) (hits : list json)
         (products : list dict),
    Tasva.products_obj data = Some obj ->
    Tasva.get obj "hits" (JList []) = JList hits ->
    Tasva.extract_products repr data = Ok products ->
    List.map Ok products
    = List.map (fun hit => Tasva.extract_item repr (source_of hit))
               (List.filter is_dict hits)
    /\ length products = length (List.filter is_dict hits).
Proof.
  intros repr data obj hits products Ho Hh H.
  unfold Tasva.extract_products in H. rewrite Ho, Hh in H.
  apply TasvaTypedFacts.extract_hits_records in H.
  destruct H as [records [-> Hr]]. cbn [app].
  split; [exact Hr|].
  rewrite <- (length_map Ok records), Hr. apply length_map.
Qed.

(** The page with one hit. *)
Lemma one_record_per_hit_witness :
  List.map Ok tasva_page_products
  = List.map (fun hit => Tasva.extract_item (fun _ => []) (source_of hit))
             (List.filter is_dict
                [JDict [(lit "_source",
                         JDict [(lit "ProductID", JStr (lit "A1"))])]])
  /\ length tasva_page_products
     = length (List.filter is_dict
                 [JDict [(lit "_source",
                          JDict [(lit "ProductID", JStr (lit "A1"))])]]).
Proof.
  apply (@one_record_per_hit (fun _ => []) tasva_page
           [(lit "total", JInt 2);
            (lit "hits",
             JList [JDict [(lit "_source",
                            JDict [(lit "ProductID", JStr (lit "A1"))])]])]);
    reflexivity.
Defined.

(** X17.  The flattener returns a record exactly for the raw records in
    which the truthy 'Name' of every image and of every size is a str
    and the swatch is a str or falsy; on any other it raises TypeError
    (joining the names) or AttributeError (cleaning the swatch). *)
Theorem flattener_accepts_typed_records :
  forall (repr : json -> str) (item : dict),
    if well_typed item
    then exists product, Tasva._extract_product_info repr item = Ok product
    else Tasva._extract_product_info repr item = Raise TypeError
         \/ Tasva._extract_product_info repr item = Raise AttributeError.
Proof.
  intros repr item.
  pose proof (TasvaTypedFacts.extract_info_typed repr item) as H.
  destruct (Tasva._extract_product_info repr item) as [product|e].
  - rewrite H. now exists product.
  - destruct H as [-> [->| ->]]; [now left|now right].
Qed.

(** X18.  The fields the flattener copies from the raw record stay as
    they were copied: each of the 24 holds the value of the raw record,
    or its default ('' or 0) when the raw record has none, and no later
    assignment (features, discount, media, sizes, URL) overwrites one. *)
Theorem raw_fields_are_kept :
  forall (repr : json -> str) (item product : dict),
    Tasva._extract_product_info repr item = Ok product ->
    Forall (fun f => dict_get product (lit (fst f))
                     = Some (Tasva.get item (fst f) (snd f))) raw_fields.
Proof.
  intros repr item product H.
  apply TasvaTypedFacts.raw_fields_kept with (repr := repr). exact H.
Qed.

(** The record with features. *)
Lemma raw_fields_are_kept_witness :
  Forall (fun f => dict_get featured_record (lit (fst f))
                   = Some (Tasva.get featured_item (fst f) (snd f)))
         raw_fields.
Proof.
  apply (@raw_fields_are_kept (fun _ => []) featured_item featured_record).
  reflexivity.
Defined.

(** X19.  The features are promoted and kept in full: each of the 15
    promoted fields holds the value the 'Features' dict has under its
    name, '' when it has none; 'Features_JSON' holds the serialization
    of the whole dict, which parses back to it; and the raw 'Color' is
    not touched by the promoted colour, stored as 'Color_Feature'. *)
Theorem features_are_promoted_and_kept :
  forall (repr : json -> str) (item features product : dict),
    dict_get item (lit "Features") = Some (JDict features) ->
    wf_json (JDict features) = true ->
    Tasva._extract_product_info repr item = Ok product ->
    Forall (fun f => dict_get product (lit (fst f))
                     = Some (Tasva.get features (snd f) (Tasva.text "")))
           promoted_features
    /\ dict_get product (lit "Features_JSON")
       = Some (JStr (dumps (JDict features)))
    /\ loads (dumps (JDict features)) = Some (JDict features)
    /\ dict_get product (lit "Color")
       = Some (Tasva.get item "Color" (Tasva.text "")).
Proof.
  intros repr item features product Hf Hw H.
  destruct (TasvaTypedFacts.features_promoted repr _ Hf H) as [H1 H2].
  split; [exact H2|]. split; [exact H1|].
  split; [now apply JsonFacts.loads_dumps|].
  pose proof (TasvaTypedFacts.raw_fields_kept _ _ H) as R.
  rewrite Forall_forall in R.
  apply (R ("Color"%string, Tasva.text "")).
  unfold raw_fields. cbn. tauto.
Qed.

(** The record with features. *)
Lemma features_are_promoted_and_kept_witness :
  Forall (fun f => dict_get featured_record (lit (fst f))
                   = Some (Tasva.get
                             [(lit "Brand", JStr (lit "Tasva"));
                              (lit "Color", JStr (lit "Maroon"))]
                             (snd f) (Tasva.text "")))
         promoted_features
  /\ dict_get featured_record (lit "Features_JSON")
     = Some (JStr (dumps (JDict [(lit "Brand", JStr (lit "Tasva"));
                                 (lit "Color", JStr (lit "Maroon"))])))
  /\ loads (dumps (JDict [(lit "Brand", JStr (lit "Tasva"));
                          (lit "Color", JStr (lit "Maroon"))]))
     = Some (JDict [(lit "Brand", JStr (lit "Tasva"));
                    (lit "Color", JStr (lit "Maroon"))])
  /\ dict_get featured_record (lit "Color")
     = Some (Tasva.get featured_item "Color" (Tasva.text "")).
Proof.
  apply (@features_are_promoted_and_kept (fun _ => []) featured_item
           [(lit "Brand", JStr (lit "Tasva"));
            (lit "Color", JStr (lit "Maroon"))] featured_record);
    reflexivity.
Defined.

(** X20.  Identifiers survive the 'Images' column: from the text that
    joins identifiers with ", " the same identifiers are read back, in
    order, when each is not empty, holds no comma and has no white space
    at either end; and the URLs made of them are the ones the Tasva
    flattener makes of the same names. *)
Theorem identifiers_survive_joining :
  forall ids : list str,
    forallb clean_identifier ids = true ->
    AddImageUrls.parse_images (join (lit ", ") ids) = ids
    /\ AddImageUrls.image_urls (join (lit ", ") ids)
       = List.map Tasva.cdn_url ids.
Proof.
  intros ids H.
  unfold AddImageUrls.image_urls.
  rewrite StripFacts.parse_joined by exact H.
  split; reflexivity.
Qed.

(** The two identifiers of the specification. *)
Lemma identifiers_survive_joining_witness :
  AddImageUrls.parse_images
    (join (lit ", ") [lit "1078050-16668879"; lit "1078050-16668881"])
  = [lit "1078050-16668879"; lit "1078050-16668881"]
  /\ AddImageUrls.image_urls
       (join (lit ", ") [lit "1078050-16668879"; lit "1078050-16668881"])
     = List.map Tasva.cdn_url
                [lit "1078050-16668879"; lit "1078050-16668881"].
Proof.
  apply (@identifiers_survive_joining
           [lit "1078050-16668879"; lit "1078050-16668881"]).
  reflexivity.
Defined.

(** X21.  The identifiers read from a text are clean, whatever the
    text: none is empty, none holds a comma, none starts or ends with
    white space. *)
Theorem parsed_identifiers_are_clean :
  forall images_str : str,
    forallb clean_identifier (AddImageUrls.parse_images images_str) = true.
Proof.
  intros images_str.
  apply StripFacts.parsed_clean.
Qed.

(** X22.  The table the Snitch scraper writes: no table for an empty
    list of records; otherwise the header names every field of the
    deduplicated records, each once, there is one row for each of these
    records, and every row has a cell for each field of the header. *)
Theorem snitch_table_is_complete :
  forall (lower : str -> str) (repr : json -> str) (timestamp : str)
         (products : list dict) (filename : option str) (table : Csv.table),
    snd (Snitch.save_to_csv lower repr timestamp products filename)
    = Some table ->
    let unique := Snitch.remove_duplicates_by_title lower repr products in
    products <> []
    /\ NoDup (Csv.header table)
    /\ (forall k : str,
          In k (Csv.header table)
          <-> exists p, In p unique /\ dict_has p k = true)
    /\ length (Csv.rows table) = length unique
    /\ Forall (fun r => length r = length (Csv.header table))
              (Csv.rows table).
Proof.
  intros lower repr timestamp products filename table H unique.
  unfold Snitch.save_to_csv in H.
  destruct products as [|p ps]; [discriminate H|].
  cbn [snd] in H. injection H as <-. fold unique.
  destruct (CsvFacts.header_complete Snitch.preferred_order unique) as [H1 H2].
  destruct (CsvFacts.rows_aligned Snitch.preferred_order unique) as [H3 H4].
  split; [discriminate|]. split; [exact H1|]. split; [exact H2|].
  split; [exact H3|exact H4].
Qed.

(** Two records with different fields. *)
Lemma snitch_table_is_complete_witness :
  let table :=
    Csv.write Snitch.preferred_order
      (Snitch.remove_duplicates_by_title (fun s => s) (fun _ => [])
                                         two_records) in
  let unique :=
    Snitch.remove_duplicates_by_title (fun s => s) (fun _ => [])
                                      two_records in
  two_records <> []
  /\ NoDup (Csv.header table)
  /\ (forall k : str,
        In k (Csv.header table)
        <-> exists p, In p unique /\ dict_has p k = true)
  /\ length (Csv.rows table) = length unique
  /\ Forall (fun r => length r = length (Csv.header table)) (Csv.rows table).
Proof.
  apply (@snitch_table_is_complete (fun s => s) (fun _ => []) []
           two_records None).
  reflexivity.
Defined.

(** X23.  The table the Tasva scraper writes: as for Snitch, over the
    records deduplicated by 'ProductID'; and when that deduplication
    raises (a list or dict as 'ProductID') the call raises with it and
    writes nothing. *)
Theorem tasva_table_is_complete :
  forall (timestamp : str) (products : list dict) (filename : option str),
    products <> [] ->
    match Tasva.remove_duplicates_by_id products with
    | Ok unique =>
        exists name table,
          Tasva.save_to_csv timestamp products filename
          = Ok (name, Some table)
          /\ NoDup (Csv.header table)
          /\ (forall k : str,
                In k (Csv.header table)
                <-> exists p, In p unique /\ dict_has p k = true)
          /\ length (Csv.rows table) = length unique
          /\ Forall (fun r => length r = length (Csv.header table))
                    (Csv.rows table)
    | Raise e => Tasva.save_to_csv timestamp products filename = Raise e
    end.
Proof.
  intros timestamp products filename Hp.
  unfold Tasva.save_to_csv.
  destruct products as [|p ps]; [now destruct Hp|].
  destruct (Tasva.remove_duplicates_by_id (p :: ps)) as [unique|e];
    cbn [bind]; [|reflexivity].
  destruct (CsvFacts.header_complete Tasva.preferred_order unique) as [H1 H2].
  destruct (CsvFacts.rows_aligned Tasva.preferred_order unique) as [H3 H4].
  do 2 eexists. split; [reflexivity|].
  split; [exact H1|]. split; [exact H2|]. split; [exact H3|exact H4].
Qed.

(** Two records with different fields. *)
Lemma tasva_table_is_complete_witness :
  match Tasva.remove_duplicates_by_id two_records with
  | Ok unique =>
      exists name table,
        Tasva.save_to_csv [] two_records None = Ok (name, Some table)
        /\ NoDup (Csv.header table)
        /\ (forall k : str,
              In k (Csv.header table)
              <-> exists p, In p unique /\ dict_has p k = true)
        /\ length (Csv.rows table) = length unique
        /\ Forall (fun r => length r = length (Csv.header table))
                  (Csv.rows table)
  | Raise e => Tasva.save_to_csv [] two_records None = Raise e
  end.
Proof.
  apply (@tasva_table_is_complete [] two_records None).
  discriminate.
Defined.

(** X24.  The order of the header: first the preferred fields that occur
    in a record, in the preferred order, then the other fields in
    ascending order of their names. *)
Theorem header_puts_preferred_first :
  forall products : list dict,
    (Csv.ordered_fieldnames Snitch.preferred_order products
     = List.filter (fun f => str_in f (Csv.sorted_keys products))
                   Snitch.preferred_order
       ++ List.filter (fun k => negb (str_in k Snitch.preferred_order))
                      (Csv.sorted_keys products))
    /\ (Csv.ordered_fieldnames Tasva.preferred_order products
        = List.filter (fun f => str_in f (Csv.sorted_keys products))
                      Tasva.preferred_order
          ++ List.filter (fun k => negb (str_in k Tasva.preferred_order))
                         (Csv.sorted_keys products))
    /\ ascending (Csv.sorted_keys products) = true
    /\ forall k : str,
         In k (Csv.sorted_keys products)
         <-> exists p, In p products /\ dict_has p k = true.
Proof.
  intros products.
  split; [apply CsvFacts.header_order; vm_compute; reflexivity|].
  split; [apply CsvFacts.header_order; vm_compute; reflexivity|].
  split; [apply CsvFacts.sorted_keys_ascending|].
  apply CsvFacts.sorted_keys_in.
Qed.

(** X25.  The field names of the output table: those of the input, in
    their order, with the four new columns right after the first
    'Images', or at the end when there is no 'Images'. *)
Theorem new_columns_follow_images :
  forall fieldnames : list str,
    exists before after,
      fieldnames = before ++ after
      /\ AddImageUrls.output_fieldnames fieldnames
         = before ++ AddImageUrls.new_columns ++ after
      /\ if str_in (lit "Images") fieldnames
         then exists b,
                before = b ++ [lit "Images"]
                /\ str_in (lit "Images") b = false
         else after = [].
Proof.
  intros fieldnames. unfold AddImageUrls.output_fieldnames.
  destruct (list_index (lit "Images") fieldnames) as [i|] eqn:E.
  - destruct (AddUrlsFacts.list_index_split _ _ E)
      as [b [after [H1 [H2 [H3 H4]]]]].
    exists (b ++ [lit "Images"]), after.
    rewrite H3, H4, <- !app_assoc. cbn [app].
    split; [exact H1|]. split; [reflexivity|].
    replace (str_in (lit "Images") fieldnames) with true.
    + exists b. now split.
    + symmetry. apply PyFacts.str_in_In. rewrite H1.
      apply in_app_iff. right. now left.
  - exists fieldnames, []. rewrite !app_nil_r.
    split; [reflexivity|]. split; [reflexivity|].
    now rewrite (AddUrlsFacts.list_index_none _ _ E).
Qed.

(** X27.  No cell of the input is lost or moved: for a header that names
    no field twice and none of the new columns, a line with a cell for
    each field is written with the same cells in the same columns, and
    the four new cells after the one of 'Images' (at the end without
    such a column). *)
Theorem input_cells_are_kept :
  forall (repr : json -> str) (fieldnames cells : list str),
    distinct fieldnames = true ->
    forallb (fun c => negb (str_in c fieldnames)) AddImageUrls.new_columns
    = true ->
    length cells = length fieldnames ->
    cells <> [] ->
    let added :=
      AddImageUrls.written AddImageUrls.new_columns
        (AddImageUrls.process_row repr
           (AddImageUrls.read_row fieldnames cells [])) in
    length added = 4%nat
    /\ AddImageUrls.process_line repr fieldnames cells
       = AddImageUrls.Line
           (match list_index (lit "Images") fieldnames with
            | Some i => firstn (S i) cells ++ added ++ skipn (S i) cells
            | None => cells ++ added
            end).
Proof.
  intros repr fieldnames cells Hd Hn Hl Hc added.
  split; [apply length_map|].
  assert (E : AddImageUrls.process_line repr fieldnames cells
              = AddImageUrls.Line
                  (AddImageUrls.written
                     (AddImageUrls.output_fieldnames fieldnames)
                     (AddImageUrls.process_row repr
                        (AddImageUrls.read_row fieldnames cells [])))).
  { unfold AddImageUrls.process_line.
    replace (length fieldnames <? length cells)%nat with false
      by (symmetry; apply Nat.ltb_ge; lia).
    destruct cells; [congruence|reflexivity]. }
  rewrite E. f_equal. unfold AddImageUrls.output_fieldnames.
  pose proof (AddUrlsFacts.process_line_cells repr _ _ Hd Hn Hl) as W.
  destruct (list_index (lit "Images") fieldnames) as [i|].
  - rewrite !AddUrlsFacts.written_app, AddUrlsFacts.written_firstn,
      AddUrlsFacts.written_skipn, W. reflexivity.
  - rewrite AddUrlsFacts.written_app, W. reflexivity.
Qed.

(** A line of a table with an 'Images' column. *)
Lemma input_cells_are_kept_witness :
  let added :=
    AddImageUrls.written AddImageUrls.new_columns
      (AddImageUrls.process_row (fun _ => [])
         (AddImageUrls.read_row sample_header sample_line [])) in
  length added = 4%nat
  /\ AddImageUrls.process_line (fun _ => []) sample_header sample_line
     = AddImageUrls.Line
         (match list_index (lit "Images") sample_header with
          | Some i =>
              firstn (S i) sample_line ++ added ++ skipn (S i) sample_line
          | None => sample_line ++ added
          end).
Proof.
  apply (@input_cells_are_kept (fun _ => []) sample_header sample_line);
    try reflexivity.
  discriminate.
Defined.

(** X28.  A Tasva request that fails (in transport, with an error
    status, or with a body that does not decode) and is not retried ends
    the query: the pass stops with "no products", the records of the
    offsets before are kept, and nothing more is posted. *)
Theorem failed_post_ends_query :
  forall (self : Tasva.scraper) (session_post : dict -> http_result)
         (_generate_hash : dict -> str) (repr : json -> str) (query : str)
         (limit : Z) (st : Tasva.state) (fuel : nat),
    limit <> 0%Z ->
    failed (session_post
              (Tasva.signed_payload self _generate_hash query
                                    (Tasva.offset st) limit)) = true ->
    asks_retry (session_post
                  (Tasva.signed_payload self _generate_hash query
                                        (Tasva.offset st) limit)) = false ->
    Tasva.scrape_loop self session_post _generate_hash repr query limit
                      (S fuel) st
    = Some (Ok (NoProducts,
                Tasva.State (Tasva.offset st) (Tasva.all_products st)
                            (Tasva.total_count st)
                            (Tasva.fetched st ++ [Tasva.offset st]))).
Proof.
  intros self session_post _generate_hash repr query limit st fuel Hl H Hr.
  unfold Tasva.scrape_loop. cbn [while_true].
  rewrite TasvaRunFacts.examine_failed_post by assumption.
  reflexivity.
Qed.

(** A service that answers 503, asked for the first hundred records. *)
Lemma failed_post_ends_query_witness :
  Tasva.scrape_loop sample_scraper unavailable (fun _ => lit "0")
                    (fun _ => []) (lit "kurta") 100 (S 999)
                    Tasva.initial
  = Some (Ok (NoProducts, Tasva.State 0 [] JNull ([] ++ [0%Z]))).
Proof.
  apply (@failed_post_ends_query sample_scraper unavailable (fun _ => lit "0")
           (fun _ => []) (lit "kurta") 100 Tasva.initial 999).
  - discriminate.
  - reflexivity.
  - reflexivity.
Defined.

(** X29.  The 'ImageURLs_JSON' cell that add_image_urls writes holds
    printable ASCII only, whatever the row; and when the identifiers of
    the row are texts of Unicode scalar values, it decodes to the list
    of the URLs that 'ImageURLs' joins with ", ". *)
Theorem image_urls_json_reads_back :
  forall (repr : json -> str) (row : AddImageUrls.csv_row),
    exists cell : str,
      AddImageUrls.row_get (AddImageUrls.process_row repr row)
                           (lit "ImageURLs_JSON") = Some (Some cell)
      /\ ascii_text cell = true
      /\ (forallb (fun img_id => scalar_text (py_str repr img_id))
                  (AddImageUrls.image_ids row) = true ->
          exists image_urls : list str,
            image_urls
            = List.map (fun img_id =>
                          AddImageUrls.generate_image_url (py_str repr img_id))
                       (AddImageUrls.image_ids row)
            /\ AddImageUrls.row_get (AddImageUrls.process_row repr row)
                                    (lit "ImageURLs")
               = Some (Some (join (lit ", ") image_urls))
            /\ PyJson.loads cell = Some (JList (List.map JStr image_urls))).
Proof.
  intros repr row. unfold AddImageUrls.process_row. cbv zeta.
  set (image_urls :=
         List.map (fun img_id =>
                     AddImageUrls.generate_image_url (py_str repr img_id))
                  (AddImageUrls.image_ids row)).
  eexists. split; [|split].
  - rewrite !SerializedFacts.row_get_set_other by reflexivity.
    apply SerializedFacts.row_get_set_same.
  - destruct image_urls; [reflexivity|].
    apply AsciiJsonFacts.ascii_dumps.
  - intro V. exists image_urls. split; [reflexivity|]. split.
    + rewrite !SerializedFacts.row_get_set_other by reflexivity.
      apply SerializedFacts.row_get_set_same.
    + assert (S : forallb scalar_text image_urls = true).
      { unfold image_urls. apply forallb_forall. intros u Hu.
        apply in_map_iff in Hu as (img_id & <- & Hin).
        rewrite SerializedFacts.scalar_url.
        rewrite forallb_forall in V. now apply V. }
      destruct image_urls as [|u us] eqn:E; [reflexivity|].
      rewrite <- E in *. now apply SerializedFacts.texts_read_back.
Qed.

(** The row of the sample line, with two identifiers under 'Images'. *)
Lemma image_urls_json_reads_back_witness :
  let row := AddImageUrls.read_row sample_header sample_line [] in
  exists cell : str,
    AddImageUrls.row_get (AddImageUrls.process_row (fun _ => []) row)
                         (lit "ImageURLs_JSON") = Some (Some cell)
    /\ ascii_text cell = true
    /\ exists image_urls : list str,
         image_urls
         = List.map (fun img_id =>
                       AddImageUrls.generate_image_url
                         (py_str (fun _ => []) img_id))
                    (AddImageUrls.image_ids row)
         /\ AddImageUrls.row_get (AddImageUrls.process_row (fun _ => []) row)
                                 (lit "ImageURLs")
            = Some (Some (join (lit ", ") image_urls))
         /\ PyJson.loads cell = Some (JList (List.map JStr image_urls)).
Proof.
  intro row.
  destruct (@image_urls_json_reads_back (fun _ => []) row)
    as [cell [H1 [H2 H3]]].
  exists cell. split; [exact H1|]. split; [exact H2|].
  apply H3. vm_compute. reflexivity.
Defined.

(** X30.  A list of shops goes into a Tasva record as text: when the raw
    record has a list under 'ShopIDs', the field of the record is its
    default serialization, printable ASCII only; and the list is read
    back from it when it is well formed and its strings are texts of
    Unicode scalar values. *)
Theorem shop_ids_read_back :
  forall (repr : json -> str) (item product : dict) (shop_ids : list json),
    Tasva._extract_product_info repr item = Ok product ->
    dict_get item (lit "ShopIDs") = Some (JList shop_ids) ->
    exists cell : str,
      dict_get product (lit "ShopIDs") = Some (JStr cell)
      /\ ascii_text cell = true
      /\ (wf_json (JList shop_ids) = true ->
          scalar_json (JList shop_ids) = true ->
          PyJson.loads cell = Some (JList shop_ids)).
Proof.
  intros repr item product shop_ids E H.
  exists (dumps_ascii (JList shop_ids)). split; [|split].
  - now apply (@SerializedFacts.shop_ids_dumped repr item).
  - apply AsciiJsonFacts.ascii_dumps.
  - intros W S. now apply AsciiJsonFacts.loads_dumps_ascii.
Qed.

(** A record with the shops 33 and "S" followed by U+00E9. *)
Lemma shop_ids_read_back_witness :
  exists cell : str,
    dict_get shop_record (lit "ShopIDs") = Some (JStr cell)
    /\ ascii_text cell = true
    /\ PyJson.loads cell = Some (JList [JInt 33; JStr [83; 233]%N]).
Proof.
  destruct (@shop_ids_read_back (fun _ => []) shop_item shop_record
              [JInt 33; JStr [83; 233]%N] eq_refl eq_refl)
    as [cell [H1 [H2 H3]]].
  exists cell. split; [exact H1|]. split; [exact H2|].
  apply H3; reflexivity.
Defined.
